(** * A shallow embedding of the shopping assistant (tools.py, react_agent.py)

    The development follows the two source files:

    - [tools.py]: the five lookup tools over the mock catalogue
      ([parse_price_range], [eccomerce_search_aggregtor],
      [shipping_time_estimator] with its nested helpers,
      [discount_promo_checker], [return_policy_checker],
      [competitor_price_comparison]);
    - [react_agent.py] (and its twin [react_selfcritic.py], whose parser,
      executor and loop are textually the same): [parse_tool_calls],
      [execute_tools] and [react_loop].

    Modelling conventions.

    - A Python [str] is a Rocq [string], read as the UTF-8 bytes of the text.
      Character classes ([str.lower], [str.isdigit], [str.split], the regex
      classes [\w] and [\s]) are the Python ones on the ASCII range; bytes
      above 127 are left alone by [lower]/[upper], belong to no class and
      are copied by [repr] and [json.dumps]: the model is exact on ASCII
      text.
    - Python values are the inductive type [pyval]; dictionaries are
      association lists in insertion order, with string keys (every
      dictionary of the program has string keys).
    - A Python [float] is an IEEE binary64 number, the Standard Library's
      [spec_float] at precision 53.
    - Code that can raise returns [result]; [try]/[except] is a match on the
      exception class.  Exception texts are those of CPython 3.11.
    - The clock ([datetime.now()]) and the completion service ([call_llm])
      are read through oracles passed as arguments.
    - Console output ([print]) is not modelled.  Interpreter resource limits
      (the recursion limit, the 4300-digit limit of [int]) are not modelled:
      integers are unbounded, and the JSON decoder is given fuel that is
      proved enough. *)

From Stdlib Require Import ZArith List String Ascii Bool Lia.
From Stdlib Require Import Floats.SpecFloat.
Import ListNotations.

Local Open Scope string_scope.
Local Open Scope Z_scope.

(** ** Python strings *)

Module PyStr.

Definition code (c : ascii) : N := N_of_ascii c.

Definition in_range (lo hi : N) (c : ascii) : bool :=
  (N.leb lo (code c) && N.leb (code c) hi)%bool.

Definition is_digit (c : ascii) : bool := in_range 48 57 c.
Definition is_upper (c : ascii) : bool := in_range 65 90 c.
Definition is_lower (c : ascii) : bool := in_range 97 122 c.
Definition is_alpha (c : ascii) : bool := (is_upper c || is_lower c)%bool.

(** [\w]: letters, digits and the underscore. *)
Definition is_word (c : ascii) : bool :=
  (is_alpha c || is_digit c || N.eqb (code c) 95)%bool.

(** Python's whitespace on the ASCII range: TAB, LF, VT, FF, CR, the four
    separators 0x1c-0x1f and the space. *)
Definition is_space (c : ascii) : bool :=
  (in_range 9 13 c || in_range 28 31 c || N.eqb (code c) 32)%bool.

Definition lower_char (c : ascii) : ascii :=
  if is_upper c then ascii_of_N (code c + 32) else c.

Definition upper_char (c : ascii) : ascii :=
  if is_lower c then ascii_of_N (code c - 32) else c.

Fixpoint map_chars (f : ascii -> ascii) (s : string) : string :=
  match s with
  | EmptyString => EmptyString
  | String c s' => String (f c) (map_chars f s')
  end.

Definition lower : string -> string := map_chars lower_char.
Definition upper : string -> string := map_chars upper_char.

Fixpoint filter_chars (p : ascii -> bool) (s : string) : string :=
  match s with
  | EmptyString => EmptyString
  | String c s' => if p c then String c (filter_chars p s') else filter_chars p s'
  end.

Fixpoint forall_chars (p : ascii -> bool) (s : string) : bool :=
  match s with
  | EmptyString => true
  | String c s' => (p c && forall_chars p s')%bool
  end.

(** [s] without its prefix [p], when it starts with [p]. *)
Fixpoint strip_prefix (p s : string) : option string :=
  match p, s with
  | EmptyString, _ => Some s
  | String a p', String b s' =>
      if Ascii.eqb a b then strip_prefix p' s' else None
  | String _ _, EmptyString => None
  end.

(** [s.startswith(p)] *)
Definition starts_with (p s : string) : bool :=
  match strip_prefix p s with
  | Some _ => true
  | None => false
  end.

(** [needle in hay] *)
Fixpoint contains (needle hay : string) : bool :=
  match hay with
  | EmptyString => starts_with needle EmptyString
  | String _ hay' => (starts_with needle hay || contains needle hay')%bool
  end.

(** [s.split()]: the maximal runs of non-whitespace characters. *)
Fixpoint split_ws_aux (cur : string) (s : string) : list string :=
  match s with
  | EmptyString => if String.eqb cur "" then [] else [cur]
  | String c s' =>
      if is_space c
      then (if String.eqb cur "" then split_ws_aux "" s'
            else cur :: split_ws_aux "" s')
      else split_ws_aux (cur ++ String c "") s'
  end.

Definition split_ws (s : string) : list string := split_ws_aux "" s.

(** [s.split(sep)] for a one-character separator. *)
Fixpoint split_on_aux (sep : ascii) (cur : string) (s : string) : list string :=
  match s with
  | EmptyString => [cur]
  | String c s' =>
      if Ascii.eqb c sep then cur :: split_on_aux sep "" s'
      else split_on_aux sep (cur ++ String c "") s'
  end.

Definition split_on (sep : ascii) (s : string) : list string :=
  split_on_aux sep "" s.

(** [s.strip()] *)
Fixpoint lstrip (s : string) : string :=
  match s with
  | EmptyString => EmptyString
  | String c s' => if is_space c then lstrip s' else s
  end.

Fixpoint rstrip (s : string) : string :=
  match s with
  | EmptyString => EmptyString
  | String c s' =>
      let r := rstrip s' in
      if (is_space c && String.eqb r "")%bool then EmptyString else String c r
  end.

Definition strip (s : string) : string := rstrip (lstrip s).

(** [sep.join(l)] *)
Fixpoint join (sep : string) (l : list string) : string :=
  match l with
  | [] => ""
  | [x] => x
  | x :: rest => x ++ sep ++ join sep rest
  end.

(** Elements of [set(l)], in order of first occurrence. *)
Fixpoint dedup (l : list string) : list string :=
  match l with
  | [] => []
  | x :: rest =>
      x :: filter (fun y => negb (String.eqb x y)) (dedup rest)
  end.

Definition digit_val (c : ascii) : Z := Z.of_N (code c) - 48.

(** Value of a string of decimal digits, most significant first. *)
Fixpoint digits_val_aux (acc : Z) (s : string) : Z :=
  match s with
  | EmptyString => acc
  | String c s' => digits_val_aux (10 * acc + digit_val c) s'
  end.

Definition digits_val (s : string) : Z := digits_val_aux 0 s.

Definition digit_char (d : Z) : ascii := ascii_of_N (Z.to_N (d + 48)).

(** Decimal digits of a non-negative integer. *)
Fixpoint digits_of_pos_fuel (fuel : nat) (n : Z) (acc : string) : string :=
  match fuel with
  | O => acc
  | S fuel' =>
      let acc' := String (digit_char (n mod 10)) acc in
      if n <? 10 then acc' else digits_of_pos_fuel fuel' (n / 10) acc'
  end.

Definition digits_of_nonneg (n : Z) : string :=
  digits_of_pos_fuel (S (Z.to_nat (Z.log2 n))) n "".

(** [str(n)] for an integer. *)
Definition string_of_Z (n : Z) : string :=
  if n <? 0 then "-" ++ digits_of_nonneg (- n) else digits_of_nonneg n.

Fixpoint repeat_char (c : ascii) (n : nat) : string :=
  match n with
  | O => ""
  | S n' => String c (repeat_char c n')
  end.

(** [s.zfill(w)] for a digit string. *)
Definition zfill (w : nat) (s : string) : string :=
  repeat_char "0" (w - String.length s) ++ s.

Definition hex_char (d : Z) : ascii :=
  if d <? 10 then digit_char d else ascii_of_N (Z.to_N (d + 87)).

End PyStr.

(** ** Python floats: IEEE binary64 *)

Module Float64.

Import PyStr.

Definition prec : Z := 53.
Definition emax : Z := 1024.

Definition float := spec_float.

(** [float(n)] for an integer [n], rounded to nearest-even; an infinite
    result is Python's [OverflowError]. *)
Definition of_Z (n : Z) : float := binary_normalize prec emax n 0 false.

Definition is_finite (x : float) : bool :=
  match x with
  | S754_zero _ | S754_finite _ _ _ => true
  | _ => false
  end.

(** The float nearest to [n * 10^x] for [n >= 0] (the value of a decimal
    literal), with sign [neg]. *)
Definition of_decimal (neg : bool) (n : Z) (x : Z) : float :=
  match n with
  | Zpos p =>
      if 0 <=? x
      then binary_round prec emax neg (Pos.mul p (Z.to_pos (10 ^ x))) 0
      else let '(mz, ez, lz) :=
             SFdiv_core_binary prec emax (Zpos p) 0 (10 ^ (- x)) 0 in
           binary_round_aux prec emax neg mz ez lz
  | _ => S754_zero neg
  end.

Definition leb (x y : float) : bool := SFleb x y.
Definition ltb (x y : float) : bool := SFltb x y.
Definition eqb (x y : float) : bool := SFeqb x y.

(** [bool(x)] *)
Definition truthy (x : float) : bool :=
  match x with
  | S754_zero _ => false
  | _ => true
  end.

(** Structural equality, used to test that a decimal reads back as [x]. *)
Definition same (x y : float) : bool :=
  match x, y with
  | S754_zero a, S754_zero b => Bool.eqb a b
  | S754_infinity a, S754_infinity b => Bool.eqb a b
  | S754_nan, S754_nan => true
  | S754_finite a m e, S754_finite b m' e' =>
      (Bool.eqb a b && Pos.eqb m m' && Z.eqb e e')%bool
  | _, _ => false
  end.

(** *** [repr(x)]: the shortest decimal that reads back as [x] *)

(** [m * 2^e] as a fraction. *)
Definition ratio (m : positive) (e : Z) : Z * Z :=
  if 0 <=? e then (Zpos m * 2 ^ e, 1) else (Zpos m, 2 ^ (- e)).

(** [num/den < 10^k] *)
Definition below_pow10 (num den k : Z) : bool :=
  if 0 <=? k then num <? den * 10 ^ k else num * 10 ^ (- k) <? den.

(** The least [k >= k0] with [num/den < 10^k]: the position of the decimal
    point. *)
Fixpoint decpt_from (fuel : nat) (num den k0 : Z) : Z :=
  match fuel with
  | O => k0
  | S fuel' =>
      if below_pow10 num den k0 then k0
      else decpt_from fuel' num den (k0 + 1)
  end.

(** The scan starts just below [log10 (num/den)], estimated from the binary
    logarithms ([log10 2] is a little less than 30103/100000). *)
Definition decpt (num den : Z) : Z :=
  let l := Z.log2 num - Z.log2 den in
  decpt_from 8 num den ((l - 1) * 30103 / 100000 - 1).

(** The best [p]-digit decimal numerator [d] such that [d * 10^(k-p)] reads
    back as [x], if there is one: the candidates are the two neighbours of
    [x * 10^(p-k)], and of two that read back the nearer one is taken. *)
Definition try_digits (x : float) (num den k : Z) (p : Z) : option Z :=
  let s := p - k in
  let a := if 0 <=? s then num * 10 ^ s else num in
  let b := if 0 <=? s then den else den * 10 ^ (- s) in
  let lo := a / b in
  let hi := lo + 1 in
  let ok d := same (of_decimal false d (- s)) x in
  if a mod b =? 0 then (if ok lo then Some lo else None)
  else
    match ok lo, ok hi with
    | true, false => Some lo
    | false, true => Some hi
    | true, true =>
        match (2 * a) ?= ((2 * lo + 1) * b) with
        | Lt => Some lo
        | Gt => Some hi
        | Eq => if Z.even lo then Some lo else Some hi
        end
    | false, false => None
    end.

Fixpoint shortest_from (fuel : nat) (x : float) (num den k p : Z)
  : Z * Z :=
  match fuel with
  | O => (0, p)
  | S fuel' =>
      match try_digits x num den k p with
      | Some d => (d, p)
      | None => shortest_from fuel' x num den k (p + 1)
      end
  end.

Fixpoint rstrip_zeros (s : string) : string :=
  match s with
  | EmptyString => EmptyString
  | String c s' =>
      let r := rstrip_zeros s' in
      if (Ascii.eqb c "0" && String.eqb r "")%bool then EmptyString
      else String c r
  end.

(** Digit string (no trailing zeros) and decimal point position of the
    magnitude [m * 2^e] of a finite non-zero float. *)
Definition shortest_digits (m : positive) (e : Z) : string * Z :=
  let '(num, den) := ratio m e in
  let k := decpt num den in
  let '(d, p) := shortest_from 17 (S754_finite false m e) num den k 1 in
  let ds := digits_of_nonneg d in
  (rstrip_zeros ds, k + (Z.of_nat (String.length ds) - p)).

Definition repeat_zero (n : Z) : string := repeat_char "0" (Z.to_nat n).

(** Layout of [repr]: positional notation when the decimal point lies in
    (-4, 16], exponent notation otherwise. *)
Definition format_short (neg : bool) (digits : string) (k : Z) : string :=
  let nd := Z.of_nat (String.length digits) in
  let body :=
    if ((-4 <? k) && (k <=? 16))%bool then
      if k <=? 0 then "0." ++ repeat_zero (- k) ++ digits
      else if nd <=? k then digits ++ repeat_zero (k - nd) ++ ".0"
      else String.substring 0 (Z.to_nat k) digits ++ "." ++
           String.substring (Z.to_nat k) (Z.to_nat (nd - k)) digits
    else
      let e := k - 1 in
      let mant :=
        match digits with
        | String c EmptyString => String c ""
        | String c rest => String c ("." ++ rest)
        | EmptyString => ""
        end in
      mant ++ "e" ++ (if e <? 0 then "-" else "+") ++
      zfill 2 (digits_of_nonneg (Z.abs e))
  in (if neg then "-" else "") ++ body.

(** [repr(x)] and [str(x)] *)
Definition repr (x : float) : string :=
  match x with
  | S754_nan => "nan"
  | S754_infinity s => if s then "-inf" else "inf"
  | S754_zero s => if s then "-0.0" else "0.0"
  | S754_finite s m e =>
      let '(ds, k) := shortest_digits m e in format_short s ds k
  end.

(** *** [float(s)] for a string *)

(** A run of digits in which single underscores may separate digits; the
    first digit has been read by the caller. *)
Fixpoint digitpart_rest (s : string) : string * string :=
  match s with
  | String c s' =>
      if is_digit c then
        let '(d, r) := digitpart_rest s' in (String c d, r)
      else if Ascii.eqb c "_" then
        match s' with
        | String c2 s'' =>
            if is_digit c2 then
              let '(d, r) := digitpart_rest s'' in (String c2 d, r)
            else ("", s)
        | EmptyString => ("", s)
        end
      else ("", s)
  | EmptyString => ("", s)
  end.

Definition digitpart (s : string) : option (string * string) :=
  match s with
  | String c s' =>
      if is_digit c then
        let '(d, r) := digitpart_rest s' in Some (String c d, r)
      else None
  | EmptyString => None
  end.

Definition read_sign (s : string) : bool * string :=
  match s with
  | String c s' =>
      if Ascii.eqb c "-" then (true, s')
      else if Ascii.eqb c "+" then (false, s')
      else (false, s)
  | EmptyString => (false, s)
  end.

(** Optional exponent part; [None] when what follows is not one. *)
Definition read_exponent (s : string) : option (Z * string) :=
  match s with
  | EmptyString => Some (0, s)
  | String c s' =>
      if (Ascii.eqb c "e" || Ascii.eqb c "E")%bool then
        let '(neg, s1) := read_sign s' in
        match digitpart s1 with
        | Some (d, r) =>
            Some ((if neg then - digits_val d else digits_val d), r)
        | None => None
        end
      else Some (0, s)
  end.

(** The decimal forms [digits], [digits.], [digits.digits], [.digits], each
    with an optional exponent. *)
Definition read_decimal (neg : bool) (s : string) : option float :=
  let finish ip fp s1 :=
    match read_exponent s1 with
    | Some (x, EmptyString) =>
        Some (of_decimal neg (digits_val (ip ++ fp))
                (x - Z.of_nat (String.length fp)))
    | _ => None
    end in
  match digitpart s with
  | Some (ip, String c s1) =>
      if Ascii.eqb c "." then
        match digitpart s1 with
        | Some (fp, s2) => finish ip fp s2
        | None => finish ip "" s1
        end
      else finish ip "" (String c s1)
  | Some (ip, EmptyString) => finish ip "" ""
  | None =>
      match s with
      | String c s1 =>
          if Ascii.eqb c "." then
            match digitpart s1 with
            | Some (fp, s2) => finish "" fp s2
            | None => None
            end
          else None
      | EmptyString => None
      end
  end.

(** [float(s)]: [None] stands for Python's [ValueError]. *)
Definition of_string (s : string) : option float :=
  let '(neg, body) := read_sign (strip s) in
  let w := lower body in
  if (String.eqb w "inf" || String.eqb w "infinity")%bool
  then Some (S754_infinity neg)
  else if String.eqb w "nan" then Some S754_nan
  else read_decimal neg body.

End Float64.

(** ** Python values, exceptions and the builtins the program uses *)

Module Py.

Import PyStr.

#[warnings="-register-all"]
Inductive pyval : Type :=
| VNone
| VBool (b : bool)
| VInt (n : Z)
| VFloat (x : Float64.float)
| VStr (s : string)
| VList (l : list pyval)
| VTuple (l : list pyval)
| VDict (d : list (string * pyval)).

Inductive exn_class : Type :=
| TypeError | ValueError | AttributeError | KeyError | IndexError
| OverflowError | UnboundLocalError | RecursionError | JSONDecodeError.

Definition exn_class_eqb (a b : exn_class) : bool :=
  match a, b with
  | TypeError, TypeError | ValueError, ValueError
  | AttributeError, AttributeError | KeyError, KeyError
  | IndexError, IndexError | OverflowError, OverflowError | UnboundLocalError, UnboundLocalError
  | RecursionError, RecursionError | JSONDecodeError, JSONDecodeError => true
  | _, _ => false
  end.

(** An exception: its class and [str(e)]. *)
Record exn : Type := mk_exn { exn_cls : exn_class; exn_str : string }.

(** [isinstance(e, c)]: [JSONDecodeError] derives from [ValueError]. *)
Definition is_instance (e : exn) (c : exn_class) : bool :=
  (exn_class_eqb (exn_cls e) c ||
   (exn_class_eqb (exn_cls e) JSONDecodeError && exn_class_eqb c ValueError))%bool.

Inductive result (A : Type) : Type :=
| OK (a : A)
| Raise (e : exn).

Arguments OK {A} a.
Arguments Raise {A} e.

Definition bind {A B : Type} (r : result A) (k : A -> result B) : result B :=
  match r with
  | OK a => k a
  | Raise e => Raise e
  end.

Definition raise {A : Type} (c : exn_class) (msg : string) : result A :=
  Raise (mk_exn c msg).

Declare Scope py_scope.
Notation "x <- e ;; k" := (bind e (fun x => k))
  (at level 61, e at next level, right associativity) : py_scope.
Notation "' pat <- e ;; k" := (bind e (fun x => match x with pat => k end))
  (at level 61, pat pattern, e at next level, right associativity) : py_scope.
Open Scope py_scope.

(** [try: body except c: handler] *)
Definition try_except {A : Type} (body : result A) (c : exn_class)
  (handler : exn -> result A) : result A :=
  match body with
  | OK a => OK a
  | Raise e => if is_instance e c then handler e else Raise e
  end.

Definition type_name (v : pyval) : string :=
  match v with
  | VNone => "NoneType"
  | VBool _ => "bool"
  | VInt _ => "int"
  | VFloat _ => "float"
  | VStr _ => "str"
  | VList _ => "list"
  | VTuple _ => "tuple"
  | VDict _ => "dict"
  end.

(** [bool(v)] *)
Definition truthy (v : pyval) : bool :=
  match v with
  | VNone => false
  | VBool b => b
  | VInt n => negb (n =? 0)
  | VFloat x => Float64.truthy x
  | VStr s => negb (String.eqb s "")
  | VList l | VTuple l => match l with [] => false | _ => true end
  | VDict d => match d with [] => false | _ => true end
  end.

(** The integer a finite float is equal to, if any. *)
Definition float_as_Z (x : Float64.float) : option Z :=
  match x with
  | S754_zero _ => Some 0
  | S754_finite s m e =>
      let '(num, den) := Float64.ratio m e in
      if num mod den =? 0
      then Some (if s then - (num / den) else num / den)
      else None
  | _ => None
  end.

(** [b == v] for a bool [b]: bools are the integers 0 and 1, numbers of
    different types are compared by value, and nothing else equals a
    number. *)
Definition eq_bool (b : bool) (v : pyval) : bool :=
  let n := if b then 1 else 0 in
  match v with
  | VBool b' => Bool.eqb b b'
  | VInt m => n =? m
  | VFloat x => match float_as_Z x with Some m => n =? m | None => false end
  | _ => false
  end.

(** *** [repr] and [str] *)

Definition backslash : ascii := ascii_of_N 92.
Definition dquote : ascii := ascii_of_N 34.
Definition squote : ascii := ascii_of_N 39.

Definition hex2 (n : Z) : string :=
  String (hex_char (n / 16)) (String (hex_char (n mod 16)) "").

Definition repr_char (quote : ascii) (c : ascii) : string :=
  let n := Z.of_N (code c) in
  if (Ascii.eqb c quote || Ascii.eqb c backslash)%bool
  then String backslash (String c "")
  else if n =? 9 then String backslash "t"
  else if n =? 10 then String backslash "n"
  else if n =? 13 then String backslash "r"
  else if ((n <? 32) || (n =? 127))%bool then String backslash ("x" ++ hex2 n)
  else String c "".

Fixpoint concat_map_chars (f : ascii -> string) (s : string) : string :=
  match s with
  | EmptyString => ""
  | String c s' => f c ++ concat_map_chars f s'
  end.

(** [repr(s)] for a string: single quotes, unless the text has a single
    quote and no double quote. *)
Definition repr_str (s : string) : string :=
  let q := if (contains (String squote "") s &&
               negb (contains (String dquote "") s))%bool
           then dquote else squote in
  String q (concat_map_chars (repr_char q) s ++ String q "").

Fixpoint repr (v : pyval) : string :=
  let fix repr_items (l : list pyval) : string :=
    match l with
    | [] => ""
    | [x] => repr x
    | x :: rest => repr x ++ ", " ++ repr_items rest
    end in
  let fix repr_pairs (d : list (string * pyval)) : string :=
    match d with
    | [] => ""
    | [(k, x)] => repr_str k ++ ": " ++ repr x
    | (k, x) :: rest => repr_str k ++ ": " ++ repr x ++ ", " ++ repr_pairs rest
    end in
  match v with
  | VNone => "None"
  | VBool b => if b then "True" else "False"
  | VInt n => string_of_Z n
  | VFloat x => Float64.repr x
  | VStr s => repr_str s
  | VList l => "[" ++ repr_items l ++ "]"
  | VTuple [x] => "(" ++ repr x ++ ",)"
  | VTuple l => "(" ++ repr_items l ++ ")"
  | VDict d => "{" ++ repr_pairs d ++ "}"
  end.

(** [str(v)], also what an f-string puts for [{v}]. *)
Definition str (v : pyval) : string :=
  match v with
  | VStr s => s
  | _ => repr v
  end.

(** *** Dictionaries *)

Fixpoint dict_get (d : list (string * pyval)) (k : string) : option pyval :=
  match d with
  | [] => None
  | (k', v) :: rest => if String.eqb k' k then Some v else dict_get rest k
  end.

(** [d[k] = v]: an existing key keeps its place. *)
Fixpoint dict_set (d : list (string * pyval)) (k : string) (v : pyval)
  : list (string * pyval) :=
  match d with
  | [] => [(k, v)]
  | (k', v') :: rest =>
      if String.eqb k' k then (k', v) :: rest
      else (k', v') :: dict_set rest k v
  end.

(** [d.update(other)] *)
Definition dict_update (d other : list (string * pyval))
  : list (string * pyval) :=
  fold_left (fun acc kv => dict_set acc (fst kv) (snd kv)) other d.

(** [hash(v)] succeeds: lists and dictionaries are unhashable, a tuple is
    as hashable as its items.  The result names the offending type. *)
Fixpoint unhashable (v : pyval) : option string :=
  let fix first (l : list pyval) : option string :=
    match l with
    | [] => None
    | x :: rest =>
        match unhashable x with Some t => Some t | None => first rest end
    end in
  match v with
  | VList _ => Some "list"
  | VDict _ => Some "dict"
  | VTuple l => first l
  | _ => None
  end.

(** Looking up an arbitrary key in a dictionary with string keys: the key is
    hashed first; only a string can be equal to a string key. *)
Definition dict_lookup (d : list (string * pyval)) (k : pyval)
  : result (option pyval) :=
  match unhashable k with
  | Some t => raise TypeError ("unhashable type: " ++ repr_str t)
  | None =>
      match k with
      | VStr s => OK (dict_get d s)
      | _ => OK None
      end
  end.

(** *** Conversions *)

(** [float(v)] *)
Definition to_float (v : pyval) : result Float64.float :=
  match v with
  | VFloat x => OK x
  | VInt n =>
      let x := Float64.of_Z n in
      if Float64.is_finite x then OK x
      else raise OverflowError "int too large to convert to float"
  | VBool b => OK (Float64.of_Z (if b then 1 else 0))
  | VStr s =>
      match Float64.of_string s with
      | Some x => OK x
      | None =>
          raise ValueError ("could not convert string to float: " ++ repr_str s)
      end
  | _ =>
      raise TypeError
        ("float() argument must be a string or a real number, not " ++
         repr_str (type_name v))
  end.

(** [int(s)] for a string of ASCII digits (the only strings the program
    passes to [int]): the empty string is a [ValueError]. *)
Definition int_of_digits (s : string) : result Z :=
  if String.eqb s ""
  then raise ValueError
         ("invalid literal for int() with base 10: " ++ repr_str s)
  else OK (digits_val s).

(** [v.lower()]: only strings have the method. *)
Definition attr_lower (v : pyval) : result string :=
  match v with
  | VStr s => OK (lower s)
  | _ => raise AttributeError
           (repr_str (type_name v) ++ " object has no attribute 'lower'")
  end.

(** [int(s)] for a string: optional sign, then digits in which single
    underscores may separate digits, between optional whitespace. *)
Definition int_of_string (s : string) : result Z :=
  let bad := raise ValueError
               ("invalid literal for int() with base 10: " ++ repr_str s) in
  let '(neg, body) := Float64.read_sign (strip s) in
  match Float64.digitpart body with
  | Some (d, EmptyString) => OK (if neg then - digits_val d else digits_val d)
  | _ => bad
  end.

(** [int(v)] *)
Definition to_int (v : pyval) : result Z :=
  match v with
  | VStr s => int_of_string s
  | VInt n => OK n
  | VBool b => OK (if b then 1 else 0)
  | _ => raise TypeError
           ("int() argument must be a string, a bytes-like object or a " ++
            "real number, not " ++ repr_str (type_name v))
  end.

(** [v.split(sep)] for a one-character separator. *)
Definition attr_split (v : pyval) (sep : ascii) : result (list string) :=
  match v with
  | VStr s => OK (split_on sep s)
  | _ => raise AttributeError
           (repr_str (type_name v) ++ " object has no attribute 'split'")
  end.

(** [v.get(k, default)] *)
Definition method_get (v k default : pyval) : result pyval :=
  match v with
  | VDict d =>
      r <- dict_lookup d k ;;
      OK (match r with Some x => x | None => default end)
  | _ => raise AttributeError
           (repr_str (type_name v) ++ " object has no attribute 'get'")
  end.

(** [l[i]] for a sequence, negative indices counting from the end. *)
Definition seq_index {A : Type} (l : list A) (i : Z) : option A :=
  let n := Z.of_nat (List.length l) in
  let j := if i <? 0 then i + n else i in
  if ((0 <=? j) && (j <? n))%bool then nth_error l (Z.to_nat j) else None.

Definition int_index (k : pyval) : option Z :=
  match k with
  | VInt i => Some i
  | VBool b => Some (if b then 1 else 0)
  | _ => None
  end.

(** [v[k]] *)
Definition subscript (v k : pyval) : result pyval :=
  match v with
  | VDict d =>
      r <- dict_lookup d k ;;
      match r with
      | Some x => OK x
      | None => raise KeyError (repr k)
      end
  | VList l =>
      match int_index k with
      | Some i =>
          match seq_index l i with
          | Some x => OK x
          | None => raise IndexError "list index out of range"
          end
      | None => raise TypeError
                  ("list indices must be integers or slices, not " ++
                   type_name k)
      end
  | VTuple l =>
      match int_index k with
      | Some i =>
          match seq_index l i with
          | Some x => OK x
          | None => raise IndexError "tuple index out of range"
          end
      | None => raise TypeError
                  ("tuple indices must be integers or slices, not " ++
                   type_name k)
      end
  | VStr s =>
      match int_index k with
      | Some i =>
          match seq_index (list_ascii_of_string s) i with
          | Some c => OK (VStr (String c ""))
          | None => raise IndexError "string index out of range"
          end
      | None => raise TypeError
                  ("string indices must be integers, not " ++
                   repr_str (type_name k))
      end
  | _ => raise TypeError
           (repr_str (type_name v) ++ " object is not subscriptable")
  end.

(** [a, b = v] for a tuple or a list. *)
Definition unpack2 (v : pyval) : result (pyval * pyval) :=
  match v with
  | VTuple l | VList l =>
      match l with
      | [a; b] => OK (a, b)
      | _ :: _ :: _ :: _ =>
          raise ValueError "too many values to unpack (expected 2)"
      | _ =>
          raise ValueError
            ("not enough values to unpack (expected 2, got " ++
             string_of_Z (Z.of_nat (List.length l)) ++ ")")
      end
  | _ => raise TypeError
           ("cannot unpack non-iterable " ++ type_name v ++ " object")
  end.

(** Calling [fname] with the keyword arguments [kw] unpacked from a
    dictionary, for a function whose parameters are [names], of
    which [required] have no default: the first keyword that names no
    parameter is reported, then a missing required argument.  The result
    gives each parameter its value, [None] being every default. *)
Fixpoint first_unexpected (names : list string) (kw : list (string * pyval))
  : option string :=
  match kw with
  | [] => None
  | (k, _) :: rest =>
      if existsb (String.eqb k) names then first_unexpected names rest
      else Some k
  end.

Definition missing_message (fname : string) (missing : list string) : string :=
  fname ++ "() missing " ++ string_of_Z (Z.of_nat (List.length missing)) ++
  " required positional argument" ++
  (match missing with [_] => "" | _ => "s" end) ++ ": " ++
  join " and " (map repr_str missing).

Definition bind_kwargs (fname : string) (names required : list string)
  (kw : list (string * pyval)) : result (string -> pyval) :=
  match first_unexpected names kw with
  | Some k =>
      raise TypeError
        (fname ++ "() got an unexpected keyword argument " ++ repr_str k)
  | None =>
      match filter (fun r => match dict_get kw r with
                             | None => true | Some _ => false end) required with
      | [] => OK (fun n => match dict_get kw n with
                           | Some v => v | None => VNone end)
      | missing => raise TypeError (missing_message fname missing)
      end
  end.

End Py.

(** ** The [json] module: [dumps] and [loads] *)

Module Json.

Import PyStr Py.
Open Scope py_scope.

(** *** [json.dumps] with its default settings *)

Definition u_escape (n : Z) : string :=
  String backslash ("u00" ++ hex2 n).

Definition dumps_char (c : ascii) : string :=
  let n := Z.of_N (code c) in
  if (Ascii.eqb c dquote || Ascii.eqb c backslash)%bool
  then String backslash (String c "")
  else if n =? 10 then String backslash "n"
  else if n =? 13 then String backslash "r"
  else if n =? 9 then String backslash "t"
  else if n =? 12 then String backslash "f"
  else if n =? 8 then String backslash "b"
  else if ((n <? 32) || (n =? 127))%bool then u_escape n
  else String c "".

Definition dumps_str (s : string) : string :=
  String dquote (concat_map_chars dumps_char s ++ String dquote "").

Definition dumps_float (x : Float64.float) : string :=
  match x with
  | S754_nan => "NaN"
  | S754_infinity s => if s then "-Infinity" else "Infinity"
  | _ => Float64.repr x
  end.

Fixpoint dumps (v : pyval) : string :=
  let fix items (l : list pyval) : string :=
    match l with
    | [] => ""
    | [x] => dumps x
    | x :: rest => dumps x ++ ", " ++ items rest
    end in
  let fix pairs (d : list (string * pyval)) : string :=
    match d with
    | [] => ""
    | [(k, x)] => dumps_str k ++ ": " ++ dumps x
    | (k, x) :: rest => dumps_str k ++ ": " ++ dumps x ++ ", " ++ pairs rest
    end in
  match v with
  | VNone => "null"
  | VBool b => if b then "true" else "false"
  | VInt n => string_of_Z n
  | VFloat x => dumps_float x
  | VStr s => dumps_str s
  | VList l | VTuple l => "[" ++ items l ++ "]"
  | VDict d => "{" ++ pairs d ++ "}"
  end.

(** *** [json.loads]

    The decoder of the [json] module: a value between optional whitespace,
    and nothing after it.  The text of a [JSONDecodeError] names the kind of
    error; the position the real message ends with is left out (the program
    never reads it). *)

Definition decode_error {A : Type} (msg : string) : result A :=
  raise JSONDecodeError msg.

Definition is_json_ws (c : ascii) : bool :=
  let n := code c in
  (N.eqb n 32 || N.eqb n 9 || N.eqb n 10 || N.eqb n 13)%bool.

Fixpoint skip_ws (s : string) : string :=
  match s with
  | String c s' => if is_json_ws c then skip_ws s' else s
  | EmptyString => s
  end.

Definition hex_val (c : ascii) : option Z :=
  let n := Z.of_N (code c) in
  if is_digit c then Some (n - 48)
  else if ((97 <=? n) && (n <=? 102))%bool then Some (n - 87)
  else if ((65 <=? n) && (n <=? 70))%bool then Some (n - 55)
  else None.

Definition hex4 (a b c d : ascii) : option Z :=
  match hex_val a, hex_val b, hex_val c, hex_val d with
  | Some x, Some y, Some z, Some w => Some (((x * 16 + y) * 16 + z) * 16 + w)
  | _, _, _, _ => None
  end.

Definition byte (n : Z) : ascii := ascii_of_N (Z.to_N n).

(** UTF-8 bytes of a code point. *)
Definition utf8 (cp : Z) : string :=
  if cp <? 128 then String (byte cp) ""
  else if cp <? 2048 then
    String (byte (192 + cp / 64)) (String (byte (128 + cp mod 64)) "")
  else if cp <? 65536 then
    String (byte (224 + cp / 4096))
      (String (byte (128 + (cp / 64) mod 64))
         (String (byte (128 + cp mod 64)) ""))
  else
    String (byte (240 + cp / 262144))
      (String (byte (128 + (cp / 4096) mod 64))
         (String (byte (128 + (cp / 64) mod 64))
            (String (byte (128 + cp mod 64)) ""))).

(** The text of a string literal after its opening quote: the decoded
    content and what follows the closing quote. *)
Fixpoint scanstring (s : string) (acc : string) : result (string * string) :=
  match s with
  | EmptyString => decode_error "Unterminated string starting at"
  | String c s1 =>
      if Ascii.eqb c dquote then OK (acc, s1)
      else if Ascii.eqb c backslash then
        match s1 with
        | EmptyString => decode_error "Unterminated string starting at"
        | String e s2 =>
            let simple (x : Z) := scanstring s2 (acc ++ String (byte x) "") in
            if Ascii.eqb e dquote then simple 34
            else if Ascii.eqb e backslash then simple 92
            else if Ascii.eqb e "/" then simple 47
            else if Ascii.eqb e "b" then simple 8
            else if Ascii.eqb e "f" then simple 12
            else if Ascii.eqb e "n" then simple 10
            else if Ascii.eqb e "r" then simple 13
            else if Ascii.eqb e "t" then simple 9
            else if Ascii.eqb e "u" then
              match s2 with
              | String h1 (String h2 (String h3 (String h4 s3))) =>
                  match hex4 h1 h2 h3 h4 with
                  | None => decode_error "Invalid \\uXXXX escape"
                  | Some cp =>
                      let lone := scanstring s3 (acc ++ utf8 cp) in
                      if ((55296 <=? cp) && (cp <=? 56319))%bool then
                        match s3 with
                        | String b1 (String u1 (String g1 (String g2
                            (String g3 (String g4 s4))))) =>
                            if (Ascii.eqb b1 backslash && Ascii.eqb u1 "u")%bool
                            then
                              match hex4 g1 g2 g3 g4 with
                              | Some lo =>
                                  if ((56320 <=? lo) && (lo <=? 57343))%bool
                                  then scanstring s4
                                         (acc ++ utf8 (65536 +
                                            (cp - 55296) * 1024 + (lo - 56320)))
                                  else lone
                              | None => lone
                              end
                            else lone
                        | _ => lone
                        end
                      else lone
                  end
              | _ => decode_error "Invalid \\uXXXX escape"
              end
            else decode_error "Invalid \\escape"
        end
      else if N.ltb (code c) 32 then decode_error "Invalid control character at"
      else scanstring s1 (acc ++ String c "")
  end.

Fixpoint take_digits (s : string) : string * string :=
  match s with
  | String c s' =>
      if is_digit c then let '(d, r) := take_digits s' in (String c d, r)
      else ("", s)
  | EmptyString => ("", s)
  end.

(** A number at the head of [s], after an optional minus sign [neg]:
    [0] or a digit run without leading zero, then an optional fraction and
    an optional exponent, each taken only when complete. *)
Definition scan_number (neg : bool) (s : string) : option (pyval * string) :=
  let '(ip, s1) :=
    match s with
    | String c s' =>
        if Ascii.eqb c "0" then ("0", s') else take_digits s
    | EmptyString => ("", s)
    end in
  if String.eqb ip "" then None
  else
    let '(fp, s2) :=
      match s1 with
      | String c s' =>
          if Ascii.eqb c "." then
            let '(d, r) := take_digits s' in
            if String.eqb d "" then ("", s1) else (d, r)
          else ("", s1)
      | EmptyString => ("", s1)
      end in
    let '(ex, s3) :=
      match s2 with
      | String c s' =>
          if (Ascii.eqb c "e" || Ascii.eqb c "E")%bool then
            let '(eneg, s'') :=
              match s' with
              | String sg r =>
                  if Ascii.eqb sg "-" then (true, r)
                  else if Ascii.eqb sg "+" then (false, r)
                  else (false, s')
              | EmptyString => (false, s')
              end in
            let '(d, r) := take_digits s'' in
            if String.eqb d "" then (None, s2)
            else (Some (if eneg then - digits_val d else digits_val d), r)
          else (None, s2)
      | EmptyString => (None, s2)
      end in
    match fp, ex with
    | EmptyString, None =>
        Some (VInt (if neg then - digits_val ip else digits_val ip), s3)
    | _, _ =>
        let x := match ex with Some x => x | None => 0 end in
        Some (VFloat (Float64.of_decimal neg (digits_val (ip ++ fp))
                        (x - Z.of_nat (String.length fp))), s3)
    end.

(** Mutually recursive scanners for values, object members and array
    elements.  [fuel] bounds the number of nested scanner calls; running out
    of it would be a [RecursionError], which the fuel [loads] gives rules
    out. *)
Definition too_deep {A : Type} : result A :=
  raise RecursionError "maximum recursion depth exceeded".

Fixpoint scan_value (fuel : nat) (s : string) {struct fuel}
  : result (pyval * string) :=
  match fuel with
  | O => too_deep
  | S f =>
      match s with
      | EmptyString => decode_error "Expecting value"
      | String c s1 =>
          if Ascii.eqb c dquote then
            '(t, r) <- scanstring s1 "" ;; OK (VStr t, r)
          else if Ascii.eqb c "{" then
            match skip_ws s1 with
            | String c2 s2 =>
                if Ascii.eqb c2 "}" then OK (VDict [], s2)
                else scan_members f (String c2 s2) []
            | EmptyString => scan_members f "" []
            end
          else if Ascii.eqb c "[" then
            match skip_ws s1 with
            | String c2 s2 =>
                if Ascii.eqb c2 "]" then OK (VList [], s2)
                else scan_elements f (String c2 s2) []
            | EmptyString => scan_elements f "" []
            end
          else
            match strip_prefix "null" s, strip_prefix "true" s,
                  strip_prefix "false" s with
            | Some r, _, _ => OK (VNone, r)
            | _, Some r, _ => OK (VBool true, r)
            | _, _, Some r => OK (VBool false, r)
            | None, None, None =>
                let number :=
                  if Ascii.eqb c "-" then scan_number true s1
                  else scan_number false s in
                match number with
                | Some vr => OK vr
                | None =>
                    match strip_prefix "NaN" s, strip_prefix "Infinity" s,
                          strip_prefix "-Infinity" s with
                    | Some r, _, _ => OK (VFloat S754_nan, r)
                    | _, Some r, _ => OK (VFloat (S754_infinity false), r)
                    | _, _, Some r => OK (VFloat (S754_infinity true), r)
                    | None, None, None => decode_error "Expecting value"
                    end
                end
            end
      end
  end

with scan_members (fuel : nat) (s : string) (acc : list (string * pyval))
  {struct fuel} : result (pyval * string) :=
  match fuel with
  | O => too_deep
  | S f =>
      match s with
      | String c s1 =>
          if Ascii.eqb c dquote then
            '(k, s2) <- scanstring s1 "" ;;
            match skip_ws s2 with
            | String c3 s3 =>
                if Ascii.eqb c3 ":" then
                  '(v, s4) <- scan_value f (skip_ws s3) ;;
                  let acc' := dict_set acc k v in
                  match skip_ws s4 with
                  | String c5 s5 =>
                      if Ascii.eqb c5 "}" then OK (VDict acc', s5)
                      else if Ascii.eqb c5 ","
                      then scan_members f (skip_ws s5) acc'
                      else decode_error "Expecting ',' delimiter"
                  | EmptyString => decode_error "Expecting ',' delimiter"
                  end
                else decode_error "Expecting ':' delimiter"
            | EmptyString => decode_error "Expecting ':' delimiter"
            end
          else
            decode_error "Expecting property name enclosed in double quotes"
      | EmptyString =>
          decode_error "Expecting property name enclosed in double quotes"
      end
  end

with scan_elements (fuel : nat) (s : string) (acc : list pyval)
  {struct fuel} : result (pyval * string) :=
  match fuel with
  | O => too_deep
  | S f =>
      '(v, s1) <- scan_value f s ;;
      let acc' := (acc ++ [v])%list in
      match skip_ws s1 with
      | String c s2 =>
          if Ascii.eqb c "]" then OK (VList acc', s2)
          else if Ascii.eqb c "," then scan_elements f (skip_ws s2) acc'
          else decode_error "Expecting ',' delimiter"
      | EmptyString => decode_error "Expecting ',' delimiter"
      end
  end.

(** [json.loads(s)] *)
Definition loads (s : string) : result pyval :=
  '(v, rest) <- scan_value (2 * String.length s + 2) (skip_ws s) ;;
  match skip_ws rest with
  | EmptyString => OK v
  | String _ _ => decode_error "Extra data"
  end.

End Json.

(** ** The [datetime] module

    A naive [datetime] is kept as its proleptic Gregorian ordinal (day 1 is
    0001-01-01, as [toordinal()]) and the microseconds elapsed since
    midnight; year, month and day are read off the ordinal with the
    library's own conversion. *)

Module Datetime.

Import PyStr Py.
Open Scope py_scope.

Record datetime : Type := mk_datetime { toordinal : Z; micros : Z }.

Definition MAXORDINAL : Z := 3652059.  (* 9999-12-31 *)

Definition is_leap (y : Z) : bool :=
  ((y mod 4 =? 0) && (negb (y mod 100 =? 0) || (y mod 400 =? 0)))%bool.

Definition days_before_year (y : Z) : Z :=
  let y1 := y - 1 in y1 * 365 + y1 / 4 - y1 / 100 + y1 / 400.

Definition DAYS_IN_MONTH (m : Z) : Z :=
  match m with
  | 1 => 31 | 2 => 28 | 3 => 31 | 4 => 30 | 5 => 31 | 6 => 30
  | 7 => 31 | 8 => 31 | 9 => 30 | 10 => 31 | 11 => 30 | 12 => 31
  | _ => -1
  end.

Definition DAYS_BEFORE_MONTH (m : Z) : Z :=
  match m with
  | 1 => 0 | 2 => 31 | 3 => 59 | 4 => 90 | 5 => 120 | 6 => 151
  | 7 => 181 | 8 => 212 | 9 => 243 | 10 => 273 | 11 => 304 | 12 => 334
  | _ => -1
  end.

Definition days_in_month (y m : Z) : Z :=
  if ((m =? 2) && is_leap y)%bool then 29 else DAYS_IN_MONTH m.

Definition days_before_month (y m : Z) : Z :=
  DAYS_BEFORE_MONTH m + (if ((2 <? m) && is_leap y)%bool then 1 else 0).

Definition ymd2ord (y m d : Z) : Z :=
  days_before_year y + days_before_month y m + d.

Definition DI400Y : Z := 146097.
Definition DI100Y : Z := 36524.
Definition DI4Y : Z := 1461.

(** [_ord2ymd] *)
Definition ord2ymd (n0 : Z) : Z * Z * Z :=
  let n := n0 - 1 in
  let n400 := n / DI400Y in
  let n := n mod DI400Y in
  let year := n400 * 400 + 1 in
  let n100 := n / DI100Y in
  let n := n mod DI100Y in
  let n4 := n / DI4Y in
  let n := n mod DI4Y in
  let n1 := n / 365 in
  let n := n mod 365 in
  let year := year + n100 * 100 + n4 * 4 + n1 in
  if ((n1 =? 4) || (n100 =? 4))%bool then (year - 1, 12, 31)
  else
    let leapyear := ((n1 =? 3) && (negb (n4 =? 24) || (n100 =? 3)))%bool in
    let month := (n + 50) / 32 in
    let preceding :=
      DAYS_BEFORE_MONTH month +
      (if ((2 <? month) && leapyear)%bool then 1 else 0) in
    if n <? preceding then
      let month' := month - 1 in
      let preceding' :=
        preceding - (DAYS_IN_MONTH month' +
                     (if ((month' =? 2) && leapyear)%bool then 1 else 0)) in
      (year, month', n - preceding' + 1)
    else (year, month, n - preceding + 1).

Definition year (t : datetime) : Z := fst (fst (ord2ymd (toordinal t))).
Definition month (t : datetime) : Z := snd (fst (ord2ymd (toordinal t))).
Definition day (t : datetime) : Z := snd (ord2ymd (toordinal t)).

(** [t.weekday()]: Monday is 0. *)
Definition weekday (t : datetime) : Z := (toordinal t + 6) mod 7.

(** A clock reading: a date in the supported range and a time of day. *)
Definition valid (t : datetime) : Prop :=
  1 <= toordinal t <= MAXORDINAL /\ 0 <= micros t < 86400000000.

Definition C_INT_MAX : Z := 2147483647.

(** [datetime(y, m, d)]: midnight of the given day. *)
Definition make (y m d : Z) : result datetime :=
  if (C_INT_MAX <? d)
  then raise OverflowError "signed integer is greater than maximum"
  else if negb ((1 <=? y) && (y <=? 9999))%bool
  then raise ValueError ("year " ++ string_of_Z y ++ " is out of range")
  else if negb ((1 <=? m) && (m <=? 12))%bool
  then raise ValueError "month must be in 1..12"
  else if negb ((1 <=? d) && (d <=? days_in_month y m))%bool
  then raise ValueError "day is out of range for month"
  else OK (mk_datetime (ymd2ord y m d) 0).

(** [t + timedelta(days=n)] *)
Definition add_days (t : datetime) (n : Z) : result datetime :=
  if (999999999 <? Z.abs n)
  then raise OverflowError
         ("days=" ++ string_of_Z n ++ "; must have magnitude <= 999999999")
  else
    let o := toordinal t + n in
    if ((0 <? o) && (o <=? MAXORDINAL))%bool
    then OK (mk_datetime o (micros t))
    else raise OverflowError "date value out of range".

(** [a <= b] *)
Definition leb (a b : datetime) : bool :=
  ((toordinal a <? toordinal b) ||
   ((toordinal a =? toordinal b) && (micros a <=? micros b)))%bool.

Definition day_name (w : Z) : string :=
  match w with
  | 0 => "Monday" | 1 => "Tuesday" | 2 => "Wednesday" | 3 => "Thursday"
  | 4 => "Friday" | 5 => "Saturday" | _ => "Sunday"
  end.

Definition month_name (m : Z) : string :=
  match m with
  | 1 => "January" | 2 => "February" | 3 => "March" | 4 => "April"
  | 5 => "May" | 6 => "June" | 7 => "July" | 8 => "August"
  | 9 => "September" | 10 => "October" | 11 => "November" | _ => "December"
  end.

(** [t.strftime("%A, %B %d")] in the C locale. *)
Definition strftime_A_B_d (t : datetime) : string :=
  day_name (weekday t) ++ ", " ++ month_name (month t) ++ " " ++
  zfill 2 (string_of_Z (day t)).

End Datetime.

(** ** tools.py *)

Module Tools.

Import PyStr Py.
Open Scope py_scope.

(** One entry of the mock product database. *)
Record product : Type := mk_product {
  p_name : string;
  p_color : string;
  p_price : pyval;
  p_size : string;
  p_in_stock : bool;
  p_store : string;
  p_delivery : string
}.

(** The float literal [n * 10^x], e.g. [fl 4599 (-2)] for [45.99]. *)
Definition fl (n x : Z) : pyval := VFloat (Float64.of_decimal false n x).

Definition results : list product := [
  mk_product "Floral Skirt" "multi" (VInt 35) "S" true "SiteA" "3-day";
  mk_product "White Sneakers" "white" (VInt 65) "8" true "SiteB" "2-day";
  mk_product "Casual Denim Jacket" "blue" (VInt 80) "M" true "SiteA" "2-day";
  mk_product "Cocktail Dress" "red" (VInt 120) "M" true "SiteB" "4-day";
  mk_product "Summer Floral Dress" "yellow" (VInt 75) "S" true "SiteC" "3-day";
  mk_product "Classic White Sneakers" "white" (VInt 55) "8" true "SiteA" "5-day";
  mk_product "Vintage Denim Jacket" "blue" (VInt 75) "M" true "SiteC" "2-day";
  mk_product "Sport White Sneakers" "white" (fl 6500 (-2)) "8" true "SiteB" "2-day";
  mk_product "Canvas White Sneakers" "white" (fl 4599 (-2)) "8" true "SiteC" "3-day"
].

(** The dictionary literal of a product, keys in source order. *)
Definition product_dict (p : product) : pyval :=
  VDict [("name", VStr (p_name p)); ("color", VStr (p_color p));
         ("price", p_price p); ("size", VStr (p_size p));
         ("in_stock", VBool (p_in_stock p)); ("store", VStr (p_store p));
         ("delivery", VStr (p_delivery p))].

Fixpoint map_result {A B : Type} (f : A -> result B) (l : list A)
  : result (list B) :=
  match l with
  | [] => OK []
  | x :: rest => y <- f x ;; ys <- map_result f rest ;; OK (y :: ys)
  end.

(** [min(l)] and [max(l)] of a non-empty list of floats: the first extreme
    item. *)
Definition float_min (x : Float64.float) (l : list Float64.float) :=
  fold_left (fun acc y => if Float64.ltb y acc then y else acc) l x.

Definition float_max (x : Float64.float) (l : list Float64.float) :=
  fold_left (fun acc y => if Float64.ltb acc y then y else acc) l x.

Definition is_digit_or_dot (c : ascii) : bool :=
  (is_digit c || Ascii.eqb c ".")%bool.

Definition is_digit_dot_or_space (c : ascii) : bool :=
  (is_digit c || Ascii.eqb c "." || Ascii.eqb c " ")%bool.

(** [parse_price_range]: the parsed range, a tuple, or [None]. *)
Definition parse_price_range (price_query : pyval) : result pyval :=
  match price_query with
  | VTuple _ => OK price_query
  | VInt _ | VFloat _ | VBool _ =>
      x <- to_float price_query ;; OK (VTuple [VInt 0; VFloat x])
  | _ =>
      query <- attr_lower price_query ;;
      if (contains "under" query || contains "less than" query)%bool then
        try_except
          (max_price <- to_float (VStr (filter_chars is_digit_or_dot query)) ;;
           OK (VTuple [VInt 0; VFloat max_price]))
          ValueError (fun _ => OK VNone)
      else if contains "between" query then
        try_except
          (numbers <- map_result (fun n => to_float (VStr n))
                        (split_ws (filter_chars is_digit_dot_or_space query)) ;;
           match numbers with
           | x :: (_ :: _) as rest =>
               OK (VTuple [VFloat (float_min x rest); VFloat (float_max x rest)])
           | _ => OK VNone
           end)
          ValueError (fun _ => OK VNone)
      else OK VNone
  end.

(** The body of the search loop for one product: [true] when the product is
    appended to [filtered], [false] when a [continue] is taken. *)
Definition product_passes
  (name color price_range size in_stock store : pyval) (product : product)
  : result bool :=
  name_ok <-
    (if truthy name then
       lowered <- attr_lower name ;;
       let search_terms := dedup (split_ws lowered) in
       let product_terms := dedup (split_ws (lower (p_name product))) in
       OK (existsb (fun term => contains term (join " " product_terms))
             search_terms)
     else OK true) ;;
  if negb name_ok then OK false else
  color_ok <-
    (if truthy color then
       c <- attr_lower color ;; OK (String.eqb c (lower (p_color product)))
     else OK true) ;;
  if negb color_ok then OK false else
  let size_ok :=
    if truthy size
    then String.eqb (upper (str size)) (upper (str (VStr (p_size product))))
    else true in
  if negb size_ok then OK false else
  price_ok <-
    (if truthy price_range then
       parsed_range <- parse_price_range price_range ;;
       if truthy parsed_range then
         '(min_price, max_price) <- unpack2 parsed_range ;;
         lo <- to_float min_price ;;
         x <- to_float (p_price product) ;;
         if Float64.leb lo x
         then hi <- to_float max_price ;; OK (Float64.leb x hi)
         else OK false
       else OK false
     else OK true) ;;
  if negb price_ok then OK false else
  store_ok <-
    (if truthy store then
       s <- attr_lower store ;; OK (String.eqb s (lower (p_store product)))
     else OK true) ;;
  if negb store_ok then OK false else
  let stock_ok :=
    match in_stock with
    | VNone => true
    | _ => eq_bool (p_in_stock product) in_stock
    end in
  OK stock_ok.

(** The [for product in results] loop, [filtered] being the list built so
    far. *)
Fixpoint search_loop
  (name color price_range size in_stock store : pyval)
  (todo filtered : list product) : result (list product) :=
  match todo with
  | [] => OK filtered
  | product :: rest =>
      keep <- product_passes name color price_range size in_stock store
                product ;;
      search_loop name color price_range size in_stock store rest
        (if keep then (filtered ++ [product])%list else filtered)
  end.

Definition eccomerce_search_aggregtor
  (name color price_range size in_stock store delivery : pyval)
  : result string :=
  filtered <- search_loop name color price_range size in_stock store
                results [] ;;
  OK (Json.dumps (VList (map product_dict filtered))).

(** Search by name only, as the other tools call it. *)
Definition search_by_name (name : pyval) : result string :=
  eccomerce_search_aggregtor name VNone VNone VNone VNone VNone VNone.

(** *** [shipping_time_estimator] and its nested helpers *)

Definition parse_delivery_days (delivery_str : pyval) : result Z :=
  parts <- attr_split delivery_str "-" ;;
  first <- subscript (VList (map VStr parts)) (VInt 0) ;;
  to_int first.

Definition days : list string :=
  ["monday"; "tuesday"; "wednesday"; "thursday"; "friday"; "saturday";
   "sunday"].

Fixpoint index_of (x : string) (l : list string) : Z :=
  match l with
  | [] => 0
  | y :: rest => if String.eqb y x then 0 else 1 + index_of x rest
  end.

(** The dictionary returned when both dates are known. *)
Definition feasibility (delivery_date target_date : Datetime.datetime)
  : pyval :=
  VDict [("can_deliver", VBool (Datetime.leb delivery_date target_date));
         ("estimated_delivery", VStr (Datetime.strftime_A_B_d delivery_date));
         ("requested_date", VStr (Datetime.strftime_A_B_d target_date))].

Definition error_dict (msg : string) : pyval := VDict [("error", VStr msg)].

Definition calculate_delivery_feasibility
  (today : Datetime.datetime) (days_needed : Z) (target : pyval)
  : result pyval :=
  target <- attr_lower target ;;
  if existsb (fun x => contains x target) ["st"; "nd"; "rd"; "th"] then
    try_except
      (target_day <- int_of_string (filter_chars is_digit target) ;;
       let current_month := Datetime.month today in
       let current_year := Datetime.year today in
       let '(current_year, current_month) :=
         if target_day <? Datetime.day today then
           if current_month =? 12 then (current_year + 1, 1)
           else (current_year, current_month + 1)
         else (current_year, current_month) in
       target_date <- Datetime.make current_year current_month target_day ;;
       delivery_date <- Datetime.add_days today days_needed ;;
       OK (feasibility delivery_date target_date))
      ValueError (fun _ => OK (error_dict "Invalid date specified"))
  else if existsb (String.eqb target) days then
    let current_day_idx := Datetime.weekday today in
    let target_day_idx := index_of target days in
    let days_until_target := target_day_idx - current_day_idx in
    let days_until_target :=
      if days_until_target <=? 0 then days_until_target + 7
      else days_until_target in
    delivery_date <- Datetime.add_days today days_needed ;;
    target_date <- Datetime.add_days today days_until_target ;;
    OK (feasibility delivery_date target_date)
  else OK (error_dict "Invalid delivery target specified").

Definition rate (d : string) (cost : Z) : pyval :=
  VDict [("estimated_delivery", VStr d); ("cost", fl cost (-2))].

Definition by_zip (a : string) (ca : Z) (b : string) (cb : Z)
  (c : string) (cc : Z) : pyval :=
  VDict [("12345", rate a ca); ("67890", rate b cb); ("default", rate c cc)].

Definition by_store (a b c : pyval) : pyval :=
  VDict [("SiteA", a); ("SiteB", b); ("SiteC", c)].

Definition shipping_info : pyval :=
  VDict [
    ("Summer Floral Skirt",
       by_store (by_zip "2-day" 499 "3-day" 599 "3-day" 499)
                (by_zip "3-day" 599 "4-day" 699 "4-day" 599)
                (by_zip "2-day" 499 "3-day" 599 "3-day" 499));
    ("White Sneakers",
       by_store (rate "3-day" 599) (rate "2-day" 499) (rate "3-day" 499));
    ("Casual Denim Jacket",
       by_store (rate "2-day" 599) (rate "3-day" 699) (rate "3-day" 599));
    ("Cocktail Dress",
       by_store (rate "3-day" 699) (rate "4-day" 799) (rate "3-day" 699));
    ("Summer Floral Dress",
       by_store (rate "3-day" 499) (rate "3-day" 599) (rate "3-day" 499));
    ("Classic White Sneakers",
       by_store (rate "5-day" 499) (rate "3-day" 599) (rate "4-day" 499));
    ("Vintage Denim Jacket",
       by_store (rate "3-day" 599) (rate "3-day" 699) (rate "2-day" 599));
    ("Sport White Sneakers",
       by_store (rate "3-day" 599) (rate "2-day" 499) (rate "3-day" 499));
    ("Canvas White Sneakers",
       by_store (rate "4-day" 499) (rate "3-day" 599) (rate "3-day" 499))
  ].

(** [d.update(other)] and [d[k] = v] on a value that must be a dictionary. *)
Definition method_update (d other : pyval) : result pyval :=
  match d, other with
  | VDict a, VDict b => OK (VDict (dict_update a b))
  | VDict _, _ =>
      raise TypeError
        (repr_str (type_name other) ++ " object is not iterable")
  | _, _ =>
      raise AttributeError
        (repr_str (type_name d) ++ " object has no attribute 'update'")
  end.

Definition set_item (d : pyval) (k : string) (v : pyval) : result pyval :=
  match d with
  | VDict a => OK (VDict (dict_set a k v))
  | _ =>
      raise TypeError
        (repr_str (type_name d) ++
         " object does not support item assignment")
  end.

Definition shipping_time_estimator (today : Datetime.datetime)
  (product_name delivery_target zip_code : pyval) : result string :=
  text <- search_by_name product_name ;;
  found_products <- Json.loads text ;;
  if negb (truthy found_products)
  then OK (Json.dumps (error_dict "Product not found")) else
  product <- subscript found_products (VInt 0) ;;
  store <- subscript product (VStr "store") ;;
  delivery <- subscript product (VStr "delivery") ;;
  delivery_days <- parse_delivery_days delivery ;;
  name <- subscript product (VStr "name") ;;
  for_product <- method_get shipping_info name (VDict []) ;;
  store_shipping <- method_get for_product store (VDict []) ;;
  if negb (truthy store_shipping)
  then OK (Json.dumps (error_dict "Shipping information not available")) else
  default <- method_get store_shipping (VStr "default") (VDict []) ;;
  zip_shipping <- method_get store_shipping zip_code default ;;
  if negb (truthy zip_shipping)
  then OK (Json.dumps
             (error_dict ("Shipping not available to ZIP code " ++ str zip_code)))
  else
  estimated <- subscript zip_shipping (VStr "estimated_delivery") ;;
  delivery_days <- parse_delivery_days estimated ;;
  zip_shipping <-
    (if truthy delivery_target then
       delivery_check <-
         calculate_delivery_feasibility today delivery_days delivery_target ;;
       updated <- method_update zip_shipping delivery_check ;;
       if truthy zip_code then set_item updated "zip_code" zip_code
       else OK updated
     else OK zip_shipping) ;;
  OK (Json.dumps zip_shipping).

(** *** [discount_promo_checker] *)

Definition codes (l : list (string * Z)) : pyval :=
  VDict (map (fun kv => (fst kv, VInt (snd kv))) l).

Definition discounts : list (string * pyval) := [
  ("Floral Skirt", codes [("SPRING10", 10); ("SAVE20", 20); ("NEW15", 15)]);
  ("White Sneakers", codes [("SHOES15", 15); ("NEW10", 10)]);
  ("Casual Denim Jacket", codes [("DENIM10", 10); ("SAVE20", 20)]);
  ("Cocktail Dress", codes [("PARTY25", 25); ("NEW15", 15)]);
  ("Summer Floral Dress", codes [("SUMMER", 15); ("NEW10", 10)]);
  ("Classic White Sneakers", codes [("SHOES15", 15); ("NEW10", 10)]);
  ("Vintage Denim Jacket", codes [("DENIM10", 10); ("SAVE20", 20)]);
  ("Sport White Sneakers", codes [("SHOES15", 15); ("NEW10", 10)]);
  ("Canvas White Sneakers", codes [("SHOES10", 10); ("NEW10", 10)])
].

Definition discount_promo_checker (product_name : pyval) : result string :=
  found <- method_get (VDict discounts) product_name (VDict []) ;;
  OK (Json.dumps found).

(** *** [return_policy_checker] *)

Definition policy (window : string) (free_returns : bool)
  (conditions processing_time : string) : pyval :=
  VDict [("window", VStr window); ("free_returns", VBool free_returns);
         ("conditions", VStr conditions);
         ("processing_time", VStr processing_time)].

Definition policies : list (string * pyval) := [
  ("SiteA", policy "30 days" true "Must have original tags"
              "3-5 business days");
  ("SiteB", policy "14 days" false "Return shipping fee applies"
              "5-7 business days");
  ("SiteC", policy "45 days" true "Items must be unworn with tags attached"
              "2-4 business days")
].

Definition store_not_found : pyval := error_dict "Store not found".

(** The [for product in ...] loop of [return_policy_checker]: the text
    returned from inside the loop, or [None] when the loop runs to its
    end. *)
Fixpoint policy_loop (store_name : pyval) (products : list pyval)
  : result (option string) :=
  match products with
  | [] => OK None
  | product :: rest =>
      wanted <- attr_lower store_name ;;
      name <- subscript product (VStr "name") ;;
      lowered <- attr_lower name ;;
      if contains wanted lowered then
        store <- subscript product (VStr "store") ;;
        found <- method_get (VDict policies) store store_not_found ;;
        OK (Some (Json.dumps found))
      else policy_loop store_name rest
  end.

Definition return_policy_checker (store_name : pyval) : result string :=
  known <- dict_lookup policies store_name ;;
  early <-
    (match known with
     | None =>
         text <- search_by_name store_name ;;
         products <- Json.loads text ;;
         match products with
         | VList l => policy_loop store_name l
         | _ => raise TypeError
                  (repr_str (type_name products) ++ " object is not iterable")
         end
     | Some _ => OK None
     end) ;;
  match early with
  | Some text => OK text
  | None =>
      found <- method_get (VDict policies) store_name store_not_found ;;
      OK (Json.dumps found)
  end.

(** *** [competitor_price_comparison] *)

Definition offer (store : string) (price : Z) : pyval :=
  VDict [("store", VStr store); ("price", fl price (-2));
         ("in_stock", VBool true)].

Definition offers (a b c : Z) : pyval :=
  VList [offer "SiteA" a; offer "SiteB" b; offer "SiteC" c].

Definition comparisons : list (string * pyval) := [
  ("Floral Skirt", offers 3500 3799 3650);
  ("White Sneakers", offers 6399 6500 6799);
  ("Casual Denim Jacket", offers 8000 8599 8299);
  ("Cocktail Dress", offers 11899 12000 12299);
  ("Summer Floral Dress", offers 7299 7799 7500);
  ("Classic White Sneakers", offers 5500 5799 5650);
  ("Vintage Denim Jacket", offers 7799 7500 7500);
  ("Sport White Sneakers", offers 6799 6500 6650);
  ("Canvas White Sneakers", offers 4799 4650 4599)
].

Fixpoint comparison_loop (product_name : pyval)
  (todo : list (string * pyval)) : result string :=
  match todo with
  | [] => OK (Json.dumps (VList []))
  | (key, value) :: rest =>
      wanted <- attr_lower product_name ;;
      if String.eqb (lower key) wanted then OK (Json.dumps value)
      else comparison_loop product_name rest
  end.

Definition competitor_price_comparison (product_name : pyval)
  : result string :=
  comparison_loop product_name comparisons.

End Tools.

(** ** react_agent.py *)

Module Agent.

Import PyStr Py.
Open Scope py_scope.

Definition MAX_ITERATIONS : nat := 5.

Definition nl : string := String (ascii_of_N 10) "".

(** *** The action pattern

    [re.findall] with the pattern
    [\[\[CALL (\w+),\s*(\{.*?\})\]\]] and [re.DOTALL].  A match attempt at
    a position has one way to go: [\w+] must take the whole run of word
    characters (what follows has to be a comma), [\s*] the whole run of
    whitespace (what follows has to be a brace), and the lazy [.*?] stops
    at the first [}]]] after the opening brace. *)

(** The longest prefix whose characters satisfy [p], and the rest. *)
Fixpoint span (p : ascii -> bool) (s : string) : string * string :=
  match s with
  | String c s' =>
      if p c then let '(a, b) := span p s' in (String c a, b) else ("", s)
  | EmptyString => ("", s)
  end.

(** The text up to and including the brace of the first [}]]], and what
    follows that [}]]]. *)
Fixpoint find_close (s : string) : option (string * string) :=
  match s with
  | EmptyString => None
  | String c s' =>
      match strip_prefix "}]]" s with
      | Some rest => Some ("}", rest)
      | None =>
          match find_close s' with
          | Some (body, rest) => Some (String c body, rest)
          | None => None
          end
      end
  end.

(** A match starting at the head of [s]: the two groups and the text after
    the match. *)
Definition match_at (s : string) : option (string * string * string) :=
  match strip_prefix "[[CALL " s with
  | None => None
  | Some s1 =>
      let '(name, s2) := span is_word s1 in
      if String.eqb name "" then None
      else
        match s2 with
        | String c s3 =>
            if Ascii.eqb c "," then
              let '(_, s4) := span is_space s3 in
              match s4 with
              | String b s5 =>
                  if Ascii.eqb b "{" then
                    match find_close s5 with
                    | Some (body, rest) => Some (name, String "{" body, rest)
                    | None => None
                    end
                  else None
              | EmptyString => None
              end
            else None
        | EmptyString => None
        end
  end.

(** Leftmost non-overlapping matches: after a match the scan resumes behind
    it, otherwise one character further.  Every step shortens the text, so
    [fuel] equal to its length is never used up. *)
Fixpoint findall_from (fuel : nat) (s : string) : list (string * string) :=
  match fuel with
  | O => []
  | S fuel' =>
      match s with
      | EmptyString => []
      | String _ s' =>
          match match_at s with
          | Some (name, params, rest) => (name, params) :: findall_from fuel' rest
          | None => findall_from fuel' s'
          end
      end
  end.

Definition findall (text : string) : list (string * string) :=
  findall_from (String.length text) text.

(** *** [parse_tool_calls] *)

Definition tool_call : Type := string * pyval.

(** The [for tool_name, params_str in matches] loop. *)
Fixpoint decode_matches (matches : list (string * string))
  (tool_calls : list tool_call) : result (list tool_call) :=
  match matches with
  | [] => OK tool_calls
  | (tool_name, params_str) :: rest =>
      tool_calls' <-
        try_except
          (params <- Json.loads params_str ;;
           OK (tool_calls ++ [(tool_name, params)])%list)
          JSONDecodeError (fun _ => OK tool_calls) ;;
      decode_matches rest tool_calls'
  end.

Definition parse_tool_calls (text : string) : result (list tool_call) :=
  decode_matches (findall text) [].

(** *** [execute_tools] *)

(** A registered tool, called with keyword arguments; [today] is what
    [datetime.now()] returns during the call. *)
Definition tool : Type :=
  Datetime.datetime -> list (string * pyval) -> result string.

Definition call_search : tool := fun _ kw =>
  arg <- bind_kwargs "eccomerce_search_aggregtor"
           ["name"; "color"; "price_range"; "size"; "in_stock"; "store";
            "delivery"] [] kw ;;
  Tools.eccomerce_search_aggregtor (arg "name") (arg "color")
    (arg "price_range") (arg "size") (arg "in_stock") (arg "store")
    (arg "delivery").

Definition call_shipping : tool := fun today kw =>
  arg <- bind_kwargs "shipping_time_estimator"
           ["product_name"; "delivery_target"; "zip_code"]
           ["product_name"] kw ;;
  Tools.shipping_time_estimator today (arg "product_name")
    (arg "delivery_target") (arg "zip_code").

Definition call_discount : tool := fun _ kw =>
  arg <- bind_kwargs "discount_promo_checker" ["product_name"]
           ["product_name"] kw ;;
  Tools.discount_promo_checker (arg "product_name").

Definition call_policy : tool := fun _ kw =>
  arg <- bind_kwargs "return_policy_checker" ["store_name"]
           ["store_name"] kw ;;
  Tools.return_policy_checker (arg "store_name").

Definition call_comparison : tool := fun _ kw =>
  arg <- bind_kwargs "competitor_price_comparison" ["product_name"]
           ["product_name"] kw ;;
  Tools.competitor_price_comparison (arg "product_name").

Definition tool_mapping : list (string * tool) := [
  ("eccomerce_search_aggregtor", call_search);
  ("shipping_time_estimator", call_shipping);
  ("discount_promo_checker", call_discount);
  ("return_policy_checker", call_policy);
  ("competitor_price_comparison", call_comparison)
].

Fixpoint lookup_tool (tool_name : string) (m : list (string * tool))
  : option tool :=
  match m with
  | [] => None
  | (k, f) :: rest =>
      if String.eqb k tool_name then Some f else lookup_tool tool_name rest
  end.

(** The body of the [try] block of [execute_tools]. *)
Definition invoke (today : Datetime.datetime) (tool_name : string)
  (params : pyval) : result string :=
  match lookup_tool tool_name tool_mapping with
  | Some f =>
      match params with
      | VDict kw => f today kw
      | _ => raise TypeError
               ("tools." ++ tool_name ++
                "() argument after ** must be a mapping, not " ++
                type_name params)
      end
  | None => OK ("Unknown tool: " ++ tool_name)
  end.

(** [execute_tools]: [except Exception] catches every exception class of
    the model. *)
Definition execute_tools (today : Datetime.datetime) (tool_name : string)
  (params : pyval) : string :=
  match invoke today tool_name params with
  | OK text => text
  | Raise e => "Error executing " ++ tool_name ++ ": " ++ exn_str e
  end.

(** *** [react_loop] *)

Section Loop.

(** The completion service: the answer of the [k]-th call (from 0) to the
    prompt it is given, [None] when the call fails.  [call_llm] returns the
    stripped text of the completion. *)
Variable call_llm : nat -> string -> option string.

(** The clock: what [datetime.now()] returns during the [k]-th tool
    execution (from 0). *)
Variable clock : nat -> Datetime.datetime.

(** What a run has done so far. *)
Record state : Type := mk_state {
  conversation_context : string;
  llm_calls : nat;
  executed : list tool_call
}.

(** What [react_loop] returns, with the state it ends in. *)
Record outcome : Type := mk_outcome { answer : string; final : state }.

(** The [for tool_name, params in tool_calls] loop. *)
Fixpoint run_tool_calls (tool_calls : list tool_call)
  (done : list tool_call) (observations : string)
  : list tool_call * string :=
  match tool_calls with
  | [] => (done, observations)
  | (tool_name, params) :: rest =>
      let result :=
        execute_tools (clock (List.length done)) tool_name params in
      run_tool_calls rest (done ++ [(tool_name, params)])%list
        (observations ++ nl ++ "Tool: " ++ tool_name ++ nl ++
         "Parameters: " ++ str params ++ nl ++
         "Observation: " ++ result ++ nl)
  end.

(** The [for _ in range(...)] loop with [n] iterations left and the
    statement after it; [llm_response] is the local variable of that name,
    unset before the first iteration. *)
Fixpoint loop_from (n : nat) (st : state) (llm_response : option string)
  : result outcome :=
  match n with
  | O =>
      match llm_response with
      | Some r => OK (mk_outcome r st)
      | None =>
          raise UnboundLocalError
            ("cannot access local variable 'llm_response' where it is " ++
             "not associated with a value")
      end
  | S n' =>
      let response := call_llm (llm_calls st) (conversation_context st) in
      let st1 := mk_state (conversation_context st) (S (llm_calls st))
                   (executed st) in
      match response with
      | None => OK (mk_outcome "Error: Failed to get LLM response" st1)
      | Some r =>
          if String.eqb r ""
          then OK (mk_outcome "Error: Failed to get LLM response" st1)
          else
            tool_calls <- parse_tool_calls r ;;
            let '(done, observations) :=
              run_tool_calls tool_calls (executed st1) "" in
            let st2 :=
              mk_state
                (conversation_context st1 ++ nl ++ "Assistant: " ++ r ++ nl ++
                 "Observations: " ++ observations ++ nl)
                (llm_calls st1) done in
            match tool_calls with
            | [] => OK (mk_outcome r st2)
            | _ :: _ => loop_from n' st2 (Some r)
            end
      end
  end.

Definition initial (query : string) : state :=
  mk_state ("User Query: " ++ query ++ nl) 0 [].

Definition react_loop (query : string) : result outcome :=
  loop_from MAX_ITERATIONS (initial query) None.

End Loop.

End Agent.

(** ** The completion client: [call_llm]

    The request to the completion service and the path to the text of its
    first choice ([client.chat.completions.create(...)] followed by
    [.choices[0].message.content]) are read through an oracle: what the
    [k]-th request (from 0) gives for a prompt, a value or an exception.
    [call_llm] strips the text and turns every exception into [None]. *)

Module Client.

Import PyStr Py.
Open Scope py_scope.

(** [v.strip()]: only strings have the method. *)
Definition attr_strip (v : pyval) : result string :=
  match v with
  | VStr s => OK (strip s)
  | _ => raise AttributeError
           (repr_str (type_name v) ++ " object has no attribute 'strip'")
  end.

Section CallLlm.

Variable create : nat -> string -> result pyval.

(** [except Exception] catches every exception class of the model. *)
Definition call_llm (k : nat) (prompt : string) : option string :=
  match (content <- create k prompt ;; attr_strip content) with
  | OK text => Some text
  | Raise _ => None
  end.

End CallLlm.

End Client.

(** * Statements

    The vocabulary the properties below are stated in. *)

Module Statements.

Import PyStr Py Agent.
Open Scope py_scope.

(** The loop's final-answer rule read without a side condition: whenever
    the response of a round has no tool call in it, the loop returns that
    very text. *)
Definition final_answer_for_every_response : Prop :=
  forall (call_llm : nat -> string -> option string)
         (clock : nat -> Datetime.datetime)
         (n : nat) (st : state) (last : option string) (r : string),
    call_llm (llm_calls st) (conversation_context st) = Some r ->
    parse_tool_calls r = OK [] ->
    exists o, loop_from call_llm clock (S n) st last = OK o /\ answer o = r.

(** *** The scanners of the decoder *)

Definition decode_failure (e : exn) : Prop := exn_cls e = JSONDecodeError.

(** What a scanner gives for the text [s]: either a value and a rest of the
    text, at least [k] characters shorter, or a decode error. *)
Definition scans {A : Type} (k : nat) (s : string)
  (r : result (A * string)) : Prop :=
  match r with
  | OK (_, rest) => (String.length rest + k <= String.length s)%nat
  | Raise e => decode_failure e
  end.

(** *** The price filter of the search *)

Import Tools.

(** A search with the price range as its only criterion. *)
Definition search_by_price (price_range : pyval) : result string :=
  eccomerce_search_aggregtor VNone VNone price_range VNone VNone VNone VNone.

(** The text returned for a list of products. *)
Definition listing (l : list product) : string :=
  Json.dumps (VList (map product_dict l)).

(** [float(product["price"])]; catalogue prices are numbers. *)
Definition price_float (p : product) : Float64.float :=
  match to_float (p_price p) with
  | OK x => x
  | Raise _ => S754_nan
  end.

(** [lo <= price <= hi], compared as floats like the source does. *)
Definition price_between (lo hi : Float64.float) (p : product) : bool :=
  (Float64.leb lo (price_float p) && Float64.leb (price_float p) hi)%bool.


Definition floral_skirt : product :=
  mk_product "Floral Skirt" "multi" (VInt 35) "S" true "SiteA" "3-day".
Definition white_sneakers : product :=
  mk_product "White Sneakers" "white" (VInt 65) "8" true "SiteB" "2-day".
Definition casual_denim_jacket : product :=
  mk_product "Casual Denim Jacket" "blue" (VInt 80) "M" true "SiteA" "2-day".
Definition cocktail_dress : product :=
  mk_product "Cocktail Dress" "red" (VInt 120) "M" true "SiteB" "4-day".
Definition summer_floral_dress : product :=
  mk_product "Summer Floral Dress" "yellow" (VInt 75) "S" true "SiteC" "3-day".
Definition classic_white_sneakers : product :=
  mk_product "Classic White Sneakers" "white" (VInt 55) "8" true "SiteA"
    "5-day".
Definition vintage_denim_jacket : product :=
  mk_product "Vintage Denim Jacket" "blue" (VInt 75) "M" true "SiteC" "2-day".
Definition sport_white_sneakers : product :=
  mk_product "Sport White Sneakers" "white" (fl 6500 (-2)) "8" true "SiteB"
    "2-day".
Definition canvas_white_sneakers : product :=
  mk_product "Canvas White Sneakers" "white" (fl 4599 (-2)) "8" true "SiteC"
    "3-day".

(** The products priced at most 70, and those priced from 50 to 80, in
    catalogue order. *)
Definition at_most_70 : list product :=
  [floral_skirt; white_sneakers; classic_white_sneakers;
   sport_white_sneakers; canvas_white_sneakers].

Definition from_50_to_80 : list product :=
  [white_sneakers; casual_denim_jacket; summer_floral_dress;
   classic_white_sneakers; vintage_denim_jacket; sport_white_sneakers].


(** *** Action spans *)

(** An action span [[[CALL name,gap{body}]]]: [gap] is the text between the
    comma and the opening brace, [body] the text between the braces. *)
Record action_span : Type := mk_span {
  span_name : string;
  span_gap : string;
  span_body : string
}.

(** The object literal of a span. *)
Definition span_object (sp : action_span) : string :=
  "{" ++ span_body sp ++ "}".

Definition span_text (sp : action_span) : string :=
  "[[CALL " ++ span_name sp ++ "," ++ span_gap sp ++ "{" ++ span_body sp ++
  "}]]".

(** A span the pattern can match as a whole: the name is a non-empty run of
    word characters, the gap is whitespace, and the object literal does not
    contain [}]]], so that the first [}]]] after the opening brace is the
    one that ends the span. *)
Definition well_delimited (sp : action_span) : Prop :=
  span_name sp <> "" /\
  forall_chars is_word (span_name sp) = true /\
  forall_chars is_space (span_gap sp) = true /\
  contains "}]]" (span_object sp) = false.

(** Text between spans: it does not contain the opening of a span. *)
Definition quiet (filler : string) : Prop :=
  contains "[[CALL " filler = false.

(** A text made of spans, each after some filler, and a tail. *)
Fixpoint document (parts : list (string * action_span)) (tail : string)
  : string :=
  match parts with
  | [] => tail
  | (filler, sp) :: rest => filler ++ span_text sp ++ document rest tail
  end.

(** The calls of the spans whose object literal decodes, in order. *)
Fixpoint decoded (spans : list action_span) : list tool_call :=
  match spans with
  | [] => []
  | sp :: rest =>
      match Json.loads (span_object sp) with
      | OK params => (span_name sp, params) :: decoded rest
      | Raise _ => decoded rest
      end
  end.

(** The span of a call with its name and its object literal, written with
    one space after the comma. *)
Definition call_span (name obj : string) : string :=
  "[[CALL " ++ name ++ ", " ++ obj ++ "]]".

(** The parser's contract read without a side condition: wherever a span
    with a name and an object literal that decodes stands in a text, its
    call is among the parsed ones. *)
Definition every_span_is_parsed : Prop :=
  forall (before after name obj : string) (params : list (string * pyval)),
    name <> "" -> forall_chars is_word name = true ->
    Json.loads obj = OK (VDict params) ->
    exists calls,
      parse_tool_calls (before ++ call_span name obj ++ after) = OK calls /\
      In (name, VDict params) calls.


(** The two groups the pattern captures for a span. *)
Definition span_groups (sp : action_span) : string * string :=
  (span_name sp, span_object sp).

(** A part of a document in good order: quiet filler, then a well
    delimited span. *)
Definition orderly (part : string * action_span) : Prop :=
  quiet (fst part) /\ well_delimited (snd part).

(** *** Sample texts and oracles *)

(** The text [s] between double quotes. *)
Definition quoted (s : string) : string :=
  String dquote (s ++ String dquote "").

(** An object literal with one member. *)
Definition member (key value : string) : string :=
  "{" ++ quoted key ++ ": " ++ value ++ "}".

(** A response with two spans, the first with a line break in its object
    literal. *)
Definition two_calls : list (string * action_span) :=
  [("Thought: look it up." ++ nl ++ "Action: ",
    mk_span "eccomerce_search_aggregtor" " "
      (quoted "name" ++ ": " ++ quoted "sneakers" ++ "," ++ nl ++ "  " ++
       quoted "color" ++ ": " ++ quoted "white"));
   (" and then ",
    mk_span "return_policy_checker" "" (quoted "store_name" ++ ": " ++
                                        quoted "SiteB"))].


(** A valid object literal whose string value contains [}]]]. *)
Definition inner_close_literal : string := member "a" (quoted "}]]").


(** A clock that always reads the same time. *)
Definition sample_clock : nat -> Datetime.datetime :=
  fun _ => Datetime.mk_datetime 739924 36000000000.

(** Wednesday 4 November 2026, ten in the morning. *)
Definition wednesday_morning : Datetime.datetime :=
  Datetime.mk_datetime (Datetime.ymd2ord 2026 11 4) 36000000000.

Definition always_calls : string :=
  "Action: " ++
  call_span "discount_promo_checker" (member "product_name" (quoted "Floral Skirt")).

End Statements.

(** * Further vocabulary *)

Module Coverage.

Import PyStr Py Tools Agent Statements.
Open Scope py_scope.

(** The test the search loop makes on a product: [true] when the product
    is kept. *)
Definition passes (name color price_range size in_stock store : pyval)
  (p : product) : bool :=
  match product_passes name color price_range size in_stock store p with
  | OK b => b
  | Raise _ => false
  end.

(** Some word of the query is part of some word of the name, letter case
    apart. *)
Definition word_match (query name : string) : bool :=
  existsb (fun term => existsb (contains term) (split_ws (lower name)))
    (split_ws (lower query)).

(** The products a search by the name [s] keeps. *)
Definition named (s : string) : list product :=
  if String.eqb s "" then results
  else filter (fun p => word_match s (p_name p)) results.

(** A text without whitespace. *)
Definition spaceless (s : string) : bool :=
  forall_chars (fun c => negb (is_space c)) s.

(** The exception of [v.lower()] for a value that is no text. *)
Definition no_lower (v : pyval) : exn :=
  mk_exn AttributeError
    (repr_str (type_name v) ++ " object has no attribute 'lower'").

(** The three error results of [shipping_time_estimator]. *)
Definition shipping_errors (zip_code : pyval) : list string :=
  [Json.dumps (error_dict "Product not found");
   Json.dumps (error_dict "Shipping information not available");
   Json.dumps (error_dict ("Shipping not available to ZIP code "
                           ++ str zip_code))].

(** A result of [shipping_time_estimator] that is no estimate: one of the
    three error results, or a [TypeError]. *)
Definition no_estimate (zip_code : pyval) (r : result string) : Prop :=
  match r with
  | OK text => In text (shipping_errors zip_code)
  | Raise e => exn_cls e = TypeError
  end.

(** The keys of a shipping rate. *)
Definition rate_key (zip_code : pyval) : bool :=
  match zip_code with
  | VStr s => (String.eqb s "estimated_delivery" || String.eqb s "cost")%bool
  | _ => false
  end.

(** The policy of a store, as [policies.get(store, ...)] gives it. *)
Definition store_policy (store : string) : pyval :=
  match dict_get policies store with
  | Some found => found
  | None => store_not_found
  end.

(** The answer of [return_policy_checker] for a text: the policy of the
    store of that name, else the policy of the store of the first product
    found by a search for the text whose name contains the text, letter
    case apart, else the error. *)
Definition policy_answer (s : string) : pyval :=
  match dict_get policies s with
  | Some found => found
  | None =>
      match find (fun p => contains (lower s) (lower (p_name p))) (named s) with
      | Some p => store_policy (p_store p)
      | None => store_not_found
      end
  end.

(** The entry of the comparison table for a name, letter case apart. *)
Definition comparison_entry (s : string) (table : list (string * pyval))
  : pyval :=
  match find (fun kv => String.eqb (lower (fst kv)) (lower s)) table with
  | Some kv => snd kv
  | None => VList []
  end.


(** The text a round adds to the observations for one executed call. *)
Definition observation (today : Datetime.datetime) (c : tool_call) : string :=
  nl ++ "Tool: " ++ fst c ++ nl ++ "Parameters: " ++ str (snd c) ++ nl ++
  "Observation: " ++ execute_tools today (fst c) (snd c) ++ nl.

(** The observations of the calls of a round, the first of them being the
    [k]-th execution of the run. *)
Fixpoint observations (clock : nat -> Datetime.datetime) (k : nat)
  (calls : list tool_call) : string :=
  match calls with
  | [] => ""
  | c :: rest => observation (clock k) c ++ observations clock (S k) rest
  end.

(** The fixed answer to a failed completion. *)
Definition failure_text : string := "Error: Failed to get LLM response".

(** A text that is empty or starts with a character that is no
    whitespace. *)
Definition head_ok (s : string) : bool :=
  match s with
  | EmptyString => true
  | String c _ => negb (is_space c)
  end.

(** A value that [json.loads] gets back from its [json.dumps] text. *)
Definition decodes (v : pyval) : Prop := Json.loads (Json.dumps v) = OK v.

(** A date of the calendar. *)
Definition valid_date (y m d : Z) : Prop :=
  1 <= y /\ 1 <= m <= 12 /\ 1 <= d <= Datetime.days_in_month y m.

(** The month after the month [m] of the year [y]. *)
Definition next_month (y m : Z) : Z * Z :=
  if m =? 12 then (y + 1, 1) else (y, m + 1).

End Coverage.

(** * Properties *)

Import PyStr Py.
Open Scope py_scope.

(** ** Strings *)

Section StringFacts.

Lemma append_assoc (a b c : string) : (a ++ b) ++ c = a ++ (b ++ c).
Proof. induction a as [|x a IH]; simpl; [reflexivity|now rewrite IH]. Qed.

Lemma append_nil_r (a : string) : a ++ "" = a.
Proof. induction a as [|x a IH]; simpl; [reflexivity|now rewrite IH]. Qed.

Lemma length_append (a b : string) :
  String.length (a ++ b) = (String.length a + String.length b)%nat.
Proof. induction a as [|x a IH]; simpl; [reflexivity|now rewrite IH]. Qed.

Lemma strip_prefix_app (p s : string) : strip_prefix p (p ++ s) = Some s.
Proof.
  induction p as [|c p IH]; simpl; [reflexivity|].
  now rewrite Ascii.eqb_refl.
Qed.

Lemma strip_prefix_length (p s r : string) :
  strip_prefix p s = Some r ->
  String.length s = (String.length p + String.length r)%nat.
Proof.
  revert s. induction p as [|c p IH]; intros s H; simpl in *.
  - now inversion H.
  - destruct s as [|d s]; [discriminate|].
    destruct (Ascii.eqb c d); [|discriminate].
    simpl. now rewrite (IH s H).
Qed.

(** A prefix test that fails on a text long enough fails on every
    extension of it. *)
Lemma strip_prefix_none_app (p s t : string) :
  strip_prefix p s = None ->
  (String.length p <= String.length s)%nat ->
  strip_prefix p (s ++ t) = None.
Proof.
  revert s. induction p as [|c p IH]; intros s H Hlen; simpl in *.
  - discriminate.
  - destruct s as [|d s]; simpl in *; [lia|].
    destruct (Ascii.eqb c d); [|reflexivity].
    apply IH; [assumption|lia].
Qed.

Lemma strip_prefix_some_app (p s r t : string) :
  strip_prefix p s = Some r -> strip_prefix p (s ++ t) = Some (r ++ t).
Proof.
  revert s. induction p as [|c p IH]; intros s H; simpl in *.
  - now inversion H.
  - destruct s as [|d s]; simpl in *; [discriminate|].
    destruct (Ascii.eqb c d); [|discriminate]. now apply IH.
Qed.

Lemma strip_prefix_none_shrink (p s t : string) :
  strip_prefix p (s ++ t) = None ->
  (String.length p <= String.length s)%nat ->
  strip_prefix p s = None.
Proof.
  revert s. induction p as [|c p IH]; intros s H Hlen; simpl in *.
  - discriminate.
  - destruct s as [|d s]; simpl in *; [lia|].
    destruct (Ascii.eqb c d); [|reflexivity].
    apply IH; [assumption|lia].
Qed.

End StringFacts.

(** ** The tools *)

Section ToolFacts.

Import Tools.

(** A dictionary lookup finds nothing under a key that is not there. *)
Lemma dict_get_absent (d : list (string * pyval)) (k : string) :
  ~ In k (map fst d) -> dict_get d k = None.
Proof.
  induction d as [|[k' v] d IH]; simpl; intros Hk; [reflexivity|].
  destruct (String.eqb_spec k' k) as [->|_].
  - exfalso. apply Hk. now left.
  - apply IH. intros Hin. apply Hk. now right.
Qed.

(** A dictionary lookup finds the value of a key listed once. *)
Lemma dict_get_present (d : list (string * pyval)) (k : string) (v : pyval) :
  NoDup (map fst d) -> In (k, v) d -> dict_get d k = Some v.
Proof.
  induction d as [|[k' v'] d IH]; simpl; intros Hnd Hin; [contradiction|].
  inversion Hnd as [|? ? Hk' Hnd']; subst.
  destruct Hin as [Heq|Hin].
  - inversion Heq; subst. now rewrite String.eqb_refl.
  - destruct (String.eqb_spec k' k) as [->|_].
    + exfalso. apply Hk'. apply in_map_iff. now exists (k, v).
    + now apply IH.
Qed.




(** C9: [return_policy_checker("SiteB")] returns the fixed SiteB policy
    (window, free_returns, conditions, processing_time);
    [return_policy_checker("Cocktail Dress")], whose argument is not a store
    name, returns the same result, found through the catalogue entry of
    that name and its store. *)
Theorem return_policy_checker_store_and_product :
  return_policy_checker (VStr "SiteB")
    = OK (Json.dumps (policy "14 days" false "Return shipping fee applies"
                        "5-7 business days")) /\
  dict_get policies "Cocktail Dress" = None /\
  (exists p, In p results /\ p_name p = "Cocktail Dress" /\
             p_store p = "SiteB") /\
  return_policy_checker (VStr "Cocktail Dress")
    = return_policy_checker (VStr "SiteB").
Proof.
  split; [vm_compute; reflexivity|]. split; [reflexivity|]. split.
  - exists (mk_product "Cocktail Dress" "red" (VInt 120) "M" true "SiteB"
              "4-day").
    simpl. intuition.
  - vm_compute. reflexivity.
Qed.

(** C1: for "White Sneakers" with the target "friday" the estimator never
    gets to the feasibility computation.  The shipping entry of a store is
    the rate itself, with no ZIP level and no "default" key, so the ZIP
    lookup comes back empty and the result is an error, whatever the day. *)
Theorem shipping_white_sneakers_friday_unavailable :
  forall today : Datetime.datetime,
    shipping_time_estimator today (VStr "White Sneakers") (VStr "friday") VNone
    = OK (Json.dumps (error_dict "Shipping not available to ZIP code None")).
Proof.
  intros today. vm_compute. reflexivity.
Qed.


(** Evaluates a closed call in the goal. *)
Ltac run e := let r := eval vm_compute in e in change e with r.

(** The same error for every ZIP code given as a string: the two keys of a
    rate are the only strings the lookup finds, and what it finds then is
    not a dictionary. *)
Lemma shipping_white_sneakers_any_zip
  (today : Datetime.datetime) (target : pyval) (zip : string) :
  zip <> "estimated_delivery" -> zip <> "cost" ->
  shipping_time_estimator today (VStr "White Sneakers") target (VStr zip)
  = OK (Json.dumps
          (error_dict ("Shipping not available to ZIP code " ++ zip))).
Proof.
  intros Hed Hcost. unfold shipping_time_estimator.
  run (search_by_name (VStr "White Sneakers")). cbn [bind].
  match goal with |- context [Json.loads ?t] => run (Json.loads t) end.
  cbn [bind truthy negb].
  do 3 (match goal with
        | |- context [subscript ?a ?b] => run (subscript a b)
        end; cbn [bind]).
  match goal with
  | |- context [parse_delivery_days ?a] => run (parse_delivery_days a)
  end.
  cbn [bind].
  match goal with |- context [subscript ?a ?b] => run (subscript a b) end.
  cbn [bind].
  match goal with
  | |- context [method_get shipping_info ?a ?b] =>
      run (method_get shipping_info a b)
  end.
  cbn [bind].
  match goal with
  | |- context [method_get ?a (VStr "SiteB") ?b] =>
      run (method_get a (VStr "SiteB") b)
  end.
  cbn [bind truthy negb].
  match goal with
  | |- context [method_get ?a (VStr "default") ?b] =>
      run (method_get a (VStr "default") b)
  end.
  cbn [bind method_get dict_lookup unhashable dict_get].
  destruct (String.eqb_spec "estimated_delivery" zip) as [E|_]; [now elim Hed|].
  destruct (String.eqb_spec "cost" zip) as [E|_]; [now elim Hcost|].
  reflexivity.
Qed.

(** No product of the catalogue gets an estimate: asked by its own name,
    each one ends in one of the two shipping errors. *)
Lemma shipping_unavailable_across_catalogue (today : Datetime.datetime) :
  Forall (fun p =>
            shipping_time_estimator today (VStr (p_name p)) (VStr "friday")
              VNone
            = OK (Json.dumps
                    (error_dict "Shipping information not available")) \/
            shipping_time_estimator today (VStr (p_name p)) (VStr "friday")
              VNone
            = OK (Json.dumps
                    (error_dict "Shipping not available to ZIP code None")))
    results.
Proof.
  unfold results.
  repeat (apply Forall_cons;
          [first [left; vm_compute; reflexivity
                 |right; vm_compute; reflexivity]|]).
  apply Forall_nil.
Qed.

Lemma add_days_small (today : Datetime.datetime) (k : Z) :
  Datetime.valid today -> 0 <= k <= 7 ->
  Datetime.toordinal today + 7 <= Datetime.MAXORDINAL ->
  Datetime.add_days today k
  = OK (Datetime.mk_datetime (Datetime.toordinal today + k)
          (Datetime.micros today)).
Proof.
  intros [[Hlo Hhi] _] Hk Hroom. unfold Datetime.add_days.
  destruct (Z.ltb_spec 999999999 (Z.abs k)) as [Hbig|_]; [lia|].
  destruct (Z.ltb_spec 0 (Datetime.toordinal today + k)) as [_|Hneg]; [|lia].
  destruct (Z.leb_spec (Datetime.toordinal today + k) Datetime.MAXORDINAL)
    as [_|Hover]; [reflexivity|lia].
Qed.

(** The weekday branch, where it is reached: for "tuesday", "wednesday" and
    "friday" the requested date is the next day of that name, one to seven
    days after today. *)
Lemma weekday_branch_next_occurrence
  (today delivery_date : Datetime.datetime) (days_needed : Z)
  (name : string) (idx : Z) :
  In (name, idx) [("tuesday", 1); ("wednesday", 2); ("friday", 4)] ->
  Datetime.valid today ->
  Datetime.toordinal today + 7 <= Datetime.MAXORDINAL ->
  Datetime.add_days today days_needed = OK delivery_date ->
  exists k target_date,
    1 <= k <= 7 /\
    Datetime.add_days today k = OK target_date /\
    Datetime.weekday target_date = idx /\
    calculate_delivery_feasibility today days_needed (VStr name)
      = OK (feasibility delivery_date target_date).
Proof.
  intros Hin Hvalid Hroom Hdelivery.
  pose proof (Z.mod_pos_bound (Datetime.toordinal today + 6) 7 eq_refl) as Hw.
  pose proof (Z.div_mod (Datetime.toordinal today + 6) 7 ltac:(lia)) as Hdiv.
  set (w := (Datetime.toordinal today + 6) mod 7) in *.
  set (q := (Datetime.toordinal today + 6) / 7) in *.
  set (k := if idx - w <=? 0 then idx - w + 7 else idx - w).
  assert (Hidx : 0 <= idx < 7)
    by (simpl in Hin; intuition (try congruence);
        match goal with H : (_, _) = (_, _) |- _ => inversion H; lia end).
  assert (Hk : 1 <= k <= 7)
    by (unfold k; destruct (Z.leb_spec (idx - w) 0); lia).
  exists k, (Datetime.mk_datetime (Datetime.toordinal today + k)
               (Datetime.micros today)).
  split; [exact Hk|].
  split; [apply add_days_small; [assumption|lia|assumption]|].
  split.
  - unfold Datetime.weekday. cbn [Datetime.toordinal].
    symmetry.
    apply (Z.mod_unique _ _ (if idx - w <=? 0 then q + 1 else q)); [lia|].
    unfold k. destruct (Z.leb_spec (idx - w) 0); lia.
  - simpl in Hin.
    destruct Hin as [E|[E|[E|[]]]]; inversion E; subst name idx;
      unfold calculate_delivery_feasibility;
      cbn [attr_lower bind];
      match goal with
      | |- context [existsb ?f ?l] => run (existsb f l)
      end; cbv iota;
      match goal with
      | |- context [existsb ?f ?l] => run (existsb f l)
      end; cbv iota;
      match goal with
      | |- context [index_of ?x ?l] => run (index_of x l)
      end;
      fold (Datetime.weekday today); unfold Datetime.weekday; fold w; fold k;
      rewrite Hdelivery; cbn [bind];
      rewrite add_days_small by (try assumption; lia); reflexivity.
Qed.

(** The ordinal branch on a sample day: "15th" is the 15th of the month,
    "3rd", already past, the 3rd of the next month, and "31st" an error
    in a month of thirty days. *)
Lemma ordinal_targets_on_a_sample_day :
  calculate_delivery_feasibility Statements.wednesday_morning 2 (VStr "15th")
    = OK (feasibility
            (Datetime.mk_datetime (Datetime.ymd2ord 2026 11 6) 36000000000)
            (Datetime.mk_datetime (Datetime.ymd2ord 2026 11 15) 0)) /\
  calculate_delivery_feasibility Statements.wednesday_morning 2 (VStr "3rd")
    = OK (feasibility
            (Datetime.mk_datetime (Datetime.ymd2ord 2026 11 6) 36000000000)
            (Datetime.mk_datetime (Datetime.ymd2ord 2026 12 3) 0)) /\
  calculate_delivery_feasibility Statements.wednesday_morning 2 (VStr "31st")
    = OK (error_dict "Invalid date specified").
Proof.
  repeat split; vm_compute; reflexivity.
Qed.

End ToolFacts.

(** ** The executor *)

Section ExecutorFacts.

Import Agent.

Lemma lookup_tool_absent (tool_name : string) (m : list (string * tool)) :
  ~ In tool_name (map fst m) -> lookup_tool tool_name m = None.
Proof.
  induction m as [|[k f] m IH]; simpl; intros Hk; [reflexivity|].
  destruct (String.eqb_spec k tool_name) as [->|_].
  - exfalso. apply Hk. now left.
  - apply IH. intros Hin. apply Hk. now right.
Qed.

(** C2: [execute_tools] turns every outcome of the call into a string.  The
    registry has five tools.  For a name outside it the result is the
    "Unknown tool" text with the name; when the tool raises, whatever the
    exception, the result is the error text with the tool name and
    [str(e)]; otherwise it is the tool's own result. *)
Theorem execute_tools_never_raises :
  forall (today : Datetime.datetime) (tool_name : string) (params : pyval),
    map fst tool_mapping
      = ["eccomerce_search_aggregtor"; "shipping_time_estimator";
         "discount_promo_checker"; "return_policy_checker";
         "competitor_price_comparison"] /\
    (~ In tool_name (map fst tool_mapping) ->
     execute_tools today tool_name params = "Unknown tool: " ++ tool_name) /\
    (forall (f : tool) (kw : list (string * pyval)) (e : exn),
       lookup_tool tool_name tool_mapping = Some f ->
       params = VDict kw ->
       f today kw = Raise e ->
       execute_tools today tool_name params
         = "Error executing " ++ tool_name ++ ": " ++ exn_str e) /\
    (forall (f : tool) (kw : list (string * pyval)) (text : string),
       lookup_tool tool_name tool_mapping = Some f ->
       params = VDict kw ->
       f today kw = OK text ->
       execute_tools today tool_name params = text) /\
    ((exists text, invoke today tool_name params = OK text /\
                   execute_tools today tool_name params = text) \/
     (exists e, invoke today tool_name params = Raise e /\
                execute_tools today tool_name params
                  = "Error executing " ++ tool_name ++ ": " ++ exn_str e)).
Proof.
  intros today tool_name params.
  split; [reflexivity|]. split; [|split; [|split]].
  - intros Hk. unfold execute_tools, invoke.
    now rewrite (lookup_tool_absent _ _ Hk).
  - intros f kw e Hf -> He. unfold execute_tools, invoke.
    now rewrite Hf, He.
  - intros f kw text Hf -> Ht. unfold execute_tools, invoke.
    now rewrite Hf, Ht.
  - unfold execute_tools.
    destruct (invoke today tool_name params) as [text|e].
    + left. now exists text.
    + right. now exists e.
Qed.

Lemma execute_tools_never_raises_witness :
  let today := Datetime.mk_datetime 739924 0 in
  execute_tools today "price_oracle" (VDict []) = "Unknown tool: price_oracle" /\
  execute_tools today "discount_promo_checker" (VDict [("product_name", VList [])])
    = "Error executing discount_promo_checker: unhashable type: 'list'" /\
  execute_tools today "discount_promo_checker"
    (VDict [("product_name", VStr "Cocktail Dress")])
    = Json.dumps (Tools.codes [("PARTY25", 25); ("NEW15", 15)]).
Proof.
  intros today. split; [|split].
  - apply (execute_tools_never_raises today "price_oracle" (VDict [])).
    simpl. intuition discriminate.
  - apply (proj1 (proj2 (proj2
             (execute_tools_never_raises today "discount_promo_checker"
                (VDict [("product_name", VList [])]))))
             call_discount [("product_name", VList [])]
             (mk_exn TypeError "unhashable type: 'list'"));
      reflexivity.
  - apply (proj1 (proj2 (proj2 (proj2
             (execute_tools_never_raises today "discount_promo_checker"
                (VDict [("product_name", VStr "Cocktail Dress")])))))
             call_discount [("product_name", VStr "Cocktail Dress")]);
      reflexivity.
Defined.

End ExecutorFacts.

(** ** The price filter *)

Section PriceFilter.

Import Tools Statements.

(** When the loop body is a pure test, the loop is a filter. *)
Lemma search_loop_filter
  (name color price_range size in_stock store : pyval)
  (f : product -> bool) :
  forall todo filtered,
    (forall p, In p todo ->
       product_passes name color price_range size in_stock store p
       = OK (f p)) ->
    search_loop name color price_range size in_stock store todo filtered
    = OK (filtered ++ filter f todo)%list.
Proof.
  induction todo as [|p todo IH]; intros filtered Hf; cbn [search_loop filter].
  - now rewrite app_nil_r.
  - rewrite (Hf p (or_introl eq_refl)). cbn [bind].
    rewrite IH by (intros q Hq; apply Hf; now right).
    destruct (f p); [now rewrite <- app_assoc|reflexivity].
Qed.

Lemma search_by_price_filter (price_range : pyval) (f : product -> bool) :
  (forall p, In p results ->
     product_passes VNone VNone price_range VNone VNone VNone p = OK (f p)) ->
  search_by_price price_range = OK (listing (filter f results)).
Proof.
  intros Hf. unfold search_by_price, eccomerce_search_aggregtor.
  now rewrite (search_loop_filter _ _ _ _ _ _ f results [] Hf).
Qed.

(** Catalogue prices convert to floats. *)
Lemma catalogue_price_converts (p : product) :
  In p results -> to_float (p_price p) = OK (price_float p).
Proof.
  intros Hin. simpl in Hin.
  repeat (destruct Hin as [<-|Hin]; [reflexivity|]). contradiction.
Qed.





(** The two named lists are the catalogue filtered by price. *)
Lemma named_price_lists :
  at_most_70
    = filter (price_between (Float64.of_Z 0) (Float64.of_Z 70)) results /\
  from_50_to_80
    = filter (price_between (Float64.of_Z 50) (Float64.of_Z 80)) results.
Proof. split; vm_compute; reflexivity. Qed.





End PriceFilter.

(** ** The reasoning loop *)

Section LoopFacts.

Import Agent Statements.

Variable call_llm : nat -> string -> option string.
Variable clock : nat -> Datetime.datetime.

Lemma parse_tool_calls_empty : parse_tool_calls "" = OK [].
Proof. reflexivity. Qed.

(** A round whose response has no tool call ends the loop. *)
Lemma loop_from_final (n : nat) (st : state) (last : option string)
  (r : string) :
  call_llm (llm_calls st) (conversation_context st) = Some r ->
  r <> "" ->
  parse_tool_calls r = OK [] ->
  loop_from call_llm clock (S n) st last
  = OK (mk_outcome r
          (mk_state
             (conversation_context st ++ nl ++ "Assistant: " ++ r ++ nl ++
              "Observations: " ++ "" ++ nl)
             (S (llm_calls st)) (executed st))).
Proof.
  intros Hr Hne Hp. cbn [loop_from]. rewrite Hr.
  destruct (String.eqb_spec r "") as [->|_]; [now elim Hne|].
  rewrite Hp. reflexivity.
Qed.

(** A round whose response has tool calls runs them and goes on with one
    iteration less, one more call to the completion service on record. *)
Lemma loop_from_continue (n : nat) (st : state) (last : option string)
  (r : string) (c : tool_call) (cs : list tool_call) :
  call_llm (llm_calls st) (conversation_context st) = Some r ->
  parse_tool_calls r = OK (c :: cs) ->
  exists st',
    loop_from call_llm clock (S n) st last
      = loop_from call_llm clock n st' (Some r) /\
    llm_calls st' = S (llm_calls st) /\
    (List.length (executed st') > List.length (executed st))%nat.
Proof.
  intros Hr Hp. cbn [loop_from]. rewrite Hr.
  destruct (String.eqb_spec r "") as [->|_].
  - rewrite parse_tool_calls_empty in Hp. discriminate.
  - rewrite Hp. cbn [bind].
    destruct (run_tool_calls clock (c :: cs) _ "") as [done observations] eqn:Hrun.
    eexists. split; [reflexivity|]. split; [reflexivity|].
    cbn [executed].
    assert (Hlen : forall calls acc obs,
               List.length (fst (run_tool_calls clock calls acc obs))
               = (List.length acc + List.length calls)%nat).
    { induction calls as [|[t p] calls IH]; intros acc obs; cbn [run_tool_calls].
      - simpl. lia.
      - rewrite IH. rewrite length_app. simpl. lia. }
    specialize (Hlen (c :: cs) (executed st) "").
    cbn [executed] in Hrun. rewrite Hrun in Hlen. simpl in Hlen. lia.
Qed.

(** C4 (as stated, refuted): an empty response has no tool call in it, and
    the loop answers it with its fixed error text, not with the response. *)
Lemma empty_response_is_not_returned : ~ final_answer_for_every_response.
Proof.
  intros H.
  destruct (H (fun _ _ => Some "") (fun _ => Datetime.mk_datetime 1 0)
              0%nat (initial "hello") None "" eq_refl eq_refl)
    as [o [Ho Ha]].
  cbn in Ho. inversion Ho; subst o. discriminate Ha.
Qed.

(** C4 (amended): when the response of a round is not empty and the parser
    finds no tool call in it, the loop ends in that round, whatever the
    iterations left: it returns the response unchanged, has called the
    completion service once more, and has executed no tool. *)
Theorem final_answer_returned_unchanged :
  forall (n : nat) (st : state) (last : option string) (r : string),
    call_llm (llm_calls st) (conversation_context st) = Some r ->
    r <> "" ->
    parse_tool_calls r = OK [] ->
    exists o,
      loop_from call_llm clock (S n) st last = OK o /\
      answer o = r /\
      llm_calls (final o) = S (llm_calls st) /\
      executed (final o) = executed st.
Proof.
  intros n st last r Hr Hne Hp.
  eexists. split; [apply (loop_from_final n st last r Hr Hne Hp)|].
  repeat split.
Qed.

(** With every one of the next [n] responses carrying a tool call, the
    loop runs [n] rounds and is then where it would be with no iteration
    left and the last of these responses in hand. *)
Lemma loop_from_scripted (responses : nat -> string) :
  forall (n : nat) (st : state) (last : option string),
    (forall k ctx, (llm_calls st <= k < llm_calls st + n)%nat ->
                   call_llm k ctx = Some (responses k)) ->
    (forall k, (llm_calls st <= k < llm_calls st + n)%nat ->
               exists c cs, parse_tool_calls (responses k) = OK (c :: cs)) ->
    exists st',
      loop_from call_llm clock n st last
        = loop_from call_llm clock 0 st'
            (match n with
             | O => last
             | S n' => Some (responses (llm_calls st + n')%nat)
             end) /\
      llm_calls st' = (llm_calls st + n)%nat /\
      (List.length (executed st') >= List.length (executed st) + n)%nat.
Proof.
  induction n as [|n IH]; intros st last Hllm Hcalls.
  - exists st. split; [reflexivity|]. split; lia.
  - destruct (Hcalls (llm_calls st)) as [c [cs Hp]]; [lia|].
    destruct (loop_from_continue n st last _ c cs
                (Hllm (llm_calls st) _ ltac:(lia)) Hp)
      as [st1 [Hstep [Hcount Hexec]]].
    destruct (IH st1 (Some (responses (llm_calls st)))) as [st' [Hrun [Hc He]]].
    + intros k ctx Hk. apply Hllm. lia.
    + intros k Hk. apply Hcalls. lia.
    + exists st'. rewrite Hstep, Hrun. split; [|split; lia].
      destruct n as [|n']; [now rewrite Nat.add_0_r|].
      rewrite Hcount. do 3 f_equal. lia.
Qed.

(** C5: when each of the first five responses carries at least one tool
    call that parses, [react_loop] makes exactly five calls to the
    completion service (a tool executed in each round) and returns the
    fifth response, not an error. *)
Theorem budget_exhausted_returns_fifth_response :
  forall (responses : nat -> string) (query : string),
    (forall k ctx, (k < 5)%nat -> call_llm k ctx = Some (responses k)) ->
    (forall k, (k < 5)%nat ->
               exists c cs, parse_tool_calls (responses k) = OK (c :: cs)) ->
    exists o,
      react_loop call_llm clock query = OK o /\
      answer o = responses 4%nat /\
      llm_calls (final o) = 5%nat /\
      (List.length (executed (final o)) >= 5)%nat.
Proof.
  intros responses query Hllm Hcalls.
  destruct (loop_from_scripted responses MAX_ITERATIONS (initial query) None)
    as [st' [Hrun [Hc He]]].
  - intros k ctx Hk. apply Hllm. unfold MAX_ITERATIONS in Hk. cbn in Hk. lia.
  - intros k Hk. apply Hcalls. unfold MAX_ITERATIONS in Hk. cbn in Hk. lia.
  - exists (mk_outcome (responses 4%nat) st').
    unfold react_loop. rewrite Hrun.
    unfold MAX_ITERATIONS in *. cbn in *. repeat split; lia.
Qed.

End LoopFacts.

Section LoopWitnesses.

Import Agent Statements.

Lemma final_answer_returned_unchanged_witness :
  exists o,
    loop_from (fun _ _ => Some "No tool is needed.") sample_clock 5
      (initial "hello") None = OK o /\
    answer o = "No tool is needed." /\
    llm_calls (final o) = 1%nat /\
    executed (final o) = [].
Proof.
  apply (final_answer_returned_unchanged
           (fun _ _ => Some "No tool is needed.") sample_clock
           4 (initial "hello") None "No tool is needed.").
  - reflexivity.
  - discriminate.
  - reflexivity.
Defined.

Lemma budget_exhausted_returns_fifth_response_witness :
  exists o,
    react_loop (fun _ _ => Some always_calls) sample_clock "any discount?"
      = OK o /\
    answer o = always_calls /\
    llm_calls (final o) = 5%nat /\
    (List.length (executed (final o)) >= 5)%nat.
Proof.
  apply (budget_exhausted_returns_fifth_response
           (fun _ _ => Some always_calls) sample_clock
           (fun _ => always_calls) "any discount?").
  - intros k ctx _. reflexivity.
  - intros k _.
    exists ("discount_promo_checker", VDict [("product_name", VStr "Floral Skirt")]).
    exists []. reflexivity.
Defined.

End LoopWitnesses.

(** ** The JSON decoder *)

Section DecoderFacts.

Import Json Statements.

Lemma skip_ws_length (s : string) :
  (String.length (skip_ws s) <= String.length s)%nat.
Proof.
  induction s as [|c s IH]; simpl; [lia|].
  destruct (is_json_ws c); simpl; lia.
Qed.

Lemma take_digits_length (s d r : string) :
  take_digits s = (d, r) ->
  String.length s = (String.length d + String.length r)%nat.
Proof.
  revert d r. induction s as [|c s IH]; intros d r H; simpl in *.
  - now inversion H.
  - destruct (is_digit c).
    + destruct (take_digits s) as [d' r'] eqn:E. inversion H; subst.
      simpl. now rewrite (IH d' r eq_refl).
    + now inversion H.
Qed.

Lemma scanstring_scans :
  forall (n : nat) (s acc : string),
    (String.length s <= n)%nat -> scans 1 s (scanstring s acc).
Proof.
  induction n as [|n IH]; intros s acc Hn.
  - destruct s; [reflexivity|simpl in Hn; lia].
  - destruct s as [|c s1]; [reflexivity|].
    assert (Hrec : forall t acc', (String.length t <= String.length s1)%nat ->
                     scans 1 (String c s1) (scanstring t acc')).
    { intros t acc' Ht. specialize (IH t acc' ltac:(simpl in Hn; lia)).
      unfold scans in *. destruct (scanstring t acc') as [[? r]|e]; [simpl; lia|assumption]. }
    cbn [scanstring].
    destruct (Ascii.eqb c dquote); [simpl; lia|].
    destruct (Ascii.eqb c backslash).
    + destruct s1 as [|e s2]; [reflexivity|].
      repeat match goal with
             | |- scans _ _ (if ?b then _ else _) => destruct b
             end; try (apply Hrec; simpl; lia); try reflexivity.
      destruct s2 as [|h1 [|h2 [|h3 [|h4 s3]]]]; try reflexivity.
      destruct (hex4 h1 h2 h3 h4) as [cp|]; [|reflexivity].
      destruct ((55296 <=? cp)%Z && (cp <=? 56319)%Z)%bool;
        [|apply Hrec; simpl; lia].
      destruct s3 as [|b1 [|u1 [|g1 [|g2 [|g3 [|g4 s4]]]]]];
        try (apply Hrec; simpl; lia).
      destruct (Ascii.eqb b1 backslash && Ascii.eqb u1 "u")%bool;
        [|apply Hrec; simpl; lia].
      destruct (hex4 g1 g2 g3 g4) as [lo|]; [|apply Hrec; simpl; lia].
      destruct ((56320 <=? lo)%Z && (lo <=? 57343)%Z)%bool;
        apply Hrec; simpl; lia.
    + destruct (N.ltb (code c) 32); [reflexivity|].
      apply Hrec; simpl; lia.
Qed.

Lemma scan_number_shorter (neg : bool) (s : string) (v : pyval) (r : string) :
  scan_number neg s = Some (v, r) ->
  (String.length r + 1 <= String.length s)%nat.
Proof.
  unfold scan_number. intros H.
  set (first := match s with
                | EmptyString => ("", s)
                | String c s' => if Ascii.eqb c "0" then ("0", s') else take_digits s
                end) in H.
  assert (H1 : String.length s
               = (String.length (fst first) + String.length (snd first))%nat).
  { subst first. destruct s as [|c s']; [reflexivity|].
    destruct (Ascii.eqb c "0"); [reflexivity|].
    destruct (take_digits (String c s')) as [d r'] eqn:E.
    now apply take_digits_length in E. }
  destruct first as [ip s1]. cbn [fst snd] in H1.
  destruct (String.eqb_spec ip "") as [->|Hip]; [discriminate|].
  assert (Hlen : (1 <= String.length ip)%nat)
    by (destruct ip; [now elim Hip|simpl; lia]).
  set (second := match s1 with
                 | EmptyString => ("", s1)
                 | String c s' =>
                     if Ascii.eqb c "."
                     then let '(d, r0) := take_digits s' in
                          if String.eqb d "" then ("", s1) else (d, r0)
                     else ("", s1)
                 end) in H.
  assert (H2 : (String.length (snd second) <= String.length s1)%nat).
  { subst second. destruct s1 as [|c s']; [simpl; lia|].
    destruct (Ascii.eqb c "."); [|simpl; lia].
    destruct (take_digits s') as [d r'] eqn:E.
    apply take_digits_length in E.
    destruct (String.eqb d ""); simpl in *; lia. }
  destruct second as [fp s2]. cbn [fst snd] in H2.
  match type of H with
  | context [match ?X with pair _ _ => _ end] => set (third := X) in H
  end.
  assert (H3 : (String.length (snd third) <= String.length s2)%nat).
  { subst third. destruct s2 as [|c s']; [simpl; lia|].
    destruct (Ascii.eqb c "e" || Ascii.eqb c "E")%bool; [|simpl; lia].
    destruct s' as [|sg r0].
    - simpl. lia.
    - destruct (Ascii.eqb sg "-");
        [|destruct (Ascii.eqb sg "+")];
        match goal with
        | |- context [take_digits ?t] =>
            destruct (take_digits t) as [d r'] eqn:E;
            apply take_digits_length in E
        end;
        destruct (String.eqb d ""); simpl in *; lia. }
  destruct third as [ex s3]. cbn [fst snd] in H3.
  destruct fp, ex; inversion H; subst; lia.
Qed.

Lemma scans_bind {A B : Type} (k k' : nat) (s s' : string)
  (x : result (A * string)) (g : A * string -> result (B * string)) :
  scans k s x ->
  (forall a rest, (String.length rest + k <= String.length s)%nat ->
                  scans k' s' (g (a, rest))) ->
  scans k' s' (bind x g).
Proof.
  intros Hx Hg. destruct x as [[a rest]|e]; cbn [bind]; [now apply Hg|exact Hx].
Qed.

Lemma scans_weaken {A : Type} (k k' : nat) (s s' : string)
  (x : result (A * string)) :
  scans k s x ->
  (String.length s + k' <= String.length s' + k)%nat ->
  scans k' s' x.
Proof.
  intros Hx Hlen. destruct x as [[a rest]|e]; [|exact Hx].
  unfold scans in *. lia.
Qed.

Lemma scans_error {A : Type} (k : nat) (s : string) (msg : string) :
  scans (A := A) k s (decode_error msg).
Proof. reflexivity. Qed.

Lemma scanners_scan :
  forall fuel : nat,
    (forall s, (2 * String.length s + 1 <= fuel)%nat ->
               scans 1 s (scan_value fuel s)) /\
    (forall s acc, (2 * String.length s + 1 <= fuel)%nat ->
                   scans 1 s (scan_members fuel s acc)) /\
    (forall s acc, (2 * String.length s + 2 <= fuel)%nat ->
                   scans 1 s (scan_elements fuel s acc)).
Proof.
  induction fuel as [|f [IHv [IHm IHe]]].
  - repeat split; intros; lia.
  - split; [|split].
    + intros s Hf. cbn [scan_value].
      destruct s as [|c s1]; [apply scans_error|].
      cbn [String.length] in Hf.
      destruct (Ascii.eqb c dquote).
      { eapply scans_bind; [apply (scanstring_scans _ s1 "" (le_n _))|].
        intros t r Hr. simpl. lia. }
      pose proof (skip_ws_length s1) as Hws.
      destruct (Ascii.eqb c "{").
      { destruct (skip_ws s1) as [|c2 s2] eqn:E.
        - eapply scans_weaken; [apply IHm; simpl; lia|simpl; lia].
        - destruct (Ascii.eqb c2 "}"); [simpl in *; lia|].
          eapply scans_weaken; [apply IHm; simpl in *; lia|simpl in *; lia]. }
      destruct (Ascii.eqb c "[").
      { destruct (skip_ws s1) as [|c2 s2] eqn:E.
        - eapply scans_weaken; [apply IHe; simpl; lia|simpl; lia].
        - destruct (Ascii.eqb c2 "]"); [simpl in *; lia|].
          eapply scans_weaken; [apply IHe; simpl in *; lia|simpl in *; lia]. }
      destruct (strip_prefix "null" (String c s1)) as [r|] eqn:E1.
      { apply strip_prefix_length in E1. simpl in *. lia. }
      destruct (strip_prefix "true" (String c s1)) as [r|] eqn:E2.
      { apply strip_prefix_length in E2. simpl in *. lia. }
      destruct (strip_prefix "false" (String c s1)) as [r|] eqn:E3.
      { apply strip_prefix_length in E3. simpl in *. lia. }
      destruct (if Ascii.eqb c "-" then scan_number true s1
                else scan_number false (String c s1)) as [[v r]|] eqn:En.
      { destruct (Ascii.eqb c "-"); apply scan_number_shorter in En;
          simpl in *; lia. }
      destruct (strip_prefix "NaN" (String c s1)) as [r|] eqn:E4.
      { apply strip_prefix_length in E4. simpl in *. lia. }
      destruct (strip_prefix "Infinity" (String c s1)) as [r|] eqn:E5.
      { apply strip_prefix_length in E5. simpl in *. lia. }
      destruct (strip_prefix "-Infinity" (String c s1)) as [r|] eqn:E6.
      { apply strip_prefix_length in E6. simpl in *. lia. }
      apply scans_error.
    + intros s acc Hf. cbn [scan_members].
      destruct s as [|c s1]; [apply scans_error|].
      cbn [String.length] in Hf.
      destruct (Ascii.eqb c dquote); [|apply scans_error].
      eapply scans_bind; [apply (scanstring_scans _ s1 "" (le_n _))|].
      intros k s2 Hs2.
      pose proof (skip_ws_length s2) as Hws2.
      destruct (skip_ws s2) as [|c3 s3]; [apply scans_error|].
      destruct (Ascii.eqb c3 ":"); [|apply scans_error].
      pose proof (skip_ws_length s3) as Hws3.
      eapply scans_bind; [apply IHv; simpl in *; lia|].
      intros v s4 Hs4.
      pose proof (skip_ws_length s4) as Hws4.
      destruct (skip_ws s4) as [|c5 s5]; [apply scans_error|].
      destruct (Ascii.eqb c5 "}"); [simpl in *; lia|].
      destruct (Ascii.eqb c5 ","); [|apply scans_error].
      pose proof (skip_ws_length s5) as Hws5.
      eapply scans_weaken; [apply IHm; simpl in *; lia|simpl in *; lia].
    + intros s acc Hf. cbn [scan_elements].
      eapply scans_bind; [apply IHv; lia|].
      intros v s1 Hs1.
      pose proof (skip_ws_length s1) as Hws1.
      destruct (skip_ws s1) as [|c s2]; [apply scans_error|].
      destruct (Ascii.eqb c "]"); [simpl in *; lia|].
      destruct (Ascii.eqb c ","); [|apply scans_error].
      pose proof (skip_ws_length s2) as Hws2.
      eapply scans_weaken; [apply IHe; simpl in *; lia|simpl in *; lia].
Qed.

(** [json.loads] has fuel enough: it fails with a decode error only. *)
Lemma loads_fails_with_decode_error (s : string) (e : exn) :
  loads s = Raise e -> exn_cls e = JSONDecodeError.
Proof.
  unfold loads. intros H.
  pose proof (skip_ws_length s) as Hws.
  pose proof (proj1 (scanners_scan (2 * String.length s + 2)) (skip_ws s)
                ltac:(lia)) as Hscan.
  destruct (scan_value (2 * String.length s + 2) (skip_ws s)) as [[v rest]|e'];
    cbn [bind] in H.
  - destruct (skip_ws rest); [discriminate|]. now inversion H.
  - inversion H; subst. exact Hscan.
Qed.

End DecoderFacts.

(** ** The action parser *)

Section ParserFacts.

Import Agent Statements.

Lemma span_length (p : ascii -> bool) (s a b : string) :
  span p s = (a, b) ->
  String.length s = (String.length a + String.length b)%nat.
Proof.
  revert a b. induction s as [|c s IH]; intros a b H; simpl in *.
  - now inversion H.
  - destruct (p c).
    + destruct (span p s) as [a' b'] eqn:E. inversion H; subst.
      simpl. now rewrite (IH a' b eq_refl).
    + now inversion H.
Qed.

(** [span] takes a run that is followed by a character outside the class. *)
Lemma span_app (p : ascii -> bool) (a : string) (c : ascii) (s : string) :
  forall_chars p a = true -> p c = false ->
  span p (a ++ String c s) = (a, String c s).
Proof.
  intros Ha Hc. induction a as [|x a IH]; simpl in *.
  - now rewrite Hc.
  - apply andb_prop in Ha as [Hx Ha]. rewrite Hx, (IH Ha). reflexivity.
Qed.

Lemma find_close_length (s b r : string) :
  find_close s = Some (b, r) ->
  String.length s = (String.length b + 2 + String.length r)%nat.
Proof.
  revert b r. induction s as [|c s IH]; intros b r H; [discriminate|].
  cbn [find_close] in H.
  destruct (strip_prefix "}]]" (String c s)) as [rest|] eqn:E.
  - inversion H; subst. apply strip_prefix_length in E. simpl in *. lia.
  - destruct (find_close s) as [[b' r']|] eqn:F; [|discriminate].
    inversion H; subst. simpl. rewrite (IH b' r eq_refl). lia.
Qed.

(** What [find_close] finds in a text it finds in every extension. *)
Lemma find_close_app (s b r t : string) :
  find_close s = Some (b, r) -> find_close (s ++ t) = Some (b, r ++ t).
Proof.
  revert b r. induction s as [|c s IH]; intros b r H; [discriminate|].
  cbn [find_close] in H.
  change (String c s ++ t) with (String c (s ++ t)). cbn [find_close].
  change (String c (s ++ t)) with (String c s ++ t).
  destruct (strip_prefix "}]]" (String c s)) as [rest|] eqn:E.
  - inversion H; subst.
    now rewrite (strip_prefix_some_app _ _ _ t E).
  - destruct (find_close s) as [[b' r']|] eqn:F; [|discriminate].
    inversion H; subst.
    rewrite (strip_prefix_none_app _ _ t E).
    + now rewrite (IH b' r eq_refl).
    + apply find_close_length in F. simpl. lia.
Qed.

(** In a body that, with its closing brace, has no [}]]], the first [}]]]
    of the span is the closing one. *)
Lemma find_close_clean (body : string) :
  contains "}]]" (body ++ "}") = false ->
  find_close (body ++ "}]]") = Some (body ++ "}", "").
Proof.
  induction body as [|c body IH]; intros H; [reflexivity|].
  change (String c body ++ "}") with (String c (body ++ "}")) in H.
  cbn [contains] in H. apply orb_false_elim in H as [Hhere Hrest].
  change (String c body ++ "}]]") with (String c (body ++ "}]]")).
  cbn [find_close]. rewrite (IH Hrest).
  replace (strip_prefix "}]]" (String c (body ++ "}]]"))) with (@None string);
    [reflexivity|symmetry].
  unfold starts_with in Hhere.
  destruct (strip_prefix "}]]" (String c (body ++ "}"))) eqn:E;
    [discriminate|clear Hhere].
  destruct body as [|d [|e body]].
  - cbn [append strip_prefix].
    destruct (Ascii.eqb "}" c); reflexivity.
  - cbn [append strip_prefix].
    destruct (Ascii.eqb "}" c); [|reflexivity].
    destruct (Ascii.eqb "]" d); reflexivity.
  - apply (strip_prefix_none_app "}]]" (String c (String d (String e body)))
             "}]]"); [|simpl; lia].
    apply (strip_prefix_none_shrink "}]]"
             (String c (String d (String e body))) "}"); [exact E|simpl; lia].
Qed.

(** A match is not empty: the text after it is shorter. *)
Lemma match_at_shorter (s name params rest : string) :
  match_at s = Some (name, params, rest) ->
  (String.length rest < String.length s)%nat.
Proof.
  unfold match_at. intros H.
  destruct (strip_prefix "[[CALL " s) as [s1|] eqn:E1; [|discriminate].
  apply strip_prefix_length in E1.
  destruct (span is_word s1) as [n s2] eqn:E2. apply span_length in E2.
  destruct (String.eqb n ""); [discriminate|].
  destruct s2 as [|c s3]; [discriminate|].
  destruct (Ascii.eqb c ","); [|discriminate].
  destruct (span is_space s3) as [g s4] eqn:E3. apply span_length in E3.
  destruct s4 as [|b s5]; [discriminate|].
  destruct (Ascii.eqb b "{"); [|discriminate].
  destruct (find_close s5) as [[body r]|] eqn:E4; [|discriminate].
  apply find_close_length in E4. inversion H; subst. simpl in *. lia.
Qed.

(** The scan does not depend on the fuel, once there is enough of it. *)
Lemma findall_from_enough :
  forall (f1 f2 : nat) (s : string),
    (String.length s <= f1)%nat -> (String.length s <= f2)%nat ->
    findall_from f1 s = findall_from f2 s.
Proof.
  induction f1 as [|f1 IH]; intros f2 s H1 H2.
  - destruct s; [|simpl in H1; lia]. destruct f2; reflexivity.
  - destruct f2 as [|f2].
    + destruct s; [reflexivity|simpl in H2; lia].
    + destruct s as [|c s]; [reflexivity|]. cbn [findall_from].
      destruct (match_at (String c s)) as [[[n p] rest]|] eqn:E.
      * apply match_at_shorter in E. simpl in *.
        f_equal. apply IH; lia.
      * simpl in *. apply IH; lia.
Qed.

Lemma findall_nil : findall "" = [].
Proof. reflexivity. Qed.

(** After a match the scan resumes behind it. *)
Lemma findall_match (s name params rest : string) :
  match_at s = Some (name, params, rest) ->
  findall s = (name, params) :: findall rest.
Proof.
  intros H. pose proof (match_at_shorter _ _ _ _ H) as Hlen.
  unfold findall. destruct s as [|c s]; [discriminate|].
  cbn [String.length findall_from]. rewrite H. f_equal.
  apply findall_from_enough; simpl in *; lia.
Qed.

(** Where no match starts the scan moves on by one character. *)
Lemma findall_skip (c : ascii) (s : string) :
  match_at (String c s) = None -> findall (String c s) = findall s.
Proof.
  intros H. unfold findall. cbn [String.length findall_from]. now rewrite H.
Qed.

(** The pattern matches a well delimited span as a whole. *)
Lemma match_at_span (sp : action_span) (rest : string) :
  well_delimited sp ->
  match_at (span_text sp ++ rest)
  = Some (span_name sp, span_object sp, rest).
Proof.
  intros [Hne [Hname [Hgap Hclose]]].
  assert (Hbody : contains "}]]" (span_body sp ++ "}") = false).
  { unfold span_object in Hclose.
    change ("{" ++ span_body sp ++ "}")
      with (String "{" (span_body sp ++ "}")) in Hclose.
    cbn [contains] in Hclose. now apply orb_false_elim in Hclose as [_ ?]. }
  clear Hclose.
  unfold span_text, span_object, match_at.
  rewrite append_assoc, strip_prefix_app.
  rewrite !append_assoc.
  change ("," ++ ?x) with (String "," x).
  rewrite (span_app is_word _ "," _ Hname eq_refl).
  destruct (String.eqb_spec (span_name sp) "") as [E|_]; [now elim Hne|].
  rewrite Ascii.eqb_refl.
  change ("{" ++ span_body sp ++ "}]]" ++ rest)
    with (String "{" (span_body sp ++ "}]]" ++ rest)).
  rewrite (span_app is_space _ "{" _ Hgap eq_refl).
  rewrite Ascii.eqb_refl.
  rewrite <- append_assoc.
  rewrite (find_close_app _ _ _ rest (find_close_clean _ Hbody)).
  rewrite <- append_assoc. reflexivity.
Qed.

(** No match starts inside quiet text that runs up to the end. *)
Lemma findall_quiet_tail (tail : string) : quiet tail -> findall tail = [].
Proof.
  unfold quiet. induction tail as [|c tail IH]; intros H; [reflexivity|].
  cbn [contains] in H. apply orb_false_elim in H as [Hhere Hrest].
  rewrite findall_skip; [now apply IH|].
  unfold match_at. unfold starts_with in Hhere.
  now destruct (strip_prefix "[[CALL " (String c tail)).
Qed.

(** The opening of a span does not overlap a shifted copy of itself: a text
    that does not start with it still does not when a span follows. *)
Lemma opener_no_overlap (u y : string) :
  u <> "" ->
  strip_prefix "[[CALL " u = None ->
  strip_prefix "[[CALL " (u ++ "[[CALL " ++ y) = None.
Proof.
  intros Hne H.
  destruct (Nat.le_gt_cases 7 (String.length u)) as [Hlong|Hshort].
  - now apply strip_prefix_none_app.
  - clear H.
    destruct u as [|c0 u]; [now elim Hne|clear Hne].
    do 6 (try (destruct u as [|? u])); simpl in Hshort; try lia; clear Hshort;
      cbn [strip_prefix append];
      repeat match goal with
             | c : ascii |- context [Ascii.eqb ?a ?c] =>
                 destruct (Ascii.eqb a c); try reflexivity
             end.
Qed.

(** No match starts inside quiet text that a span follows. *)
Lemma findall_quiet_filler (filler y : string) :
  quiet filler ->
  findall (filler ++ "[[CALL " ++ y) = findall ("[[CALL " ++ y).
Proof.
  unfold quiet. induction filler as [|c filler IH]; intros H; [reflexivity|].
  cbn [contains] in H. apply orb_false_elim in H as [Hhere Hrest].
  change (String c filler ++ "[[CALL " ++ y)
    with (String c (filler ++ "[[CALL " ++ y)).
  rewrite findall_skip; [now apply IH|].
  unfold match_at.
  change (String c (filler ++ "[[CALL " ++ y))
    with (String c filler ++ "[[CALL " ++ y).
  rewrite opener_no_overlap; [reflexivity|discriminate|].
  unfold starts_with in Hhere.
  now destruct (strip_prefix "[[CALL " (String c filler)).
Qed.

(** The matches of a document are its spans, in order. *)
Lemma findall_document (parts : list (string * action_span)) (tail : string) :
  Forall orderly parts -> quiet tail ->
  findall (document parts tail) = map span_groups (map snd parts).
Proof.
  intros Hparts Htail. induction Hparts as [|[filler sp] parts [Hq Hw] _ IH].
  - now apply findall_quiet_tail.
  - cbn [document map snd]. cbn [fst snd] in Hq, Hw.
    replace (span_text sp ++ document parts tail)
      with ("[[CALL " ++
            (span_name sp ++ "," ++ span_gap sp ++ "{" ++ span_body sp ++
             "}]]") ++ document parts tail)
      by (unfold span_text; now rewrite !append_assoc).
    rewrite (findall_quiet_filler _ _ Hq).
    replace ("[[CALL " ++
             (span_name sp ++ "," ++ span_gap sp ++ "{" ++ span_body sp ++
              "}]]") ++ document parts tail)
      with (span_text sp ++ document parts tail)
      by (unfold span_text; now rewrite !append_assoc).
    rewrite (findall_match _ _ _ _ (match_at_span sp _ Hw)).
    now rewrite IH.
Qed.

(** The decoding loop never raises: a literal that does not decode is
    skipped. *)
Lemma decode_matches_total (matches : list (string * string)) :
  forall acc, exists calls, decode_matches matches acc = OK calls.
Proof.
  induction matches as [|[name literal] matches IH]; intros acc;
    cbn [decode_matches].
  - now exists acc.
  - destruct (Json.loads literal) as [params|e] eqn:E; cbn [bind try_except].
    + apply IH.
    + unfold is_instance. rewrite (loads_fails_with_decode_error _ _ E).
      cbn [exn_class_eqb orb bind]. apply IH.
Qed.

(** [parse_tool_calls] returns a list for every text. *)
Lemma parse_tool_calls_total (text : string) :
  exists calls, parse_tool_calls text = OK calls.
Proof. apply decode_matches_total. Qed.

(** Decoding the matches keeps the spans whose literal decodes. *)
Lemma decode_matches_spans (spans : list action_span) :
  forall acc,
    decode_matches (map span_groups spans) acc = OK (acc ++ decoded spans)%list.
Proof.
  induction spans as [|sp spans IH]; intros acc; cbn [map decode_matches decoded].
  - now rewrite app_nil_r.
  - unfold span_groups at 1.
    destruct (Json.loads (span_object sp)) as [params|e] eqn:E;
      cbn [bind try_except].
    + rewrite IH. now rewrite <- app_assoc.
    + unfold is_instance. rewrite (loads_fails_with_decode_error _ _ E).
      cbn [exn_class_eqb orb bind]. apply IH.
Qed.

(** The calls parsed from a document. *)
Lemma parse_tool_calls_document
  (parts : list (string * action_span)) (tail : string) :
  Forall orderly parts -> quiet tail ->
  parse_tool_calls (document parts tail) = OK (decoded (map snd parts)).
Proof.
  intros Hparts Htail. unfold parse_tool_calls.
  rewrite (findall_document _ _ Hparts Htail).
  now rewrite (decode_matches_spans _ []).
Qed.

Lemma decoded_all (parts : list (string * action_span)) (values : list pyval) :
  Forall2 (fun part v => Json.loads (span_object (snd part)) = OK v)
    parts values ->
  decoded (map snd parts)
  = combine (map (fun part => span_name (snd part)) parts) values.
Proof.
  induction 1 as [|part v parts values Hv _ IH]; [reflexivity|].
  cbn [map decoded combine]. now rewrite Hv, IH.
Qed.



(** C6 (as stated, refuted): an object literal with [}]]] inside a string
    is a valid literal, but the pattern stops at that [}]]]; what it
    captures does not decode and the call is lost. *)
Lemma span_with_inner_close_is_lost : ~ every_span_is_parsed.
Proof.
  intros H.
  destruct (H "" "" "f" inner_close_literal [("a", VStr "}]]")])
    as [calls [Hcalls Hin]]; [discriminate|reflexivity|reflexivity|].
  vm_compute in Hcalls. inversion Hcalls; subst calls. contradiction.
Qed.

(** C6 (amended): in a text made of well delimited spans (the first [}]]]
    after the opening brace ends the span) between fillers that do not
    contain [[[CALL ], when every object literal decodes, also one with
    line breaks in it, [parse_tool_calls] returns exactly the calls of the
    spans, each with its name and the decoded literal, in text order. *)
Theorem well_delimited_spans_parsed_in_order :
  forall (parts : list (string * action_span)) (tail : string)
         (values : list pyval),
    Forall orderly parts -> quiet tail ->
    Forall2 (fun part v => Json.loads (span_object (snd part)) = OK v)
      parts values ->
    parse_tool_calls (document parts tail)
    = OK (combine (map (fun part => span_name (snd part)) parts) values).
Proof.
  intros parts tail values Hparts Htail Hvalues.
  rewrite (parse_tool_calls_document _ _ Hparts Htail).
  now rewrite (decoded_all _ _ Hvalues).
Qed.



(** Checks that a sample part is orderly, by computation. *)
Ltac check_orderly :=
  repeat (apply Forall_cons;
          [split;
           [vm_compute; reflexivity
           |split; [|split; [|split]];
            [let E := fresh in intros E; vm_compute in E; discriminate E
            |vm_compute; reflexivity ..]]
          |]);
  apply Forall_nil.

Lemma well_delimited_spans_parsed_in_order_witness :
  parse_tool_calls (document two_calls (nl ++ "Done."))
  = OK [("eccomerce_search_aggregtor",
         VDict [("name", VStr "sneakers"); ("color", VStr "white")]);
        ("return_policy_checker", VDict [("store_name", VStr "SiteB")])].
Proof.
  apply (well_delimited_spans_parsed_in_order two_calls (nl ++ "Done.")
           [VDict [("name", VStr "sneakers"); ("color", VStr "white")];
            VDict [("store_name", VStr "SiteB")]]).
  - check_orderly.
  - vm_compute. reflexivity.
  - repeat (apply Forall2_cons; [vm_compute; reflexivity|]).
    apply Forall2_nil.
Defined.


End ParserFacts.

(** ** The loop as a whole *)

Section LoopTotality.

Import Agent.

Variable call_llm : nat -> string -> option string.
Variable clock : nat -> Datetime.datetime.

(** With a response in hand or an iteration left, the loop returns an
    answer, after at most as many calls as iterations were left, and after
    one call at least when an iteration was left. *)
Lemma loop_from_answers :
  forall (n : nat) (st : state) (last : option string),
    (n = 0%nat -> last <> None) ->
    exists o,
      loop_from call_llm clock n st last = OK o /\
      (llm_calls st + Nat.min n 1 <= llm_calls (final o)
       <= llm_calls st + n)%nat.
Proof.
  induction n as [|n IH]; intros st last Hlast.
  - destruct last as [r|]; [|now elim (Hlast eq_refl)].
    exists (mk_outcome r st). split; [reflexivity|].
    cbn [final llm_calls Nat.min]. lia.
  - cbn [loop_from].
    destruct (call_llm (llm_calls st) (conversation_context st)) as [r|].
    + destruct (String.eqb r "").
      * eexists. split; [reflexivity|]. cbn [final llm_calls]. lia.
      * destruct (parse_tool_calls_total r) as [calls ->]. cbn [bind].
        destruct (run_tool_calls clock calls _ "") as [done observations].
        destruct calls as [|c calls].
        -- eexists. split; [reflexivity|]. cbn [final llm_calls]. lia.
        -- match goal with
           | |- context [loop_from _ _ n ?st' ?l] =>
               destruct (IH st' l ltac:(discriminate)) as [o [Ho Hc]]
           end.
           exists o. split; [exact Ho|]. cbn [llm_calls] in Hc. lia.
    + eexists. split; [reflexivity|]. cbn [final llm_calls]. lia.
Qed.

(** [react_loop] always returns some text, after one to five calls to the
    completion service. *)
Lemma react_loop_answers (query : string) :
  exists o,
    react_loop call_llm clock query = OK o /\
    (1 <= llm_calls (final o) <= 5)%nat.
Proof.
  destruct (loop_from_answers MAX_ITERATIONS (initial query) None)
    as [o [Ho Hc]]; [discriminate|].
  exists o. split; [exact Ho|].
  unfold MAX_ITERATIONS, initial in Hc. cbn [llm_calls Nat.min] in Hc. lia.
Qed.

End LoopTotality.

(** * Further properties *)

(** ** Search results as JSON *)

Section ListingFacts.

Import Tools Statements.

(** [json.dumps] of a list is the bracketed, comma separated dumps of its
    items. *)
Lemma dumps_list (l : list pyval) :
  Json.dumps (VList l) = "[" ++ join ", " (map Json.dumps l) ++ "]".
Proof.
  cbn [Json.dumps]. do 2 f_equal.
  induction l as [|x [|y l] IH]; [reflexivity|reflexivity|].
  cbn [map join] in *. now rewrite IH.
Qed.

Lemma scan_product (p : product) :
  In p results ->
  forall (f : nat) (rest : string),
    Json.scan_value (60 + f) (Json.dumps (product_dict p) ++ rest)
    = OK (product_dict p, rest).
Proof.
  intros Hin f rest. simpl in Hin.
  repeat (destruct Hin as [<-|Hin]; [vm_compute; reflexivity|]).
  contradiction.
Qed.

Lemma dumps_product_shape (p : product) :
  In p results ->
  exists t, Json.dumps (product_dict p) = String "{" t /\
            (60 <= String.length t)%nat.
Proof.
  intros Hin. simpl in Hin.
  repeat (destruct Hin as [<-|Hin];
          [eexists; split; [vm_compute; reflexivity|vm_compute; lia]|]).
  contradiction.
Qed.

Lemma join_dumps_head (q : product) (l : list product) (rest : string) :
  In q results ->
  exists t,
    join ", " (map Json.dumps (map product_dict (q :: l))) ++ rest
    = String "{" t.
Proof.
  intros Hq. destruct (dumps_product_shape q Hq) as [t [Hshape _]].
  destruct l; cbn [map join]; rewrite Hshape; eexists; reflexivity.
Qed.

Lemma join_cons2 (sep x y : string) (l : list string) :
  join sep (x :: y :: l) = x ++ sep ++ join sep (y :: l).
Proof. reflexivity. Qed.

Lemma scan_elements_last (f : nat) (s : string) (acc : list pyval)
    (v : pyval) (rest : string) :
  Json.scan_value f s = OK (v, String "]" rest) ->
  Json.scan_elements (S f) s acc = OK (VList (acc ++ [v]), rest).
Proof. intros H. cbn [Json.scan_elements]. rewrite H. reflexivity. Qed.

Lemma scan_elements_next (f : nat) (s : string) (acc : list pyval)
    (v : pyval) (rest : string) :
  Json.scan_value f s = OK (v, String "," (String " " (String "{" rest))) ->
  Json.scan_elements (S f) s acc
  = Json.scan_elements f (String "{" rest) (acc ++ [v]).
Proof. intros H. cbn [Json.scan_elements]. rewrite H. reflexivity. Qed.

(** The elements scanner reads back the items of a dumped list of catalogue
    records. *)
Lemma scan_products (l : list product) :
  Forall (fun p => In p results) l -> l <> [] ->
  forall (f : nat) (acc : list pyval) (rest : string),
    Json.scan_elements (61 + List.length l + f)
      (join ", " (map Json.dumps (map product_dict l)) ++ "]" ++ rest) acc
    = OK (VList (acc ++ map product_dict l), rest).
Proof.
  induction 1 as [|p l Hp Hl IH]; intros Hne f acc rest; [now elim Hne|].
  replace (61 + List.length (p :: l) + f)%nat
    with (S (60 + (1 + List.length l + f)))%nat by (cbn [List.length]; lia).
  destruct l as [|q l].
  - apply scan_elements_last. apply (scan_product p Hp).
  - rewrite !map_cons, join_cons2, <- !map_cons, !append_assoc.
    inversion Hl as [|? ? Hq _]; subst.
    destruct (join_dumps_head q l ("]" ++ rest) Hq) as [t Ht].
    specialize (IH ltac:(discriminate) f (acc ++ [product_dict p])%list rest).
    rewrite <- app_assoc in IH.
    rewrite Ht in *.
    rewrite (scan_elements_next _ _ _ (product_dict p) t).
    + replace (60 + (1 + List.length (q :: l) + f))%nat
        with (61 + List.length (q :: l) + f)%nat by lia.
      rewrite IH. reflexivity.
    + apply (scan_product p Hp).
Qed.

Lemma listing_items_length (l : list product) :
  Forall (fun p => In p results) l ->
  (61 * List.length l
   <= String.length (join ", " (map Json.dumps (map product_dict l))) + 1)%nat.
Proof.
  induction 1 as [|q l Hq _ IH]; [simpl; lia|].
  destruct (dumps_product_shape q Hq) as [t [Hshape Hlen]].
  destruct l as [|r l].
  - cbn [map join List.length]. rewrite Hshape. cbn [String.length]. lia.
  - rewrite !map_cons, join_cons2, <- !map_cons.
    rewrite Hshape. cbn [String.length List.length] in *.
    rewrite !length_append. cbn [String.length]. lia.
Qed.

Lemma scan_value_list (f : nat) (t : string) :
  Json.scan_value (S f) (String "[" (String "{" t))
  = Json.scan_elements f (String "{" t) [].
Proof. reflexivity. Qed.

Lemma loads_bracket (t : string) (v : pyval) :
  Json.scan_value (2 * String.length (String "[" t) + 2) (String "[" t)
  = OK (v, "") ->
  Json.loads (String "[" t) = OK v.
Proof. intros H. unfold Json.loads. cbn [Json.skip_ws]. 
  change (Json.is_json_ws "[") with false. cbv iota. rewrite H. reflexivity.
Qed.

(** The text of a search result decodes back to the records it lists. *)
Lemma loads_listing (l : list product) :
  Forall (fun p => In p results) l ->
  Json.loads (listing l) = OK (VList (map product_dict l)).
Proof.
  intros Hl. unfold listing. rewrite dumps_list.
  destruct l as [|p l]; [reflexivity|].
  pose proof (listing_items_length (p :: l) Hl) as Hitems.
  inversion Hl as [|? ? Hp _]; subst.
  destruct (join_dumps_head p l "]" Hp) as [t Ht].
  pose proof (scan_products (p :: l) Hl ltac:(discriminate)) as Hscan.
  set (items := join ", " (map Json.dumps (map product_dict (p :: l)))) in *.
  apply (loads_bracket (items ++ "]")).
  set (n := String.length (String "[" (items ++ "]"))).
  assert (Hn : (2 * n + 2 = S (61 + List.length (p :: l)
                                + (2 * n + 1 - 61 - List.length (p :: l))))%nat).
  { subst n. cbn [String.length List.length] in *. rewrite length_append.
    cbn [String.length]. lia. }
  rewrite Hn. clear Hn.
  specialize (Hscan (2 * n + 1 - 61 - List.length (p :: l))%nat [] "").
  replace (items ++ "]" ++ "") with (items ++ "]") in Hscan by reflexivity.
  rewrite Ht in *.
  rewrite scan_value_list. rewrite Hscan. reflexivity.
Qed.

End ListingFacts.

(** ** Words and substrings *)

Section WordFacts.

Import Tools Statements Coverage.

Lemma existsb_ext_in {A : Type} (f g : A -> bool) (l : list A) :
  (forall x, In x l -> f x = g x) -> existsb f l = existsb g l.
Proof.
  induction l as [|x l IH]; intros H; cbn [existsb]; [reflexivity|].
  rewrite (H x (or_introl eq_refl)), IH; [reflexivity|].
  intros y Hy. apply H. now right.
Qed.

Lemma existsb_same_members {A : Type} (f : A -> bool) (l l' : list A) :
  (forall x, In x l <-> In x l') -> existsb f l = existsb f l'.
Proof.
  intros H. apply eq_true_iff_eq. rewrite !existsb_exists.
  split; intros [x [Hx Hf]]; exists x; split; try assumption; now apply H.
Qed.

(** [set(l)] has the members of [l]. *)
Lemma dedup_members (l : list string) (x : string) :
  In x (dedup l) <-> In x l.
Proof.
  induction l as [|y l IH]; cbn [dedup]; [tauto|].
  cbn [In]. rewrite filter_In, IH.
  destruct (String.eqb_spec y x) as [->|Hne]; cbn [negb].
  - split; [intros [H|[H _]]; auto|intros _; now left].
  - split; [intros [H|[H _]]; auto|intros [H|H]; auto].
Qed.

Lemma starts_with_nil (t : string) : starts_with t "" = String.eqb t "".
Proof. destruct t; reflexivity. Qed.

(** A text without whitespace that starts [a ++ " " ++ b] starts [a]. *)
Lemma starts_with_before_space (t a b : string) :
  spaceless t = true ->
  starts_with t (a ++ String " " b) = starts_with t a.
Proof.
  unfold starts_with. revert a.
  induction t as [|c t IH]; intros a Ht; [now destruct a|].
  cbn [spaceless forall_chars] in Ht. apply andb_true_iff in Ht.
  destruct Ht as [Hc Ht].
  destruct a as [|x a]; cbn [append strip_prefix].
  - destruct (Ascii.eqb_spec c " ") as [->|_]; [discriminate Hc|reflexivity].
  - destruct (Ascii.eqb c x); [now apply IH|reflexivity].
Qed.

(** A word is in [a ++ " " ++ b] when it is in [a] or in [b]. *)
Lemma contains_across_space (t a b : string) :
  spaceless t = true -> t <> "" ->
  contains t (a ++ String " " b) = (contains t a || contains t b)%bool.
Proof.
  intros Ht Hne. induction a as [|x a IH].
  - cbn [append contains]. rewrite starts_with_nil.
    destruct (String.eqb_spec t "") as [E|_]; [now elim Hne|].
    change (String " " b) with ("" ++ String " " b).
    rewrite (starts_with_before_space t "" b Ht), starts_with_nil.
    destruct (String.eqb_spec t "") as [E|_]; [now elim Hne|]. reflexivity.
  - cbn [append contains].
    change (String x (a ++ String " " b)) with (String x a ++ String " " b).
    rewrite (starts_with_before_space t (String x a) b Ht), IH.
    now rewrite orb_assoc.
Qed.

(** A word is in the words joined by spaces when it is in one of them. *)
Lemma contains_join (t : string) (words : list string) :
  spaceless t = true -> t <> "" ->
  contains t (join " " words) = existsb (contains t) words.
Proof.
  intros Ht Hne. induction words as [|w [|w' words] IH].
  - cbn [join existsb contains]. rewrite starts_with_nil.
    destruct (String.eqb_spec t "") as [E|_]; [now elim Hne|reflexivity].
  - cbn [join existsb]. now rewrite orb_false_r.
  - rewrite join_cons2.
    change (w ++ " " ++ join " " (w' :: words))
      with (w ++ String " " (join " " (w' :: words))).
    rewrite (contains_across_space t _ _ Ht Hne), IH. reflexivity.
Qed.

Lemma spaceless_app (a b : string) :
  spaceless (a ++ b) = (spaceless a && spaceless b)%bool.
Proof.
  unfold spaceless. induction a as [|c a IH]; cbn [append forall_chars].
  - reflexivity.
  - now rewrite IH, andb_assoc.
Qed.

Lemma app_nonempty (a : string) (c : ascii) : a ++ String c "" <> "".
Proof. destruct a; discriminate. Qed.

(** [split()] gives words: not empty, and without whitespace. *)
Lemma split_ws_aux_words (s cur t : string) :
  spaceless cur = true ->
  In t (split_ws_aux cur s) -> spaceless t = true /\ t <> "".
Proof.
  revert cur. induction s as [|c s IH]; intros cur Hcur Hin;
    cbn [split_ws_aux] in Hin.
  - destruct (String.eqb_spec cur "") as [_|Hne]; [contradiction|].
    destruct Hin as [<-|[]]. now split.
  - destruct (is_space c) eqn:Hc.
    + destruct (String.eqb_spec cur "") as [_|Hne].
      * now apply (IH "").
      * destruct Hin as [<-|Hin]; [now split|now apply (IH "")].
    + apply (IH (cur ++ String c "")); [|assumption].
      rewrite spaceless_app, Hcur. cbn. now rewrite Hc.
Qed.

Lemma split_ws_words (s t : string) :
  In t (split_ws s) -> spaceless t = true /\ t <> "".
Proof. now apply split_ws_aux_words. Qed.

(** The name test of the search loop: the sets of words play no part
    beyond their members. *)
Lemma name_test_word_match (query name : string) :
  existsb (fun term =>
             contains term (join " " (dedup (split_ws (lower name)))))
    (dedup (split_ws (lower query)))
  = word_match query name.
Proof.
  unfold word_match.
  rewrite (existsb_same_members _ _ _ (dedup_members (split_ws (lower query)))).
  apply existsb_ext_in. intros term Hterm.
  destruct (split_ws_words _ _ Hterm) as [Hsp Hne].
  rewrite (contains_join term _ Hsp Hne).
  apply existsb_same_members, dedup_members.
Qed.

End WordFacts.

(** ** The search as a whole *)

Section SearchFacts.

Import Tools Statements Coverage Agent.

(** When the loop runs to its end it has kept the products that pass. *)
Lemma search_loop_kept
  (name color price_range size in_stock store : pyval) :
  forall (todo filtered kept : list product),
    search_loop name color price_range size in_stock store todo filtered
      = OK kept ->
    kept
    = (filtered
       ++ filter (passes name color price_range size in_stock store) todo)%list.
Proof.
  induction todo as [|p todo IH]; intros filtered kept H;
    cbn [search_loop filter] in *.
  - inversion H. now rewrite app_nil_r.
  - unfold passes at 1.
    destruct (product_passes name color price_range size in_stock store p)
      as [b|e]; cbn [bind] in H; [|discriminate].
    rewrite (IH _ _ H). destruct b; [now rewrite <- app_assoc|reflexivity].
Qed.

Lemma filter_catalogue (f : product -> bool) (l : list product) :
  Forall (fun p => In p l) (filter f l).
Proof.
  apply Forall_forall. intros p Hp. now apply filter_In in Hp.
Qed.

(** A search that returns gives the catalogue records that pass the tests
    of the loop, in catalogue order, as a JSON text that decodes to these
    records; the [delivery] argument plays no part. *)
Theorem search_returns_catalogue_records :
  forall (name color price_range size in_stock store delivery : pyval)
         (text : string),
    eccomerce_search_aggregtor name color price_range size in_stock store
      delivery = OK text ->
    let kept :=
      filter (passes name color price_range size in_stock store) results in
    text = listing kept /\
    Json.loads text = OK (VList (map product_dict kept)) /\
    eccomerce_search_aggregtor name color price_range size in_stock store
      VNone = OK text.
Proof.
  intros name color price_range size in_stock store delivery text H kept.
  assert (Htext : text = listing kept).
  { unfold eccomerce_search_aggregtor in H.
    destruct (search_loop name color price_range size in_stock store
                results []) as [l|e] eqn:E; cbn [bind] in H; [|discriminate].
    apply search_loop_kept in E. cbn [app] in E. subst l.
    now inversion H. }
  split; [exact Htext|]. split.
  - rewrite Htext. apply loads_listing. apply filter_catalogue.
  - exact H.
Qed.

Lemma search_returns_catalogue_records_witness :
  let kept := filter (passes (VStr "jacket") VNone VNone VNone VNone VNone)
                results in
  listing [casual_denim_jacket; vintage_denim_jacket] = listing kept /\
  Json.loads (listing [casual_denim_jacket; vintage_denim_jacket])
    = OK (VList (map product_dict kept)) /\
  eccomerce_search_aggregtor (VStr "jacket") VNone VNone VNone VNone VNone
    VNone = OK (listing [casual_denim_jacket; vintage_denim_jacket]).
Proof.
  apply (search_returns_catalogue_records (VStr "jacket") VNone VNone VNone
           VNone VNone (VStr "2-day")).
  vm_compute. reflexivity.
Defined.

(** Whatever order and multiplicity the two sets of words are enumerated
    in, the name test is the word match. *)
Theorem name_test_any_set_order :
  forall (query name : string) (search_terms product_terms : list string),
    (forall t, In t search_terms <-> In t (split_ws (lower query))) ->
    (forall w, In w product_terms <-> In w (split_ws (lower name))) ->
    existsb (fun term => contains term (join " " product_terms)) search_terms
    = word_match query name.
Proof.
  intros query name search_terms product_terms Hs Hp. unfold word_match.
  rewrite (existsb_same_members _ _ _ Hs).
  apply existsb_ext_in. intros term Hterm.
  destruct (split_ws_words _ _ Hterm) as [Hsp Hne].
  rewrite (contains_join term _ Hsp Hne).
  now apply existsb_same_members.
Qed.

Lemma name_test_any_set_order_witness :
  existsb (fun term => contains term (join " " ["sneakers"; "white"; "white"]))
    ["shoes"; "sneak"]
  = word_match "Sneak shoes" "White Sneakers".
Proof.
  apply (name_test_any_set_order "Sneak shoes" "White Sneakers").
  - intros t. vm_compute. tauto.
  - intros w. vm_compute. tauto.
Defined.

(** The loop body for a search by name alone. *)
Lemma product_passes_name (s : string) (p : product) :
  s <> "" ->
  product_passes (VStr s) VNone VNone VNone VNone VNone p
  = OK (word_match s (p_name p)).
Proof.
  intros Hne. unfold product_passes. cbn [truthy attr_lower bind].
  destruct (String.eqb_spec s "") as [E|_]; [now elim Hne|]. cbn [negb bind].
  rewrite name_test_word_match.
  destruct (word_match s (p_name p)); reflexivity.
Qed.

(** What a search by name keeps. *)
Lemma search_by_name_listing (s : string) :
  search_by_name (VStr s) = OK (listing (named s)).
Proof.
  unfold search_by_name, eccomerce_search_aggregtor, named.
  destruct (String.eqb_spec s "") as [->|Hne]; [reflexivity|].
  rewrite (search_loop_filter _ _ _ _ _ _
             (fun p => word_match s (p_name p)) results []).
  - reflexivity.
  - intros p _. now apply product_passes_name.
Qed.

Lemma named_catalogue (s : string) : Forall (fun p => In p results) (named s).
Proof.
  unfold named. destruct (String.eqb s "").
  - apply Forall_forall. now intros p Hp.
  - apply filter_catalogue.
Qed.

(** A search by name keeps the products one of whose words contains one of
    the words of the query, letter case apart, and the empty name keeps
    them all; the text returned decodes to the records kept. *)
Theorem search_by_name_matches_words :
  forall s : string,
    search_by_name (VStr s)
    = OK (listing (if String.eqb s "" then results
                   else filter (fun p => word_match s (p_name p)) results)) /\
    Json.loads (listing (named s)) = OK (VList (map product_dict (named s))).
Proof.
  intros s. split.
  - apply search_by_name_listing.
  - apply loads_listing, named_catalogue.
Qed.

Lemma map_chars_empty (f : ascii -> ascii) (s : string) :
  String.eqb (map_chars f s) "" = String.eqb s "".
Proof. destruct s; reflexivity. Qed.

(** Two runs of the loop whose bodies agree on every product agree. *)
Lemma search_loop_ext
  (name color price_range size in_stock store : pyval)
  (name' color' price_range' size' in_stock' store' : pyval) :
  (forall p,
     product_passes name color price_range size in_stock store p
     = product_passes name' color' price_range' size' in_stock' store' p) ->
  forall todo filtered,
    search_loop name color price_range size in_stock store todo filtered
    = search_loop name' color' price_range' size' in_stock' store' todo
        filtered.
Proof.
  intros H. induction todo as [|p todo IH]; intros filtered;
    cbn [search_loop]; [reflexivity|].
  rewrite H.
  destruct (product_passes name' color' price_range' size' in_stock' store' p);
    cbn [bind]; [apply IH|reflexivity].
Qed.

(** The search reads the name, the color and the store through their
    lower-case forms and a size given as text through its upper-case form:
    criteria that differ in letter case only give the same result. *)
Theorem search_ignores_letter_case :
  forall (name name' color color' size size' store store' : string)
         (price_range in_stock delivery : pyval),
    lower name = lower name' -> lower color = lower color' ->
    upper size = upper size' -> lower store = lower store' ->
    eccomerce_search_aggregtor (VStr name) (VStr color) price_range
      (VStr size) in_stock (VStr store) delivery
    = eccomerce_search_aggregtor (VStr name') (VStr color') price_range
        (VStr size') in_stock (VStr store') delivery.
Proof.
  intros name name' color color' size size' store store'
         price_range in_stock delivery Hn Hc Hz Hs.
  unfold eccomerce_search_aggregtor. f_equal.
  apply search_loop_ext. intros p.
  unfold product_passes. cbn [truthy attr_lower str].
  rewrite <- (map_chars_empty lower_char name),
          <- (map_chars_empty lower_char name'),
          <- (map_chars_empty lower_char color),
          <- (map_chars_empty lower_char color'),
          <- (map_chars_empty upper_char size),
          <- (map_chars_empty upper_char size'),
          <- (map_chars_empty lower_char store),
          <- (map_chars_empty lower_char store').
  fold lower upper. rewrite Hn, Hc, Hz, Hs. reflexivity.
Qed.

Lemma search_ignores_letter_case_witness :
  eccomerce_search_aggregtor (VStr "SNEAKERS") (VStr "White") (VInt 60)
    (VStr "m") VNone (VStr "sitea") VNone
  = eccomerce_search_aggregtor (VStr "sneakers") (VStr "WHITE") (VInt 60)
      (VStr "M") VNone (VStr "SiteA") VNone.
Proof.
  apply search_ignores_letter_case; reflexivity.
Defined.

(** What a kept product has passed. *)
Lemma product_passes_stock
  (name color price_range size in_stock store : pyval) (p : product) :
  product_passes name color price_range size in_stock store p = OK true ->
  in_stock = VNone \/ eq_bool (p_in_stock p) in_stock = true.
Proof.
  unfold product_passes. intros H.
  repeat match type of H with
         | bind ?x _ = _ =>
             let b := fresh "b" in
             destruct x as [b|]; cbn [bind] in H; [destruct b|discriminate];
             cbn [negb] in H; try discriminate
         | (if negb ?b then _ else _) = _ =>
             destruct b; cbn [negb] in H; try discriminate
         end.
  destruct in_stock; [now left|right; now inversion H..].
Qed.

Lemma catalogue_in_stock (p : product) : In p results -> p_in_stock p = true.
Proof.
  intros Hin. simpl in Hin.
  repeat (destruct Hin as [<-|Hin]; [reflexivity|]). contradiction.
Qed.

Lemma filter_nothing {A : Type} (f : A -> bool) (l : list A) :
  (forall x, In x l -> f x = false) -> filter f l = [].
Proof.
  induction l as [|x l IH]; intros H; cbn [filter]; [reflexivity|].
  rewrite (H x (or_introl eq_refl)). apply IH. intros y Hy. apply H. now right.
Qed.

(** Every catalogue entry is in stock, and the stock test is an equality
    with [True]: a search with [in_stock] given and not equal to [True]
    ([False], a text such as "true", a list) finds nothing. *)
Theorem search_out_of_stock_finds_nothing :
  forall (name color price_range size in_stock store delivery : pyval)
         (text : string),
    in_stock <> VNone -> eq_bool true in_stock = false ->
    eccomerce_search_aggregtor name color price_range size in_stock store
      delivery = OK text ->
    text = "[]".
Proof.
  intros name color price_range size in_stock store delivery text Hn Hf H.
  unfold eccomerce_search_aggregtor in H.
  destruct (search_loop name color price_range size in_stock store results [])
    as [l|e] eqn:E; cbn [bind] in H; [|discriminate].
  apply search_loop_kept in E. rewrite filter_nothing in E.
  - subst l. inversion H. reflexivity.
  - intros p Hin. unfold passes.
    destruct (product_passes name color price_range size in_stock store p)
      as [[|]|] eqn:Eb; try reflexivity.
    destruct (product_passes_stock _ _ _ _ _ _ _ Eb) as [->|Hs];
      [now elim Hn|].
    rewrite (catalogue_in_stock p Hin), Hf in Hs. discriminate Hs.
Qed.

Lemma search_out_of_stock_finds_nothing_witness :
  listing [] = "[]".
Proof.
  apply (search_out_of_stock_finds_nothing (VStr "dress") VNone VNone VNone
           (VStr "true") VNone VNone).
  - discriminate.
  - reflexivity.
  - vm_compute. reflexivity.
Defined.


(** A name that is truthy and not a text stops the search at the first
    product. *)
Lemma search_name_not_text
  (name color price_range size in_stock store delivery : pyval) :
  truthy name = true -> (forall s, name <> VStr s) ->
  eccomerce_search_aggregtor name color price_range size in_stock store
    delivery = Raise (no_lower name).
Proof.
  intros Ht Hs. unfold eccomerce_search_aggregtor, results.
  cbn [search_loop]. unfold product_passes at 1. rewrite Ht.
  destruct name; try reflexivity. now elim (Hs s).
Qed.





(** *** [parse_price_range] on a text *)

Lemma floats_of_texts (l : list string) :
  (exists xs, map_result (fun n => to_float (VStr n)) l = OK xs) \/
  (exists e, map_result (fun n => to_float (VStr n)) l = Raise e /\
             exn_cls e = ValueError).
Proof.
  induction l as [|n l IH]; cbn [map_result]; [left; now exists []|].
  assert (Hn : (exists x, to_float (VStr n) = OK x) \/
               (exists e, to_float (VStr n) = Raise e /\
                          exn_cls e = ValueError)).
  { cbn [to_float]. destruct (Float64.of_string n) as [x|].
    - left. now exists x.
    - right. eexists. split; reflexivity. }
  destruct Hn as [[x ->]|[e [-> He]]]; cbn [bind].
  - destruct IH as [[xs ->]|[e [-> He]]]; cbn [bind].
    + left. now eexists.
    + right. now exists e.
  - right. now exists e.
Qed.

(** What [parse_price_range] makes of a text. *)
Lemma parse_price_range_text (s : string) :
  parse_price_range (VStr s) = OK VNone \/
  (exists x, parse_price_range (VStr s) = OK (VTuple [VInt 0; VFloat x])) \/
  (exists lo hi,
     parse_price_range (VStr s) = OK (VTuple [VFloat lo; VFloat hi])).
Proof.
  unfold parse_price_range. cbn [attr_lower bind].
  destruct (contains "under" (lower s) || contains "less than" (lower s))%bool.
  - cbn [to_float].
    destruct (Float64.of_string _) as [x|]; cbn [bind try_except].
    + right. left. now exists x.
    + left. reflexivity.
  - destruct (contains "between" (lower s)); [|now left].
    destruct (floats_of_texts
                (split_ws (filter_chars is_digit_dot_or_space (lower s))))
      as [[xs ->]|[e [-> He]]]; cbn [bind try_except].
    + destruct xs as [|x [|y xs]]; [now left|now left|].
      right. right. now eexists; eexists.
    + unfold is_instance. rewrite He. now left.
Qed.

(** The loop body for a price range given as text. *)
Lemma product_passes_text_range (s : string) (p : product) :
  In p results ->
  exists b, product_passes VNone VNone (VStr s) VNone VNone VNone p = OK b.
Proof.
  intros Hin. unfold product_passes. cbn [truthy bind negb].
  destruct (negb (String.eqb s "")); [|now eexists].
  destruct (parse_price_range_text s) as [->|[[x ->]|[lo [hi ->]]]];
    cbn [bind truthy unpack2 negb].
  - now eexists.
  - change (to_float (VInt 0)) with (OK (A := Float64.float) (Float64.of_Z 0)).
    rewrite (catalogue_price_converts p Hin). cbn [bind to_float].
    destruct (Float64.leb _ _); cbn [bind];
      [destruct (Float64.leb _ _)|]; now eexists.
  - rewrite (catalogue_price_converts p Hin). cbn [bind to_float].
    destruct (Float64.leb _ _); cbn [bind];
      [destruct (Float64.leb _ _)|]; now eexists.
Qed.

(** [parse_price_range] never raises on a text: it gives [None], a pair
    (0, x) or a pair of two floats, and [None] when the text has none of
    the three keywords; a search by a price range given as text never
    raises either. *)
Theorem price_range_text_never_raises :
  forall s : string,
    (parse_price_range (VStr s) = OK VNone \/
     (exists x, parse_price_range (VStr s) = OK (VTuple [VInt 0; VFloat x])) \/
     (exists lo hi,
        parse_price_range (VStr s) = OK (VTuple [VFloat lo; VFloat hi]))) /\
    (contains "under" (lower s) = false ->
     contains "less than" (lower s) = false ->
     contains "between" (lower s) = false ->
     parse_price_range (VStr s) = OK VNone) /\
    (exists kept, search_by_price (VStr s) = OK (listing kept)).
Proof.
  intros s. split; [apply parse_price_range_text|]. split.
  - intros Hu Hl Hb. unfold parse_price_range. cbn [attr_lower bind].
    now rewrite Hu, Hl, Hb.
  - unfold search_by_price, eccomerce_search_aggregtor.
    assert (H : forall todo filtered,
               (forall p, In p todo -> In p results) ->
               exists kept,
                 search_loop VNone VNone (VStr s) VNone VNone VNone todo
                   filtered = OK kept).
    { induction todo as [|p todo IH]; intros filtered Hsub;
        cbn [search_loop]; [now eexists|].
      destruct (product_passes_text_range s p (Hsub p (or_introl eq_refl)))
        as [b ->]. cbn [bind]. apply IH. intros q Hq. apply Hsub. now right. }
    destruct (H results [] (fun p Hp => Hp)) as [kept ->].
    now exists kept.
Qed.

Lemma price_range_text_never_raises_witness :
  parse_price_range (VStr "cheap") = OK VNone.
Proof.
  apply (price_range_text_never_raises "cheap"); reflexivity.
Defined.

End SearchFacts.

(** ** The shipping estimator *)

Section ShippingFacts.

Import Tools Statements Coverage Agent.

Lemma subscript_first (x : pyval) (l : list pyval) :
  subscript (VList (x :: l)) (VInt 0) = OK x.
Proof.
  unfold subscript, int_index, seq_index. cbn [List.length].
  rewrite Nat2Z.inj_succ.
  change (0 <? 0)%Z with false. cbv iota.
  change (0 <=? 0)%Z with true. cbn [andb].
  destruct (Z.ltb_spec 0 (Z.succ (Z.of_nat (List.length l)))); [reflexivity|lia].
Qed.

(** Evaluates a closed call in the goal. *)
Ltac run e := let r := eval vm_compute in e in change e with r.

(** Evaluates the closed calls the estimator makes for a catalogue record. *)
Ltac run_lookups :=
  repeat (first
    [ match goal with
      | |- context [subscript (VDict ?d) (VStr ?k)] =>
          run (subscript (VDict d) (VStr k))
      | |- context [parse_delivery_days (VStr ?s)] =>
          run (parse_delivery_days (VStr s))
      | |- context [method_get shipping_info (VStr ?a) ?b] =>
          run (method_get shipping_info (VStr a) b)
      | |- context [method_get (VDict ?d) (VStr ?a) (VDict [])] =>
          run (method_get (VDict d) (VStr a) (VDict []))
      end
    | progress cbn [bind] ]).

(** Evaluates what the estimator does with an item of a rate. *)
Ltac run_rate :=
  cbn [bind];
  repeat (first
    [ match goal with
      | |- context [truthy (VStr ?s)] => progress run (truthy (VStr s))
      | |- context [truthy (VFloat ?x)] => progress run (truthy (VFloat x))
      | |- context [subscript (VStr ?s) (VStr ?k)] =>
          progress run (subscript (VStr s) (VStr k))
      | |- context [subscript (VFloat ?x) (VStr ?k)] =>
          progress run (subscript (VFloat x) (VStr k))
      end
    | progress cbn [bind negb] ]).

(** The result for a name whose search has a first match: it does not
    depend on the clock nor on the target, and it is no estimate. *)
Lemma shipping_after_search (p : product) (rest : list product)
    (name zip_code : pyval) :
  In p results -> Forall (fun q => In q results) rest ->
  search_by_name name = OK (listing (p :: rest)) ->
  exists r,
    (forall today target,
       shipping_time_estimator today name target zip_code = r) /\
    no_estimate zip_code r /\
    (unhashable zip_code = None -> rate_key zip_code = false ->
     exists text, r = OK text).
Proof.
  intros Hin Hrest Hsearch.
  unfold shipping_time_estimator. rewrite Hsearch. cbn [bind].
  rewrite loads_listing by (constructor; assumption).
  cbn [bind map truthy negb]. rewrite subscript_first. cbn [bind].
  unfold product_dict at 1 2 3.
  simpl in Hin.
  repeat (destruct Hin as [<-|Hin];
          [cbn [p_name p_color p_price p_size p_in_stock p_store p_delivery];
           run_lookups; cbn [truthy negb]|]); [..|contradiction].
  all: try (eexists; split; [intros; reflexivity|];
            split; [right; left; reflexivity|intros; now eexists]).
  all: unfold method_get, dict_lookup;
       destruct (unhashable zip_code) as [t|] eqn:Hu;
       [unfold raise; cbn [bind]; eexists; split; [intros; reflexivity|];
        split; [reflexivity|discriminate]|].
  all: destruct zip_code as [| | | |z| | |]; try discriminate Hu;
       cbn [bind dict_get truthy negb].
  all: try (eexists; split; [intros; reflexivity|];
            split; [right; right; left; reflexivity|intros; now eexists]).
  all: destruct (String.eqb_spec "estimated_delivery" z) as [<-|Hz1];
       [run_rate; eexists; split; [intros; reflexivity|];
        split; [reflexivity|discriminate]|].
  all: destruct (String.eqb_spec "cost" z) as [<-|Hz2];
       [run_rate; eexists; split; [intros; reflexivity|];
        split; [reflexivity|discriminate]|].
  all: cbn [bind truthy negb]; eexists; split; [intros; reflexivity|];
       split; [right; right; left; reflexivity|intros; now eexists].
Qed.

(** The same for every product name given as text. *)
Lemma shipping_outcome (s : string) (zip_code : pyval) :
  exists r,
    (forall today target,
       shipping_time_estimator today (VStr s) target zip_code = r) /\
    no_estimate zip_code r /\
    (unhashable zip_code = None -> rate_key zip_code = false ->
     exists text, r = OK text).
Proof.
  pose proof (named_catalogue s) as Hcat.
  pose proof (search_by_name_listing s) as Hsearch.
  destruct (named s) as [|p rest].
  - exists (OK (Json.dumps (error_dict "Product not found"))).
    split; [|split].
    + intros today target. unfold shipping_time_estimator.
      rewrite Hsearch. reflexivity.
    + left. reflexivity.
    + intros _ _. now eexists.
  - inversion Hcat as [|? ? Hp Hrest]; subst.
    now apply (shipping_after_search p rest).
Qed.

(** Whatever product is asked for by name, the estimator gives no
    estimate: it returns one of its three error results or raises a
    [TypeError], and it returns (an error result) whenever the ZIP code can
    be hashed and is not one of the two keys of a rate. *)
Theorem shipping_never_gives_an_estimate :
  forall (today : Datetime.datetime) (s : string)
         (delivery_target zip_code : pyval),
    no_estimate zip_code
      (shipping_time_estimator today (VStr s) delivery_target zip_code) /\
    (unhashable zip_code = None -> rate_key zip_code = false ->
     exists text,
       shipping_time_estimator today (VStr s) delivery_target zip_code
         = OK text /\
       In text (shipping_errors zip_code)).
Proof.
  intros today s delivery_target zip_code.
  destruct (shipping_outcome s zip_code) as [r [Hr [Hno Hok]]].
  rewrite Hr. split; [exact Hno|].
  intros Hu Hk. destruct (Hok Hu Hk) as [text ->]. now exists text.
Qed.

Lemma shipping_never_gives_an_estimate_witness :
  exists text,
    shipping_time_estimator wednesday_morning (VStr "denim jacket")
      (VStr "friday") (VStr "12345") = OK text /\
    In text (shipping_errors (VStr "12345")).
Proof.
  apply (shipping_never_gives_an_estimate wednesday_morning "denim jacket"
           (VStr "friday") (VStr "12345")); reflexivity.
Defined.

(** The estimator's result depends neither on the clock nor on the delivery
    target: the feasibility computation is never reached. *)
Theorem shipping_ignores_target_and_clock :
  forall (today today' : Datetime.datetime) (s : string)
         (delivery_target delivery_target' zip_code : pyval),
    shipping_time_estimator today (VStr s) delivery_target zip_code
    = shipping_time_estimator today' (VStr s) delivery_target' zip_code.
Proof.
  intros today today' s delivery_target delivery_target' zip_code.
  destruct (shipping_outcome s zip_code) as [r [Hr _]].
  now rewrite !Hr.
Qed.

End ShippingFacts.

(** ** The lookup tools *)

Section LookupFacts.

Import Tools Statements Coverage Agent.

Lemma product_fields (p : product) :
  subscript (product_dict p) (VStr "name") = OK (VStr (p_name p)) /\
  subscript (product_dict p) (VStr "store") = OK (VStr (p_store p)).
Proof. split; reflexivity. Qed.

(** The loop of [return_policy_checker] over decoded search results. *)
Lemma policy_loop_find (s : string) (l : list product) :
  policy_loop (VStr s) (map product_dict l)
  = OK (option_map (fun p => Json.dumps (store_policy (p_store p)))
          (find (fun p => contains (lower s) (lower (p_name p))) l)).
Proof.
  induction l as [|p l IH]; cbn [map policy_loop find]; [reflexivity|].
  destruct (product_fields p) as [Hname Hstore].
  cbn [attr_lower bind]. rewrite Hname. cbn [attr_lower bind].
  destruct (contains (lower s) (lower (p_name p))).
  - rewrite Hstore. reflexivity.
  - exact IH.
Qed.

Lemma return_policy_checker_answer (s : string) :
  return_policy_checker (VStr s) = OK (Json.dumps (policy_answer s)).
Proof.
  unfold return_policy_checker, policy_answer.
  cbn [dict_lookup unhashable bind].
  destruct (dict_get policies s) as [found|] eqn:E.
  - cbn [bind method_get dict_lookup unhashable]. now rewrite E.
  - rewrite search_by_name_listing. cbn [bind].
    rewrite loads_listing by apply named_catalogue. cbn [bind].
    rewrite policy_loop_find.
    destruct (find _ (named s)) as [p|]; cbn [option_map bind].
    + reflexivity.
    + cbn [method_get dict_lookup unhashable bind]. now rewrite E.
Qed.

Lemma catalogue_store_policy (p : product) :
  In p results -> In (store_policy (p_store p)) (map snd policies).
Proof.
  intros Hin. simpl in Hin.
  repeat (destruct Hin as [<-|Hin];
          [vm_compute; first [left; reflexivity
                             |right; left; reflexivity
                             |right; right; left; reflexivity]|]).
  contradiction.
Qed.

Lemma dict_get_member (d : list (string * pyval)) (k : string) (v : pyval) :
  dict_get d k = Some v -> In v (map snd d).
Proof.
  induction d as [|[k' v'] d IH]; cbn [dict_get map snd]; [discriminate|].
  destruct (String.eqb k' k).
  - intros H. inversion H. now left.
  - intros H. right. now apply IH.
Qed.

Lemma policy_answer_range (s : string) :
  In (policy_answer s) (map snd policies) \/ policy_answer s = store_not_found.
Proof.
  unfold policy_answer.
  destruct (dict_get policies s) as [found|] eqn:E.
  - left. now apply (dict_get_member _ s).
  - destruct (find _ (named s)) as [p|] eqn:Ef; [|now right].
    left. apply catalogue_store_policy.
    apply find_some in Ef. destruct Ef as [Hin _].
    pose proof (named_catalogue s) as Hcat.
    rewrite Forall_forall in Hcat. now apply Hcat.
Qed.

(** On a text [return_policy_checker] never raises.  It answers with the
    policy of the store of that name; else with the policy of the store of
    the first product, among those a search for the text finds, whose name
    contains the text, letter case apart; else with the error.  The answer
    is one of the three policies or the error, and the name of a catalogue
    product gets the policy of the product's own store. *)
Theorem return_policy_checker_on_text :
  forall s : string,
    return_policy_checker (VStr s) = OK (Json.dumps (policy_answer s)) /\
    (In (policy_answer s) (map snd policies) \/
     policy_answer s = store_not_found) /\
    (forall found, In (s, found) policies -> policy_answer s = found) /\
    (~ In s (map fst policies) ->
     (forall p, In p results ->
        contains (lower s) (lower (p_name p)) = false) ->
     policy_answer s = store_not_found) /\
    Forall (fun p => policy_answer (p_name p) = store_policy (p_store p))
      results.
Proof.
  intros s. split; [apply return_policy_checker_answer|].
  split; [|split; [|split]].
  - apply policy_answer_range.
  - intros found Hin. unfold policy_answer.
    assert (Hnd : NoDup (map fst policies))
      by (repeat (constructor; [simpl; intuition discriminate|]); constructor).
    now rewrite (dict_get_present _ _ _ Hnd Hin).
  - intros Hs Hnone. unfold policy_answer.
    rewrite (dict_get_absent _ _ Hs).
    destruct (find _ (named s)) as [p|] eqn:Ef; [|reflexivity].
    apply find_some in Ef. destruct Ef as [Hin Hc].
    pose proof (named_catalogue s) as Hcat.
    rewrite Forall_forall in Hcat. rewrite (Hnone p (Hcat p Hin)) in Hc.
    discriminate Hc.
  - unfold results.
    repeat (apply Forall_cons; [vm_compute; reflexivity|]). apply Forall_nil.
Qed.

Lemma return_policy_checker_on_text_witness :
  policy_answer "SiteC"
    = policy "45 days" true "Items must be unworn with tags attached"
        "2-4 business days" /\
  policy_answer "sitec" = store_not_found.
Proof.
  split.
  - apply (return_policy_checker_on_text "SiteC"). simpl. tauto.
  - apply (return_policy_checker_on_text "sitec").
    + simpl. intuition discriminate.
    + intros p Hin. simpl in Hin.
      repeat (destruct Hin as [<-|Hin]; [reflexivity|]). contradiction.
Defined.

(** *** [competitor_price_comparison] *)

Lemma comparison_loop_find (s : string) (todo : list (string * pyval)) :
  comparison_loop (VStr s) todo = OK (Json.dumps (comparison_entry s todo)).
Proof.
  unfold comparison_entry.
  induction todo as [|[key value] todo IH]; cbn [comparison_loop find];
    [reflexivity|].
  cbn [attr_lower bind fst snd].
  destruct (String.eqb (lower key) (lower s)); [reflexivity|exact IH].
Qed.

Lemma comparison_keys_distinct :
  NoDup (map (fun kv => lower (fst kv)) comparisons).
Proof.
  repeat (constructor; [vm_compute; intuition discriminate|]). constructor.
Qed.

(** In a table with keys distinct up to letter case, a key finds its own
    entry. *)
Lemma comparison_entry_own (table : list (string * pyval))
    (s name : string) (offers : pyval) :
  NoDup (map (fun kv => lower (fst kv)) table) ->
  In (name, offers) table -> lower s = lower name ->
  comparison_entry s table = offers.
Proof.
  intros Hnd Hin Hs. unfold comparison_entry. rewrite Hs.
  induction table as [|[k v] table IH]; [contradiction|].
  cbn [find fst snd]. cbn [map fst] in Hnd.
  inversion Hnd as [|? ? Hk Hnd']; subst.
  destruct Hin as [E|Hin].
  - inversion E; subst. now rewrite String.eqb_refl.
  - destruct (String.eqb_spec (lower k) (lower name)) as [E|_].
    + exfalso. apply Hk. rewrite E.
      apply in_map_iff. now exists (name, offers).
    + now apply IH.
Qed.

Lemma comparison_entry_none (table : list (string * pyval)) (s : string) :
  (forall name, In name (map fst table) -> lower s <> lower name) ->
  comparison_entry s table = VList [].
Proof.
  intros H. unfold comparison_entry.
  induction table as [|[k v] table IH]; [reflexivity|].
  cbn [find fst snd].
  destruct (String.eqb_spec (lower k) (lower s)) as [E|_].
  - exfalso. apply (H k); [now left|now symmetry].
  - apply IH. intros name Hn. apply H. now right.
Qed.

(** [competitor_price_comparison] matches the whole name, letter case
    apart: a text equal to a product name up to letter case gets the offers
    of that product, every other text the empty list; the nine products
    have three offers each. *)
Theorem competitor_price_comparison_ignores_case :
  forall s : string,
    (forall name offers,
       In (name, offers) comparisons -> lower s = lower name ->
       competitor_price_comparison (VStr s) = OK (Json.dumps offers)) /\
    ((forall name, In name (map fst comparisons) -> lower s <> lower name) ->
     competitor_price_comparison (VStr s) = OK "[]") /\
    map fst comparisons = map p_name results /\
    Forall (fun kv => exists a b c, snd kv = VList [a; b; c]) comparisons.
Proof.
  intros s. unfold competitor_price_comparison.
  rewrite comparison_loop_find. split; [|split; [|split]].
  - intros name offers Hin Hs.
    now rewrite (comparison_entry_own _ _ _ _ comparison_keys_distinct Hin Hs).
  - intros H. now rewrite (comparison_entry_none _ _ H).
  - reflexivity.
  - unfold comparisons.
    repeat (apply Forall_cons; [do 3 eexists; reflexivity|]). apply Forall_nil.
Qed.

Lemma competitor_price_comparison_ignores_case_witness :
  competitor_price_comparison (VStr "COCKTAIL dress")
    = OK (Json.dumps (offers 11899 12000 12299)) /\
  competitor_price_comparison (VStr "dress") = OK "[]".
Proof.
  split.
  - apply (proj1 (competitor_price_comparison_ignores_case "COCKTAIL dress")
             "Cocktail Dress").
    + simpl. tauto.
    + reflexivity.
  - apply (competitor_price_comparison_ignores_case "dress").
    intros name Hin. simpl in Hin.
    repeat (destruct Hin as [<-|Hin]; [vm_compute; discriminate|]).
    contradiction.
Defined.

(** *** Arguments that are no text *)

(** With a falsy name the search lists the catalogue. *)
Lemma search_by_falsy_name (v : pyval) :
  truthy v = false -> search_by_name v = OK (listing results).
Proof.
  intros Hf. unfold search_by_name, eccomerce_search_aggregtor.
  rewrite (search_loop_filter _ _ _ _ _ _ (fun _ => true) results []).
  - reflexivity.
  - intros p _. unfold product_passes. now rewrite Hf.
Qed.

Lemma dict_lookup_not_text (d : list (string * pyval)) (v : pyval) :
  (forall s, v <> VStr s) -> unhashable v = None -> dict_lookup d v = OK None.
Proof.
  intros Hs Hu. unfold dict_lookup. rewrite Hu.
  destruct v; try reflexivity. now elim (Hs s).
Qed.

Lemma attr_lower_not_text (v : pyval) :
  (forall s, v <> VStr s) -> attr_lower v = Raise (no_lower v).
Proof. intros Hs. destruct v; try reflexivity. now elim (Hs s). Qed.

(** The lookup tools on an argument that is no text.  A value that cannot
    be hashed (a list, a dictionary) is a [TypeError] for the two tools
    that look it up in a dictionary; any other value finds no discount,
    and is an [AttributeError] for the policy and price tools, which call
    its [lower] method. *)
Theorem lookup_tools_on_other_values :
  forall v : pyval,
    (forall s, v <> VStr s) ->
    (forall t, unhashable v = Some t ->
       discount_promo_checker v
         = Raise (mk_exn TypeError ("unhashable type: " ++ repr_str t)) /\
       return_policy_checker v
         = Raise (mk_exn TypeError ("unhashable type: " ++ repr_str t))) /\
    (unhashable v = None ->
       discount_promo_checker v = OK "{}" /\
       return_policy_checker v = Raise (no_lower v)) /\
    competitor_price_comparison v = Raise (no_lower v).
Proof.
  intros v Hs. split; [|split].
  - intros t Hu. split.
    + unfold discount_promo_checker, method_get, dict_lookup.
      now rewrite Hu.
    + unfold return_policy_checker, dict_lookup. now rewrite Hu.
  - intros Hu. split.
    + unfold discount_promo_checker, method_get.
      now rewrite (dict_lookup_not_text _ v Hs Hu).
    + unfold return_policy_checker.
      rewrite (dict_lookup_not_text _ v Hs Hu). cbn [bind].
      destruct (truthy v) eqn:Ht.
      * unfold search_by_name.
        now rewrite (search_name_not_text v VNone VNone VNone VNone VNone
                       VNone Ht Hs).
      * rewrite (search_by_falsy_name v Ht). cbn [bind].
        rewrite loads_listing
          by (apply Forall_forall; now intros p Hp).
        unfold results. cbn [bind map policy_loop].
        now rewrite (attr_lower_not_text v Hs).
  - unfold competitor_price_comparison, comparisons.
    cbn [comparison_loop]. now rewrite (attr_lower_not_text v Hs).
Qed.

Lemma lookup_tools_on_other_values_witness :
  (discount_promo_checker VNone = OK "{}" /\
   return_policy_checker VNone = Raise (no_lower VNone)) /\
  discount_promo_checker (VList [VStr "Floral Skirt"])
    = Raise (mk_exn TypeError ("unhashable type: " ++ repr_str "list")).
Proof.
  split.
  - apply (lookup_tools_on_other_values VNone); [discriminate|reflexivity].
  - apply (proj1 (lookup_tools_on_other_values (VList [VStr "Floral Skirt"])
                    ltac:(discriminate)) "list").
    reflexivity.
Defined.

(** *** Results as JSON *)

Lemma discounts_decode : Forall decodes (map snd discounts).
Proof.
  unfold discounts. cbn [map snd].
  repeat (apply Forall_cons; [unfold decodes; vm_compute; reflexivity|]).
  apply Forall_nil.
Qed.

Lemma policies_decode : Forall decodes (map snd policies).
Proof.
  unfold policies. cbn [map snd].
  repeat (apply Forall_cons; [unfold decodes; vm_compute; reflexivity|]).
  apply Forall_nil.
Qed.

Lemma comparisons_decode : Forall decodes (map snd comparisons).
Proof.
  unfold comparisons. cbn [map snd].
  repeat (apply Forall_cons; [unfold decodes; vm_compute; reflexivity|]).
  apply Forall_nil.
Qed.

Lemma empty_results_decode :
  decodes (VDict []) /\ decodes store_not_found /\ decodes (VList []).
Proof.
  unfold decodes. split; [|split]; vm_compute; reflexivity.
Qed.

(** For every text, the result of each of the three lookup tools is the
    JSON text of a value that [json.loads] reads back unchanged. *)
Theorem lookup_results_are_json :
  forall s : string,
    (exists v, discount_promo_checker (VStr s) = OK (Json.dumps v) /\
               Json.loads (Json.dumps v) = OK v) /\
    (exists v, return_policy_checker (VStr s) = OK (Json.dumps v) /\
               Json.loads (Json.dumps v) = OK v) /\
    (exists v, competitor_price_comparison (VStr s) = OK (Json.dumps v) /\
               Json.loads (Json.dumps v) = OK v).
Proof.
  intros s.
  pose proof discounts_decode as Hd. pose proof policies_decode as Hp.
  pose proof comparisons_decode as Hc.
  destruct empty_results_decode as [Hempty [Hnone Hnil]].
  rewrite Forall_forall in Hd, Hp, Hc. unfold decodes in *.
  split; [|split].
  - unfold discount_promo_checker, method_get.
    cbn [dict_lookup unhashable bind].
    destruct (dict_get discounts s) as [v|] eqn:E.
    + exists v. split; [reflexivity|].
      apply Hd. now apply (dict_get_member _ s).
    + exists (VDict []). split; [reflexivity|exact Hempty].
  - exists (policy_answer s). split; [apply return_policy_checker_answer|].
    destruct (policy_answer_range s) as [Hin|Hs];
      [apply Hp; exact Hin|rewrite Hs; exact Hnone].
  - unfold competitor_price_comparison. rewrite comparison_loop_find.
    exists (comparison_entry s comparisons). split; [reflexivity|].
    unfold comparison_entry.
    destruct (find _ comparisons) as [kv|] eqn:Ef; [|exact Hnil].
    apply find_some in Ef. destruct Ef as [Hin _].
    apply Hc. apply in_map_iff. now exists kv.
Qed.

End LookupFacts.

(** ** Delivery days and delivery targets *)

Section DeliveryFacts.

Import Tools Statements Coverage Agent.

(** *** Decimal digits *)

Lemma digit_char_val (k : Z) :
  (0 <= k < 10)%Z ->
  digit_val (digit_char k) = k /\ is_digit (digit_char k) = true.
Proof.
  intros Hk.
  assert (H : (k = 0 \/ k = 1 \/ k = 2 \/ k = 3 \/ k = 4 \/ k = 5 \/
               k = 6 \/ k = 7 \/ k = 8 \/ k = 9)%Z) by lia.
  repeat (destruct H as [->|H]; [split; reflexivity|]).
  subst k. split; reflexivity.
Qed.

Lemma digits_val_aux_app (a : Z) (s t : string) :
  digits_val_aux a (s ++ t) = digits_val_aux (digits_val_aux a s) t.
Proof.
  revert a. induction s as [|c s IH]; intros a; cbn [append digits_val_aux];
    [reflexivity|apply IH].
Qed.

Lemma forall_chars_app (p : ascii -> bool) (s t : string) :
  forall_chars p (s ++ t) = (forall_chars p s && forall_chars p t)%bool.
Proof.
  induction s as [|c s IH]; cbn [append forall_chars]; [reflexivity|].
  now rewrite IH, andb_assoc.
Qed.

(** The digits written for [n] in front of [acc] are digits, at least one,
    and they read back as [n]. *)
Lemma digits_of_pos_fuel_reads (fuel : nat) :
  forall (n : Z) (acc : string),
    (0 <= n < 2 ^ Z.of_nat (S fuel))%Z ->
    exists d,
      digits_of_pos_fuel (S fuel) n acc = d ++ acc /\
      forall_chars is_digit d = true /\ d <> "" /\
      forall a, digits_val_aux a d
                = (a * 10 ^ Z.of_nat (String.length d) + n)%Z.
Proof.
  induction fuel as [|fuel IH]; intros n acc Hn.
  - change (2 ^ Z.of_nat 1)%Z with 2%Z in Hn.
    cbn [digits_of_pos_fuel].
    destruct (Z.ltb_spec n 10) as [_|Hge]; [|lia].
    exists (String (digit_char (n mod 10)) "").
    rewrite (Z.mod_small n 10) by lia.
    destruct (digit_char_val n ltac:(lia)) as [Hv Hd].
    split; [reflexivity|]. split; [cbn [forall_chars]; now rewrite Hd|].
    split; [discriminate|].
    intros a. cbn [digits_val_aux String.length]. rewrite Hv.
    change (10 ^ Z.of_nat 1)%Z with 10%Z. lia.
  - remember (S fuel) as f eqn:Hf.
    cbn [digits_of_pos_fuel].
    destruct (digit_char_val (n mod 10) (Z.mod_pos_bound n 10 eq_refl))
      as [Hv Hd].
    destruct (Z.ltb_spec n 10) as [Hlt|Hge].
    + exists (String (digit_char (n mod 10)) "").
      split; [reflexivity|]. split; [cbn [forall_chars]; now rewrite Hd|].
      split; [discriminate|].
      intros a. cbn [digits_val_aux String.length]. rewrite Hv.
      rewrite (Z.mod_small n 10) by lia.
      change (10 ^ Z.of_nat 1)%Z with 10%Z. lia.
    + assert (Hq : (0 <= n / 10 < 2 ^ Z.of_nat f)%Z).
      { split; [apply Z.div_pos; lia|].
        apply Z.div_lt_upper_bound; [lia|].
        rewrite Nat2Z.inj_succ, Z.pow_succ_r in Hn by lia. lia. }
      subst f.
      destruct (IH (n / 10)%Z (String (digit_char (n mod 10)) acc) Hq)
        as [d [Hd1 [Hd2 [Hd3 Hd4]]]].
      exists (d ++ String (digit_char (n mod 10)) "").
      split; [rewrite Hd1, append_assoc; reflexivity|].
      split; [rewrite forall_chars_app, Hd2; cbn [forall_chars];
              now rewrite Hd|].
      split; [destruct d; discriminate|].
      intros a. rewrite digits_val_aux_app, Hd4.
      cbn [digits_val_aux]. rewrite Hv, length_append.
      cbn [String.length]. rewrite Nat.add_1_r, Nat2Z.inj_succ, Z.pow_succ_r
        by lia.
      pose proof (Z.div_mod n 10 ltac:(lia)). lia.
Qed.

(** [str(n)] for [n >= 0] is a non-empty run of digits that reads back as
    [n]. *)
Lemma digits_of_nonneg_reads (n : Z) :
  (0 <= n)%Z ->
  forall_chars is_digit (digits_of_nonneg n) = true /\
  digits_of_nonneg n <> "" /\
  digits_val (digits_of_nonneg n) = n.
Proof.
  intros Hn. unfold digits_of_nonneg.
  assert (Hb : (0 <= n < 2 ^ Z.of_nat (S (Z.to_nat (Z.log2 n))))%Z).
  { split; [assumption|].
    rewrite Nat2Z.inj_succ, Z2Nat.id by apply Z.log2_nonneg.
    destruct (Z.eq_dec n 0) as [->|Hne]; [reflexivity|].
    apply Z.log2_spec. lia. }
  destruct (digits_of_pos_fuel_reads _ n "" Hb) as [d [Hd1 [Hd2 [Hd3 Hd4]]]].
  rewrite Hd1, append_nil_r. split; [assumption|]. split; [assumption|].
  unfold digits_val. rewrite Hd4. lia.
Qed.

(** A digit is no whitespace, no sign and no dash. *)
Lemma digit_is_plain (c : ascii) :
  is_digit c = true ->
  is_space c = false /\ Ascii.eqb c "-" = false /\ Ascii.eqb c "+" = false.
Proof.
  destruct c as [[] [] [] [] [] [] [] []]; vm_compute; intros H;
    first [discriminate H|split; [|split]; reflexivity].
Qed.

Lemma rstrip_digits (d : string) :
  forall_chars is_digit d = true -> rstrip d = d.
Proof.
  induction d as [|c d IH]; cbn [forall_chars rstrip]; [reflexivity|].
  intros H. apply andb_true_iff in H. destruct H as [Hc Hd].
  destruct (digit_is_plain c Hc) as [Hs _]. rewrite Hs, (IH Hd). reflexivity.
Qed.

Lemma digitpart_rest_digits (d : string) :
  forall_chars is_digit d = true -> Float64.digitpart_rest d = (d, "").
Proof.
  induction d as [|c d IH]; cbn [forall_chars Float64.digitpart_rest];
    [reflexivity|].
  intros H. apply andb_true_iff in H. destruct H as [Hc Hd].
  now rewrite Hc, (IH Hd).
Qed.

(** [int(d)] for a non-empty run of digits. *)
Lemma int_of_string_digits (d : string) :
  forall_chars is_digit d = true -> d <> "" ->
  int_of_string d = OK (digits_val d).
Proof.
  intros Hd Hne. destruct d as [|c d]; [now elim Hne|].
  pose proof Hd as Hall. cbn [forall_chars] in Hd.
  apply andb_true_iff in Hd. destruct Hd as [Hc Hd].
  destruct (digit_is_plain c Hc) as [Hs [Hm Hp]].
  unfold int_of_string, strip. cbn [lstrip]. rewrite Hs.
  rewrite (rstrip_digits _ Hall).
  unfold Float64.read_sign. rewrite Hm, Hp.
  unfold Float64.digitpart. rewrite Hc, (digitpart_rest_digits d Hd).
  reflexivity.
Qed.

Lemma split_on_aux_head (sep : ascii) (d rest : string) :
  forall_chars (fun c => negb (Ascii.eqb c sep)) d = true ->
  forall cur,
    split_on_aux sep cur (d ++ String sep rest)
    = (cur ++ d) :: split_on_aux sep "" rest.
Proof.
  intros Hd. induction d as [|c d IH]; intros cur;
    cbn [append split_on_aux].
  - now rewrite Ascii.eqb_refl, append_nil_r.
  - cbn [forall_chars] in Hd. apply andb_true_iff in Hd.
    destruct Hd as [Hc Hd]. apply negb_true_iff in Hc. rewrite Hc.
    rewrite (IH Hd), append_assoc. reflexivity.
Qed.

Lemma digits_without_dash (d : string) :
  forall_chars is_digit d = true ->
  forall_chars (fun c => negb (Ascii.eqb c "-")) d = true.
Proof.
  induction d as [|c d IH]; cbn [forall_chars]; [reflexivity|].
  intros H. apply andb_true_iff in H. destruct H as [Hc Hd].
  destruct (digit_is_plain c Hc) as [_ [Hm _]]. now rewrite Hm, (IH Hd).
Qed.

(** [parse_delivery_days] reads back the number written in front of the
    first dash: for every [n >= 0] and every text [rest], the delivery text
    made of [str(n)], a dash and [rest] gives [n].  The delivery texts of
    the catalogue are of this form. *)
Theorem parse_delivery_days_reads_the_number :
  forall (n : Z) (rest : string),
    (0 <= n)%Z ->
    parse_delivery_days (VStr (string_of_Z n ++ "-" ++ rest)) = OK n /\
    Forall (fun p => exists k,
              (0 <= k)%Z /\ p_delivery p = string_of_Z k ++ "-day")
      results.
Proof.
  intros n rest Hn. split.
  - unfold string_of_Z. destruct (Z.ltb_spec n 0) as [Hlt|_]; [lia|].
    destruct (digits_of_nonneg_reads n Hn) as [Hd [Hne Hv]].
    unfold parse_delivery_days, attr_split, split_on. cbn [bind].
    change ("-" ++ rest) with (String "-" rest).
    rewrite (split_on_aux_head "-" _ rest (digits_without_dash _ Hd) "").
    cbn [map append]. rewrite subscript_first. cbn [bind to_int].
    now rewrite (int_of_string_digits _ Hd Hne), Hv.
  - unfold results.
    repeat (apply Forall_cons;
            [first [exists 2%Z; split; [lia|reflexivity]
                   |exists 3%Z; split; [lia|reflexivity]
                   |exists 4%Z; split; [lia|reflexivity]
                   |exists 5%Z; split; [lia|reflexivity]]|]).
    apply Forall_nil.
Qed.

Lemma parse_delivery_days_reads_the_number_witness :
  parse_delivery_days (VStr (string_of_Z 14 ++ "-" ++ "day express"))
  = OK 14%Z.
Proof.
  apply (parse_delivery_days_reads_the_number 14 "day express"). lia.
Defined.

(** *** Delivery targets *)

Lemma lower_char_idempotent (c : ascii) :
  lower_char (lower_char c) = lower_char c.
Proof.
  destruct c as [[] [] [] [] [] [] [] []]; vm_compute; reflexivity.
Qed.

Lemma lower_idempotent (s : string) : lower (lower s) = lower s.
Proof.
  unfold lower. induction s as [|c s IH]; cbn [map_chars]; [reflexivity|].
  now rewrite lower_char_idempotent, IH.
Qed.

(** The target is read through its lower-case form. *)
Lemma feasibility_of_lower (today : Datetime.datetime) (days_needed : Z)
    (target : string) :
  calculate_delivery_feasibility today days_needed (VStr target)
  = calculate_delivery_feasibility today days_needed (VStr (lower target)).
Proof.
  unfold calculate_delivery_feasibility. cbn [attr_lower bind].
  now rewrite lower_idempotent.
Qed.

(** The weekday branch, where it is reached.  For a target that is
    "tuesday", "wednesday" or "friday" in any letter case, the requested
    date is the next day of that name, one to seven days after today, and
    [can_deliver] tells whether the days needed are at most that many. *)
Theorem weekday_target_can_deliver :
  forall (today : Datetime.datetime) (days_needed : Z) (target : string)
         (idx : Z),
    In (lower target, idx) [("tuesday", 1); ("wednesday", 2); ("friday", 4)]%Z ->
    Datetime.valid today ->
    (Datetime.toordinal today + 7 <= Datetime.MAXORDINAL)%Z ->
    (0 <= days_needed <= 7)%Z ->
    exists k,
      (1 <= k <= 7)%Z /\
      let delivery_date :=
        Datetime.mk_datetime (Datetime.toordinal today + days_needed)
          (Datetime.micros today) in
      let target_date :=
        Datetime.mk_datetime (Datetime.toordinal today + k)
          (Datetime.micros today) in
      Datetime.weekday target_date = idx /\
      calculate_delivery_feasibility today days_needed (VStr target)
        = OK (feasibility delivery_date target_date) /\
      Datetime.leb delivery_date target_date = (days_needed <=? k)%Z.
Proof.
  intros today days_needed target idx Hin Hvalid Hroom Hdays.
  destruct (weekday_branch_next_occurrence today _ days_needed (lower target)
              idx Hin Hvalid Hroom
              (add_days_small today days_needed Hvalid Hdays Hroom))
    as [k [target_date [Hk [Hadd [Hw Hres]]]]].
  rewrite (add_days_small today k Hvalid ltac:(lia) Hroom) in Hadd.
  inversion Hadd; subst target_date.
  exists k. split; [exact Hk|]. cbv zeta. split; [exact Hw|].
  split; [now rewrite feasibility_of_lower|].
  unfold Datetime.leb. cbn [Datetime.toordinal Datetime.micros].
  destruct (Z.ltb_spec (Datetime.toordinal today + days_needed)
              (Datetime.toordinal today + k));
    destruct (Z.eqb_spec (Datetime.toordinal today + days_needed)
                (Datetime.toordinal today + k));
    destruct (Z.leb_spec (Datetime.micros today) (Datetime.micros today));
    destruct (Z.leb_spec days_needed k); cbn [orb andb];
    try reflexivity; lia.
Qed.

Lemma weekday_target_can_deliver_witness :
  exists k,
    (1 <= k <= 7)%Z /\
    let delivery_date :=
      Datetime.mk_datetime (Datetime.toordinal wednesday_morning + 3)
        (Datetime.micros wednesday_morning) in
    let target_date :=
      Datetime.mk_datetime (Datetime.toordinal wednesday_morning + k)
        (Datetime.micros wednesday_morning) in
    Datetime.weekday target_date = 4%Z /\
    calculate_delivery_feasibility wednesday_morning 3 (VStr "Friday")
      = OK (feasibility delivery_date target_date) /\
    Datetime.leb delivery_date target_date = (3 <=? k)%Z.
Proof.
  apply (weekday_target_can_deliver wednesday_morning 3 "Friday" 4).
  - right. right. left. reflexivity.
  - unfold Datetime.valid. vm_compute. intuition discriminate.
  - vm_compute. discriminate.
  - lia.
Defined.






End DeliveryFacts.

(** ** Criteria written with digits *)

Section DigitCriteria.

Import Tools Statements Coverage Agent.

Lemma digit_is_no_letter (c : ascii) :
  is_digit c = true ->
  lower_char c = c /\ Ascii.eqb c "i" = false /\ Ascii.eqb c "n" = false.
Proof.
  destruct c as [[] [] [] [] [] [] [] []]; vm_compute; intros H;
    first [discriminate H|split; [|split]; reflexivity].
Qed.

(** [float(d)] for a non-empty run of digits is the float of the number
    they read as. *)
Lemma to_float_digits (d : string) :
  forall_chars is_digit d = true -> d <> "" ->
  (0 <= digits_val d)%Z ->
  to_float (VStr d) = OK (Float64.of_Z (digits_val d)).
Proof.
  intros Hd Hne Hpos. destruct d as [|c d]; [now elim Hne|].
  pose proof Hd as Hall. cbn [forall_chars] in Hd.
  apply andb_true_iff in Hd. destruct Hd as [Hc Hd].
  destruct (digit_is_plain c Hc) as [Hs [Hm Hp]].
  destruct (digit_is_no_letter c Hc) as [Hl [Hi Hn]].
  cbn [to_float]. unfold Float64.of_string, strip. cbn [lstrip].
  rewrite Hs, (rstrip_digits _ Hall).
  unfold Float64.read_sign. rewrite Hm, Hp.
  unfold lower. cbn [map_chars]. rewrite Hl.
  cbn [String.eqb]. rewrite Hi, Hn. cbn [orb].
  unfold Float64.read_decimal, Float64.digitpart.
  rewrite Hc, (digitpart_rest_digits d Hd).
  cbn [Float64.read_exponent String.length]. rewrite append_nil_r.
  change (0 - Z.of_nat 0)%Z with 0%Z.
  destruct (digits_val (String c d)) as [|p|p] eqn:E; [reflexivity| |lia].
  unfold Float64.of_decimal, Float64.of_Z.
  change (0 <=? 0)%Z with true. cbv iota.
  change (Z.to_pos (10 ^ 0)) with 1%positive.
  now rewrite Pos.mul_1_r.
Qed.

(** The loop body once the range has been parsed to the pair (0, x). *)
Lemma product_passes_upper_bound (s : string) (x : Float64.float)
    (p : product) :
  In p results -> s <> "" ->
  parse_price_range (VStr s) = OK (VTuple [VInt 0; VFloat x]) ->
  product_passes VNone VNone (VStr s) VNone VNone VNone p
  = OK (price_between (Float64.of_Z 0) x p).
Proof.
  intros Hin Hne Hparse. unfold product_passes at 1.
  cbn [truthy bind negb].
  destruct (String.eqb_spec s "") as [E|_]; [now elim Hne|].
  cbn [negb]. rewrite Hparse. cbn [truthy bind negb unpack2].
  change (to_float (VInt 0)) with (OK (A := Float64.float) (Float64.of_Z 0)).
  rewrite (catalogue_price_converts p Hin).
  cbn [bind to_float]. unfold price_between.
  destruct (Float64.leb (Float64.of_Z 0) (price_float p)); cbn [andb bind].
  - destruct (Float64.leb (price_float p) x); reflexivity.
  - reflexivity.
Qed.

(** A price text with "under" or "less than" is read through all its
    digits and dots, joined in the order they stand in: when these are the
    digits of [n], the range is (0, n) and the search keeps exactly the
    products priced from 0 to [n]. *)
Theorem under_text_reads_all_digits :
  forall (s : string) (n : Z),
    (contains "under" (lower s) || contains "less than" (lower s))%bool
      = true ->
    (0 <= n)%Z ->
    filter_chars is_digit_or_dot (lower s) = string_of_Z n ->
    parse_price_range (VStr s)
      = OK (VTuple [VInt 0; VFloat (Float64.of_Z n)]) /\
    search_by_price (VStr s)
      = OK (listing (filter (price_between (Float64.of_Z 0) (Float64.of_Z n))
                       results)).
Proof.
  intros s n Hkey Hn Hdigits.
  assert (Hparse : parse_price_range (VStr s)
                   = OK (VTuple [VInt 0; VFloat (Float64.of_Z n)])).
  { unfold parse_price_range. cbn [attr_lower bind]. rewrite Hkey, Hdigits.
    unfold string_of_Z. destruct (Z.ltb_spec n 0) as [Hlt|_]; [lia|].
    destruct (digits_of_nonneg_reads n Hn) as [Hd [Hne Hv]].
    rewrite (to_float_digits _ Hd Hne) by (rewrite Hv; exact Hn).
    now rewrite Hv. }
  split; [exact Hparse|].
  apply search_by_price_filter. intros p Hin.
  apply product_passes_upper_bound; [assumption| |exact Hparse].
  intros ->. discriminate Hkey.
Qed.

Lemma under_text_reads_all_digits_witness :
  parse_price_range (VStr "Under $70, or 80 at most")
    = OK (VTuple [VInt 0; VFloat (Float64.of_Z 7080)]) /\
  search_by_price (VStr "Under $70, or 80 at most")
    = OK (listing (filter (price_between (Float64.of_Z 0) (Float64.of_Z 7080))
                     results)).
Proof.
  apply (under_text_reads_all_digits "Under $70, or 80 at most" 7080);
    [reflexivity|lia|reflexivity].
Defined.

Lemma string_of_Z_nonempty (n : Z) : string_of_Z n <> "".
Proof.
  unfold string_of_Z. destruct (Z.ltb_spec n 0) as [Hlt|Hge].
  - discriminate.
  - now destruct (digits_of_nonneg_reads n Hge) as [_ [Hne _]].
Qed.

(** A size given as a number is compared through its text: the number [n],
    when it is not 0, selects what the text [str(n)] selects; the number 0
    is falsy and selects everything, like no size at all. *)
Theorem search_size_given_as_number :
  forall (name color price_range in_stock store delivery : pyval) (n : Z),
    (n <> 0%Z ->
     eccomerce_search_aggregtor name color price_range (VInt n) in_stock store
       delivery
     = eccomerce_search_aggregtor name color price_range
         (VStr (string_of_Z n)) in_stock store delivery) /\
    eccomerce_search_aggregtor name color price_range (VInt 0) in_stock store
      delivery
    = eccomerce_search_aggregtor name color price_range VNone in_stock store
        delivery.
Proof.
  intros name color price_range in_stock store delivery n. split.
  - intros Hn. unfold eccomerce_search_aggregtor. f_equal.
    apply search_loop_ext. intros p. unfold product_passes.
    cbn [truthy str repr].
    destruct (Z.eqb_spec n 0) as [E|_]; [now elim Hn|].
    destruct (String.eqb_spec (string_of_Z n) "") as [E|_];
      [now elim (string_of_Z_nonempty n)|].
    reflexivity.
  - unfold eccomerce_search_aggregtor. f_equal.
Qed.

Lemma search_size_given_as_number_witness :
  eccomerce_search_aggregtor (VStr "sneakers") VNone VNone (VInt 8) VNone
    VNone VNone
  = eccomerce_search_aggregtor (VStr "sneakers") VNone VNone
      (VStr (string_of_Z 8)) VNone VNone VNone.
Proof.
  apply (proj1 (search_size_given_as_number (VStr "sneakers") VNone VNone
                  VNone VNone VNone 8)).
  discriminate.
Defined.

End DigitCriteria.

(** ** The shape of parsed tool calls *)

Section CallFacts.

Import Tools Statements Coverage Agent.









End CallFacts.

(** ** Keyword arguments *)

Section KeywordFacts.

Import Tools Statements Coverage Agent.




End KeywordFacts.

(** ** Rounds of the loop *)

Section RoundFacts.

Import Tools Statements Coverage Agent.

Variable call_llm : nat -> string -> option string.
Variable clock : nat -> Datetime.datetime.

(** The calls of a round are executed one after the other, in the order
    of the list: each is added to the calls executed so far, and its
    observation to the text of observations, the [k]-th execution of the
    run reading the clock at [k]. *)
Lemma run_tool_calls_order (calls done : list tool_call) (observed : string) :
  run_tool_calls clock calls done observed
  = ((done ++ calls)%list,
     observed ++ observations clock (List.length done) calls).
Proof.
  revert done observed.
  induction calls as [|[tool_name params] calls IH]; intros done observed;
    cbn [run_tool_calls observations].
  - now rewrite app_nil_r, append_nil_r.
  - rewrite IH. rewrite <- app_assoc. cbn [app].
    rewrite length_app. cbn [List.length]. rewrite Nat.add_1_r.
    unfold observation. cbn [fst snd]. f_equal.
    now rewrite !append_assoc.
Qed.

(** A round whose response carries tool calls: the calls are executed in
    the order the parser gives them; the transcript gets the response and
    then the observations of these calls, in the same order; the calls are
    added, in order, to those executed before; and the loop goes on with
    one iteration less. *)
Theorem round_appends_observations_in_order :
  forall (n : nat) (st : state) (last : option string) (r : string)
         (c : tool_call) (cs : list tool_call),
    call_llm (llm_calls st) (conversation_context st) = Some r ->
    parse_tool_calls r = OK (c :: cs) ->
    loop_from call_llm clock (S n) st last
    = loop_from call_llm clock n
        (mk_state
           (conversation_context st ++ nl ++ "Assistant: " ++ r ++ nl ++
            "Observations: "
            ++ observations clock (List.length (executed st)) (c :: cs)
            ++ nl)
           (S (llm_calls st))
           (executed st ++ c :: cs)%list)
        (Some r).
Proof.
  intros n st last r c cs Hr Hp. cbn [loop_from]. rewrite Hr.
  destruct (String.eqb_spec r "") as [->|_].
  - rewrite parse_tool_calls_empty in Hp. discriminate.
  - rewrite Hp. cbn [bind]. rewrite run_tool_calls_order.
    cbn [executed conversation_context llm_calls append]. reflexivity.
Qed.

(** How a run of the loop ends, with [n] iterations left: with the response
    in hand when no iteration is left; else with the fixed error text after
    a completion that failed or was empty; else with the last completion
    received, which has no tool call in it unless it used up the last
    iteration. *)
Lemma loop_from_outcomes :
  forall (n : nat) (st : state) (last : option string),
    (n = 0%nat -> last <> None) ->
    exists o,
      loop_from call_llm clock n st last = OK o /\
      (llm_calls st + Nat.min n 1 <= llm_calls (final o)
       <= llm_calls st + n)%nat /\
      ((n = 0%nat /\ last = Some (answer o)) \/
       (answer o = failure_text /\
        exists k prompt,
          llm_calls (final o) = S k /\
          (call_llm k prompt = None \/ call_llm k prompt = Some "")) \/
       (answer o <> "" /\
        exists k prompt,
          llm_calls (final o) = S k /\
          call_llm k prompt = Some (answer o) /\
          (parse_tool_calls (answer o) = OK [] \/
           llm_calls (final o) = (llm_calls st + n)%nat))).
Proof.
  induction n as [|n IH]; intros st last Hlast.
  - destruct last as [r|]; [|now elim (Hlast eq_refl)].
    exists (mk_outcome r st). split; [reflexivity|].
    cbn [final llm_calls Nat.min answer]. split; [lia|]. left. now split.
  - cbn [loop_from].
    destruct (call_llm (llm_calls st) (conversation_context st)) as [r|] eqn:Er.
    + destruct (String.eqb_spec r "") as [->|Hne].
      * eexists. split; [reflexivity|]. cbn [final llm_calls answer].
        split; [lia|]. right. left. split; [reflexivity|].
        exists (llm_calls st), (conversation_context st). now split; [|right].
      * destruct (parse_tool_calls_total r) as [calls Hcalls].
        rewrite Hcalls. cbn [bind].
        destruct (run_tool_calls clock calls _ "") as [done observed].
        destruct calls as [|c calls].
        -- eexists. split; [reflexivity|]. cbn [final llm_calls answer].
           split; [lia|]. right. right. split; [assumption|].
           exists (llm_calls st), (conversation_context st).
           split; [reflexivity|]. split; [assumption|]. now left.
        -- match goal with
           | |- context [loop_from _ _ n ?st' ?l] =>
               destruct (IH st' l ltac:(discriminate))
                 as [o [Ho [Hc Hend]]]
           end.
           exists o. split; [exact Ho|]. cbn [llm_calls] in Hc.
           split; [lia|].
           destruct Hend as [[-> Hr]|[Hfail|[Hne' [k [prompt [Hk [Hcall Hp]]]]]]].
           ++ inversion Hr as [Hr']. right. right.
              rewrite <- Hr'. split; [assumption|].
              exists (llm_calls st), (conversation_context st).
              cbn [Nat.min] in Hc.
              split; [lia|]. split; [assumption|]. right. lia.
           ++ right. left. exact Hfail.
           ++ right. right. split; [assumption|].
              exists k, prompt. split; [assumption|]. split; [assumption|].
              destruct Hp as [Hp|Hp]; [now left|right].
              cbn [llm_calls] in Hp. lia.
    + eexists. split; [reflexivity|]. cbn [final llm_calls answer].
      split; [lia|]. right. left. split; [reflexivity|].
      exists (llm_calls st), (conversation_context st). now split; [|left].
Qed.



End RoundFacts.

Section RoundWitnesses.

Import Tools Statements Coverage Agent.

Lemma round_appends_observations_in_order_witness :
  let call_llm := fun (_ : nat) (_ : string) => Some always_calls in
  let c := ("discount_promo_checker",
            VDict [("product_name", VStr "Floral Skirt")]) in
  loop_from call_llm sample_clock 1 (initial "skirt?") None
  = loop_from call_llm sample_clock 0
      (mk_state
         (conversation_context (initial "skirt?") ++ nl ++ "Assistant: "
          ++ always_calls ++ nl ++ "Observations: "
          ++ observations sample_clock 0 [c] ++ nl)
         1 [c])
      (Some always_calls).
Proof.
  intros call_llm c.
  apply (round_appends_observations_in_order call_llm sample_clock 0
           (initial "skirt?") None always_calls c []).
  - reflexivity.
  - vm_compute. reflexivity.
Defined.


End RoundWitnesses.

(** ** The completion client *)

Section ClientFacts.

Import Tools Statements Coverage Agent.

Variable create : nat -> string -> result pyval.
Variable clock : nat -> Datetime.datetime.

Lemma lstrip_head (s : string) : head_ok (lstrip s) = true.
Proof.
  induction s as [|c s IH]; cbn [lstrip]; [reflexivity|].
  destruct (is_space c) eqn:Hc; [exact IH|]. cbn [head_ok]. now rewrite Hc.
Qed.

Lemma lstrip_fixed (s : string) : head_ok s = true -> lstrip s = s.
Proof.
  destruct s as [|c s]; cbn [head_ok lstrip]; [reflexivity|].
  intros H. apply negb_true_iff in H. now rewrite H.
Qed.

Lemma rstrip_head (s : string) : head_ok s = true -> head_ok (rstrip s) = true.
Proof.
  destruct s as [|c s]; cbn [head_ok rstrip]; [reflexivity|].
  intros H. pose proof H as H'. apply negb_true_iff in H'. rewrite H'.
  cbn [andb head_ok]. exact H.
Qed.

Lemma rstrip_idempotent (s : string) : rstrip (rstrip s) = rstrip s.
Proof.
  induction s as [|c s IH]; cbn [rstrip]; [reflexivity|].
  destruct (is_space c && String.eqb (rstrip s) "")%bool eqn:E;
    [reflexivity|].
  cbn [rstrip]. now rewrite IH, E.
Qed.

(** [strip] leaves a stripped text as it is. *)
Lemma strip_idempotent (s : string) : strip (strip s) = strip s.
Proof.
  unfold strip.
  rewrite (lstrip_fixed (rstrip (lstrip s)))
    by apply rstrip_head, lstrip_head.
  apply rstrip_idempotent.
Qed.

(** The loop over the client.  The answer of [react_loop] never starts or
    ends with whitespace: it is the fixed error text or a completion as
    [call_llm] returns it, stripped.  When the first request raises, or
    gives a content that is no text, or a text of whitespace only, the
    loop returns the fixed error text after this one request. *)
Theorem completions_are_stripped_and_failures_contained :
  forall query : string,
    (forall o,
       react_loop (Client.call_llm create) clock query = OK o ->
       strip (answer o) = answer o) /\
    ((forall s, create 0%nat ("User Query: " ++ query ++ nl) = OK (VStr s) ->
                strip s = "") ->
     exists o,
       react_loop (Client.call_llm create) clock query = OK o /\
       answer o = failure_text /\ llm_calls (final o) = 1%nat).
Proof.
  intros query. split.
  - intros o Ho.
    destruct (loop_from_outcomes (Client.call_llm create) clock
                MAX_ITERATIONS (initial query) None ltac:(discriminate))
      as [o' [Ho' [_ Hend]]].
    unfold react_loop in Ho. rewrite Ho in Ho'. inversion Ho'; subst o'.
    destruct Hend as [[H _]|[[Hf _]|[_ [k [prompt [_ [Hcall _]]]]]]].
    + discriminate H.
    + rewrite Hf. reflexivity.
    + unfold Client.call_llm in Hcall.
      destruct (create k prompt) as [v|e]; cbn [bind] in Hcall;
        [|discriminate].
      destruct v; cbn [Client.attr_strip] in Hcall; try discriminate.
      inversion Hcall as [Ha]. apply strip_idempotent.
  - intros Hblank. unfold react_loop, MAX_ITERATIONS. cbn [loop_from].
    unfold initial at 1 2. cbn [llm_calls conversation_context].
    unfold Client.call_llm at 1.
    destruct (create 0%nat ("User Query: " ++ query ++ nl)) as [v|e] eqn:E;
      cbn [bind].
    + destruct v; cbn [Client.attr_strip];
        try (eexists; split; [reflexivity|]; split; reflexivity).
      rewrite (Hblank s eq_refl).
      eexists; split; [reflexivity|]; split; reflexivity.
    + eexists; split; [reflexivity|]; split; reflexivity.
Qed.

End ClientFacts.

Section ClientWitness.

Import Tools Statements Coverage Agent.

Lemma completions_are_stripped_and_failures_contained_witness :
  let create := fun (_ : nat) (_ : string) => OK (VStr "   ") in
  exists o,
    react_loop (Client.call_llm create) sample_clock "skirt?" = OK o /\
    answer o = failure_text /\ llm_calls (final o) = 1%nat.
Proof.
  intros create.
  apply (completions_are_stripped_and_failures_contained create sample_clock
           "skirt?").
  intros s H. inversion H. reflexivity.
Defined.

End ClientWitness.

(** ** The calendar *)

Section CalendarFacts.

Import Tools Statements Coverage Agent Datetime.

Local Open Scope Z_scope.

(** The days before a year, by the cycles of 400, 100 and 4 years. *)
Lemma days_before_year_cycles (q400 q100 q4 q1 : Z) :
  0 <= q100 <= 3 -> 0 <= q4 <= 24 -> 0 <= q1 <= 3 ->
  days_before_year (400 * q400 + 100 * q100 + 4 * q4 + q1 + 1)
  = 146097 * q400 + 36524 * q100 + 1461 * q4 + 365 * q1.
Proof.
  intros H100 H4 H1. unfold days_before_year. cbv zeta.
  replace (400 * q400 + 100 * q100 + 4 * q4 + q1 + 1 - 1)
    with (400 * q400 + 100 * q100 + 4 * q4 + q1) by lia.
  assert (E4 : (400 * q400 + 100 * q100 + 4 * q4 + q1) / 4
               = 100 * q400 + 25 * q100 + q4).
  { symmetry. apply (Z.div_unique _ 4 _ q1); lia. }
  assert (E100 : (400 * q400 + 100 * q100 + 4 * q4 + q1) / 100
                 = 4 * q400 + q100).
  { symmetry. apply (Z.div_unique _ 100 _ (4 * q4 + q1)); lia. }
  assert (E400 : (400 * q400 + 100 * q100 + 4 * q4 + q1) / 400 = q400).
  { symmetry. apply (Z.div_unique _ 400 _ (100 * q100 + 4 * q4 + q1)); lia. }
  rewrite E4, E100, E400. lia.
Qed.

Lemma is_leap_cycles (q400 q100 q4 q1 : Z) :
  0 <= q100 <= 3 -> 0 <= q4 <= 24 -> 0 <= q1 <= 3 ->
  is_leap (400 * q400 + 100 * q100 + 4 * q4 + q1 + 1)
  = ((q1 =? 3) && (negb (q4 =? 24) || (q100 =? 3)))%bool.
Proof.
  intros H100 H4 H1. unfold is_leap.
  set (y := 400 * q400 + 100 * q100 + 4 * q4 + q1 + 1).
  assert (M4 : y mod 4 = (q1 + 1) mod 4).
  { unfold y.
    replace (400 * q400 + 100 * q100 + 4 * q4 + q1 + 1)
      with (q1 + 1 + (100 * q400 + 25 * q100 + q4) * 4) by lia.
    apply Z.mod_add. lia. }
  assert (M100 : y mod 100 = (4 * q4 + q1 + 1) mod 100).
  { unfold y.
    replace (400 * q400 + 100 * q100 + 4 * q4 + q1 + 1)
      with (4 * q4 + q1 + 1 + (4 * q400 + q100) * 100) by lia.
    apply Z.mod_add. lia. }
  assert (M400 : y mod 400 = (100 * q100 + 4 * q4 + q1 + 1) mod 400).
  { unfold y.
    replace (400 * q400 + 100 * q100 + 4 * q4 + q1 + 1)
      with (100 * q100 + 4 * q4 + q1 + 1 + q400 * 400) by lia.
    apply Z.mod_add. lia. }
  rewrite M4, M100, M400.
  destruct (Z.eqb_spec q1 3) as [->|Hq1].
  - change ((3 + 1) mod 4) with 0. cbn [Z.eqb andb].
    destruct (Z.eqb_spec q4 24) as [->|Hq4].
    + change ((4 * 24 + 3 + 1) mod 100) with 0. cbn [Z.eqb negb orb].
      destruct (Z.eqb_spec q100 3) as [->|Hq100]; [reflexivity|].
      rewrite Z.mod_small by lia.
      destruct (Z.eqb_spec (100 * q100 + 4 * 24 + 3 + 1) 0); [lia|reflexivity].
    + rewrite (Z.mod_small (4 * q4 + 3 + 1)) by lia.
      destruct (Z.eqb_spec (4 * q4 + 3 + 1) 0); [lia|reflexivity].
  - rewrite (Z.mod_small (q1 + 1)) by lia.
    destruct (Z.eqb_spec (q1 + 1) 0); [lia|reflexivity].
Qed.

(** Names the quotient and the remainder of a division by a positive
    constant, and keeps what relates them. *)
Ltac divide a b q r :=
  let E := fresh "E" in
  let B := fresh "B" in
  pose proof (Z.div_mod a b ltac:(lia)) as E;
  pose proof (Z.mod_pos_bound a b ltac:(lia)) as B;
  set (q := a / b) in *; set (r := a mod b) in *;
  clearbody q r.

Ltac finish_date HL HD :=
  unfold valid_date, ymd2ord, days_in_month, days_before_month;
  rewrite ?HL; cbn; rewrite ?HD; repeat split; lia.

(** [_ord2ymd] gives a date of the calendar, the one with the ordinal it
    was given. *)
Lemma ord2ymd_inverse (n0 : Z) :
  1 <= n0 ->
  let '(y, m, d) := ord2ymd n0 in valid_date y m d /\ ymd2ord y m d = n0.
Proof.
  intros Hn. unfold ord2ymd. cbv zeta. unfold DI400Y, DI100Y, DI4Y.
  divide (n0 - 1) 146097 q400 r400.
  divide r400 36524 q100 r100.
  divide r100 1461 q4 r4.
  divide r4 365 q1 r1.
  assert (Hq400 : 0 <= q400) by nia.
  assert (Hq100 : 0 <= q100 <= 4) by nia.
  assert (Hq4 : 0 <= q4 <= 24) by nia.
  assert (Hq1 : 0 <= q1 <= 4) by nia.
  replace (q400 * 400 + 1 + q100 * 100 + q4 * 4 + q1)
    with (400 * q400 + 100 * q100 + 4 * q4 + q1 + 1) by lia.
  destruct (Z.eqb_spec q1 4) as [Is1|N1]; cbn [orb].
  - (* the last day of a leap year *)
    assert (Hq4' : q4 <= 23) by lia.
    assert (Hq100' : q100 <= 3) by lia.
    replace (400 * q400 + 100 * q100 + 4 * q4 + q1 + 1 - 1)
      with (400 * q400 + 100 * q100 + 4 * q4 + 3 + 1) by lia.
    pose proof (is_leap_cycles q400 q100 q4 3 ltac:(lia) ltac:(lia) ltac:(lia))
      as HL.
    pose proof (days_before_year_cycles q400 q100 q4 3
                  ltac:(lia) ltac:(lia) ltac:(lia)) as HD.
    remember (400 * q400 + 100 * q100 + 4 * q4 + 3 + 1) as Y eqn:HY.
    destruct (Z.eqb_spec q4 24) as [Is4|_]; [lia|].
    cbn in HL.
    finish_date HL HD.
  - destruct (Z.eqb_spec q100 4) as [Is100|N100].
    + (* the last day of a cycle of 400 years *)
      replace (400 * q400 + 100 * q100 + 4 * q4 + q1 + 1 - 1)
        with (400 * q400 + 100 * 3 + 4 * 24 + 3 + 1) by lia.
      pose proof (is_leap_cycles q400 3 24 3 ltac:(lia) ltac:(lia) ltac:(lia))
        as HL.
      pose proof (days_before_year_cycles q400 3 24 3
                    ltac:(lia) ltac:(lia) ltac:(lia)) as HD.
      remember (400 * q400 + 100 * 3 + 4 * 24 + 3 + 1) as Y eqn:HY.
      cbn in HL.
      finish_date HL HD.
    + pose proof (is_leap_cycles q400 q100 q4 q1
                    ltac:(lia) ltac:(lia) ltac:(lia)) as HL.
      pose proof (days_before_year_cycles q400 q100 q4 q1
                    ltac:(lia) ltac:(lia) ltac:(lia)) as HD.
      remember (400 * q400 + 100 * q100 + 4 * q4 + q1 + 1) as Y eqn:HY.
      remember ((q1 =? 3) && (negb (q4 =? 24) || (q100 =? 3)))%bool as L.
      clear HeqL.
      divide (r1 + 50) 32 mo ro.
      assert (Hmo : mo = 1 \/ mo = 2 \/ mo = 3 \/ mo = 4 \/ mo = 5 \/
                    mo = 6 \/ mo = 7 \/ mo = 8 \/ mo = 9 \/ mo = 10 \/
                    mo = 11 \/ mo = 12) by lia.
      cbv iota.
      destruct L;
        repeat (destruct Hmo as [->|Hmo];
                [cbn;
                 match goal with
                 | |- context [?a <? ?b] => destruct (Z.ltb_spec a b)
                 end;
                 finish_date HL HD|]);
        subst mo; cbn;
        match goal with
        | |- context [?a <? ?b] => destruct (Z.ltb_spec a b)
        end;
        finish_date HL HD.
Qed.

(** A year has 365 days, and one more when it is a leap year. *)
Lemma year_length (y : Z) :
  days_before_year (y + 1)
  = days_before_year y + 365 + (if is_leap y then 1 else 0).
Proof.
  unfold days_before_year, is_leap. cbv zeta.
  replace (y + 1 - 1) with y by lia.
  destruct (Z.eqb_spec (y mod 4) 0); destruct (Z.eqb_spec (y mod 100) 0);
    destruct (Z.eqb_spec (y mod 400) 0); cbn [negb orb andb];
    Z.div_mod_to_equations; lia.
Qed.

Lemma days_before_year_monotone (a b : Z) :
  a <= b -> days_before_year a <= days_before_year b.
Proof.
  intros H. unfold days_before_year. cbv zeta. Z.div_mod_to_equations. lia.
Qed.

(** Evaluates the month tables and the tests on a given month. *)
Ltac month_tables :=
  cbn [DAYS_IN_MONTH DAYS_BEFORE_MONTH Z.eqb Z.ltb Z.compare Pos.compare
       Pos.compare_cont Pos.eqb andb negb orb] in *.

Lemma month_cases (m : Z) :
  1 <= m <= 12 ->
  m = 1 \/ m = 2 \/ m = 3 \/ m = 4 \/ m = 5 \/ m = 6 \/ m = 7 \/ m = 8 \/
  m = 9 \/ m = 10 \/ m = 11 \/ m = 12.
Proof. lia. Qed.

(** The days of a year: a date is between the first and the last. *)
Lemma day_of_year_bounds (y m d : Z) :
  valid_date y m d ->
  1 <= days_before_month y m + d <= 365 + (if is_leap y then 1 else 0).
Proof.
  intros [_ [Hm Hd]]. unfold days_in_month, days_before_month in *.
  revert Hd. destruct (is_leap y); intros Hd;
    destruct (month_cases m Hm) as [->|[->|[->|[->|[->|[->|[->|[->|[->|[->|[->| ->]]]]]]]]]]];
    month_tables; lia.
Qed.

(** Two dates of a year with the same day of the year are the same. *)
Lemma same_year_injective (y m d m' d' : Z) :
  valid_date y m d -> valid_date y m' d' ->
  days_before_month y m + d = days_before_month y m' + d' ->
  m = m' /\ d = d'.
Proof.
  intros [_ [Hm Hd]] [_ [Hm' Hd']].
  unfold days_in_month, days_before_month in *.
  revert Hd Hd'. destruct (is_leap y); intros Hd Hd';
    destruct (month_cases m Hm) as [->|[->|[->|[->|[->|[->|[->|[->|[->|[->|[->| ->]]]]]]]]]]];
    destruct (month_cases m' Hm') as [->|[->|[->|[->|[->|[->|[->|[->|[->|[->|[->| ->]]]]]]]]]]];
    month_tables; lia.
Qed.

(** Two dates with the same ordinal are the same. *)
Lemma ymd2ord_injective (y m d y' m' d' : Z) :
  valid_date y m d -> valid_date y' m' d' ->
  ymd2ord y m d = ymd2ord y' m' d' ->
  y = y' /\ m = m' /\ d = d'.
Proof.
  intros Hv Hv' E. unfold ymd2ord in E.
  pose proof (day_of_year_bounds _ _ _ Hv) as Hb.
  pose proof (day_of_year_bounds _ _ _ Hv') as Hb'.
  pose proof (year_length y) as Hy. pose proof (year_length y') as Hy'.
  assert (Hsame : y = y').
  { destruct (Z.lt_trichotomy y y') as [Hlt|[Heq|Hgt]]; [|exact Heq|].
    - pose proof (days_before_year_monotone (y + 1) y' ltac:(lia)). lia.
    - pose proof (days_before_year_monotone (y' + 1) y ltac:(lia)). lia. }
  subst y'. split; [reflexivity|].
  apply (same_year_injective y); [assumption|assumption|lia].
Qed.

(** [_ord2ymd] undoes [_ymd2ord] on the dates of the calendar. *)
Lemma ord2ymd_ymd2ord (y m d : Z) :
  valid_date y m d -> ord2ymd (ymd2ord y m d) = (y, m, d).
Proof.
  intros Hv.
  assert (Hpos : 1 <= ymd2ord y m d).
  { pose proof (day_of_year_bounds _ _ _ Hv) as Hb.
    destruct Hv as [Hy _].
    pose proof (days_before_year_monotone 1 y Hy) as H1.
    change (days_before_year 1) with 0 in H1. unfold ymd2ord. lia. }
  pose proof (ord2ymd_inverse _ Hpos) as Hinv.
  destruct (ord2ymd (ymd2ord y m d)) as [[y2 m2] d2].
  destruct Hinv as [Hv2 E2].
  destruct (ymd2ord_injective _ _ _ _ _ _ Hv2 Hv E2) as [-> [-> ->]].
  reflexivity.
Qed.

Lemma month_has_28 (y m : Z) :
  1 <= m <= 12 -> 28 <= days_in_month y m <= 31.
Proof.
  intros Hm. unfold days_in_month.
  destruct (is_leap y);
    destruct (month_cases m Hm) as [->|[->|[->|[->|[->|[->|[->|[->|[->|[->|[->| ->]]]]]]]]]]];
    month_tables; lia.
Qed.

(** The first day of the next month follows the last day of a month. *)
Lemma next_month_follows (y m : Z) :
  1 <= m <= 12 ->
  let '(y', m') := next_month y m in
  1 <= m' <= 12 /\ y <= y' /\
  days_before_year y' + days_before_month y' m'
  = days_before_year y + days_before_month y m + days_in_month y m.
Proof.
  intros Hm. pose proof (year_length y) as Hy.
  unfold next_month, days_in_month, days_before_month.
  revert Hy. destruct (is_leap y) eqn:HL; intros Hy;
    destruct (month_cases m Hm) as [->|[->|[->|[->|[->|[->|[->|[->|[->|[->|[->| ->]]]]]]]]]]];
    cbn [Z.eqb Pos.eqb]; cbv iota;
    cbn [Z.add Pos.add Pos.succ Pos.add_carry];
    rewrite ?HL; month_tables; (split; [lia|split; [lia|]]); lia.
Qed.

(** The last supported day is the last day of the year 9999. *)
Lemma year_in_range (y m d : Z) :
  valid_date y m d -> ymd2ord y m d <= MAXORDINAL -> y <= 9999.
Proof.
  intros Hv Hmax. pose proof (day_of_year_bounds _ _ _ Hv) as Hb.
  destruct (Z.le_gt_cases y 9999) as [Hle|Hgt]; [exact Hle|].
  pose proof (days_before_year_monotone 10000 y ltac:(lia)) as Hmono.
  change (days_before_year 10000) with 3652059 in Hmono.
  unfold ymd2ord, MAXORDINAL in Hmax. lia.
Qed.

(** [datetime(y, m, d)] for a date of the calendar. *)
Lemma make_valid (y m d : Z) :
  valid_date y m d -> y <= 9999 ->
  make y m d = OK (mk_datetime (ymd2ord y m d) 0).
Proof.
  intros [Hy [Hm Hd]] Hmax. pose proof (month_has_28 y m Hm) as H28.
  unfold make, C_INT_MAX.
  destruct (Z.ltb_spec 2147483647 d); [lia|].
  destruct (Z.leb_spec 1 y); [|lia]. destruct (Z.leb_spec y 9999); [|lia].
  destruct (Z.leb_spec 1 m); [|lia]. destruct (Z.leb_spec m 12); [|lia].
  destruct (Z.leb_spec 1 d); [|lia].
  destruct (Z.leb_spec d (days_in_month y m)); [|lia].
  reflexivity.
Qed.

(** The day of the month of an ordinal that is a date of the calendar. *)
Lemma day_of_ordinal (y m d : Z) :
  valid_date y m d -> day (mk_datetime (ymd2ord y m d) 0) = d.
Proof.
  intros Hv. unfold day. cbn [toordinal].
  now rewrite (ord2ymd_ymd2ord _ _ _ Hv).
Qed.

(** The date the ordinal branch makes of a day number from 1 to 28: the
    first day with that number, from today on. *)
Lemma next_day_numbered (today : datetime) (d : Z) :
  valid today -> toordinal today + 31 <= MAXORDINAL -> 1 <= d <= 28 ->
  exists T,
    (let '(y, m) :=
       if d <? day today
       then if month today =? 12 then (year today + 1, 1)
            else (year today, month today + 1)
       else (year today, month today) in
     make y m d) = OK (mk_datetime T 0) /\
    day (mk_datetime T 0) = d /\
    toordinal today <= T <= toordinal today + 30 /\
    forall T', toordinal today <= T' < T -> day (mk_datetime T' 0) <> d.
Proof.
  intros [[Hlo Hhi] _] Hroom Hd.
  pose proof (ord2ymd_inverse (toordinal today) Hlo) as Hinv.
  unfold year, month, day at 1.
  destruct (ord2ymd (toordinal today)) as [[y m] dd].
  cbn [fst snd]. destruct Hinv as [Hv Hn].
  pose proof Hv as [Hy [Hm Hdd]].
  pose proof (month_has_28 y m Hm) as H28.
  destruct (Z.ltb_spec d dd) as [Hlt|Hge].
  - (* the day has passed: next month *)
    pose proof (next_month_follows y m Hm) as Hnext.
    change (if m =? 12 then (y + 1, 1) else (y, m + 1))
      with (next_month y m).
    destruct (next_month y m) as [y' m'].
    destruct Hnext as [Hm' [Hy' Hfirst]].
    pose proof (month_has_28 y' m' Hm') as H28'.
    assert (Hv' : forall i, 1 <= i <= d -> valid_date y' m' i)
      by (intros i Hi; unfold valid_date; lia).
    assert (Hmax' : y' <= 9999).
    { apply (year_in_range y' m' d (Hv' d ltac:(lia))).
      unfold ymd2ord in *. lia. }
    exists (ymd2ord y' m' d).
    split; [apply make_valid; [apply Hv'; lia|exact Hmax']|].
    split; [apply day_of_ordinal, Hv'; lia|].
    split; [unfold ymd2ord in *; lia|].
    intros T' HT'.
    destruct (Z.le_gt_cases (T' - toordinal today + dd) (days_in_month y m))
      as [Hin|Hout].
    + replace T' with (ymd2ord y m (T' - toordinal today + dd))
        by (unfold ymd2ord in *; lia).
      rewrite day_of_ordinal by (unfold valid_date; lia). lia.
    + replace T' with
        (ymd2ord y' m' (T' - toordinal today + dd - days_in_month y m))
        by (unfold ymd2ord in *; lia).
      rewrite day_of_ordinal
        by (apply Hv'; unfold ymd2ord in *; lia).
      unfold ymd2ord in *. lia.
  - (* the day is still to come, or is today *)
    assert (Hv' : forall i, dd <= i <= d -> valid_date y m i)
      by (intros i Hi; unfold valid_date; lia).
    assert (Hmax : y <= 9999).
    { apply (year_in_range y m dd Hv). rewrite Hn. lia. }
    exists (ymd2ord y m d).
    split; [apply make_valid; [apply Hv'; lia|exact Hmax]|].
    split; [apply day_of_ordinal, Hv'; lia|].
    split; [unfold ymd2ord in *; lia|].
    intros T' HT'.
    replace T' with (ymd2ord y m (T' - toordinal today + dd))
      by (unfold ymd2ord in *; lia).
    rewrite day_of_ordinal by (apply Hv'; unfold ymd2ord in *; lia).
    unfold ymd2ord in *. lia.
Qed.

(** The ordinal branch on a day of the month.  For a target that contains
    "st", "nd", "rd" or "th" and whose digits read as a day number [d]
    from 1 to 28, the requested date is midnight of the first day numbered
    [d] from today on: today itself when today is the [d]-th, a later day
    of this month when the [d]-th is still to come, the [d]-th of the next
    month otherwise; it is at most 30 days away. *)
Theorem ordinal_target_is_the_next_such_day :
  forall (today : datetime) (days_needed : Z) (target : string) (d : Z),
    valid today -> toordinal today + 31 <= MAXORDINAL ->
    0 <= days_needed <= 7 ->
    existsb (fun x => contains x (lower target)) ["st"; "nd"; "rd"; "th"]
      = true ->
    filter_chars is_digit (lower target) = string_of_Z d ->
    1 <= d <= 28 ->
    exists T,
      calculate_delivery_feasibility today days_needed (VStr target)
      = OK (feasibility
              (mk_datetime (toordinal today + days_needed) (micros today))
              (mk_datetime T 0)) /\
      day (mk_datetime T 0) = d /\
      toordinal today <= T <= toordinal today + 30 /\
      forall T', toordinal today <= T' < T -> day (mk_datetime T' 0) <> d.
Proof.
  intros today days_needed target d Hvalid Hroom Hdays Hsuffix Hdigits Hd.
  destruct (next_day_numbered today d Hvalid Hroom Hd)
    as [T [Hmake [Hday [Hnear Hfirst]]]].
  exists T. split; [|split; [exact Hday|split; [exact Hnear|exact Hfirst]]].
  unfold calculate_delivery_feasibility. cbn [attr_lower bind].
  rewrite Hsuffix, Hdigits.
  unfold string_of_Z. destruct (Z.ltb_spec d 0) as [Hneg|_]; [lia|].
  destruct (digits_of_nonneg_reads d ltac:(lia)) as [Hall [Hne Hval]].
  rewrite (int_of_string_digits _ Hall Hne), Hval. cbn [bind].
  destruct (if d <? day today
            then if month today =? 12 then (year today + 1, 1)
                 else (year today, month today + 1)
            else (year today, month today)) as [y m].
  rewrite Hmake. cbn [bind].
  rewrite (add_days_small today days_needed Hvalid Hdays ltac:(lia)).
  reflexivity.
Qed.

Lemma ordinal_target_is_the_next_such_day_witness :
  exists T,
    calculate_delivery_feasibility wednesday_morning 2 (VStr "by the 3rd")
    = OK (feasibility
            (mk_datetime (toordinal wednesday_morning + 2)
               (micros wednesday_morning))
            (mk_datetime T 0)) /\
    day (mk_datetime T 0) = 3 /\
    toordinal wednesday_morning <= T <= toordinal wednesday_morning + 30 /\
    forall T', toordinal wednesday_morning <= T' < T ->
               day (mk_datetime T' 0) <> 3.
Proof.
  apply (ordinal_target_is_the_next_such_day wednesday_morning 2
           "by the 3rd" 3).
  - unfold valid. vm_compute. intuition discriminate.
  - vm_compute. discriminate.
  - lia.
  - reflexivity.
  - reflexivity.
  - lia.
Defined.

End CalendarFacts.
